(** * BETalentBoard: the authentication and session-rotation subsystem

    A shallow embedding of [controllers/authController.js],
    [controllers/userController.js], [middlewares/auth.js], the two route
    files, [utils/jwt.js] and [utils/password.js], together with the
    properties of the token lifecycle that the design document states about
    them.

    External collaborators are idealised as follows.
    - [jsonwebtoken]: a token is a symbolic term carrying the key it was
      signed with and its claims; a signature checks exactly when the keys
      agree (HS256 is deterministic, so equal inputs give equal tokens).
      Signing throws, and verifying fails, when the secret is empty or unset.
    - [bcrypt]: a hash is a symbolic term carrying the salt and the bytes of
      the password that bcrypt consumes; a value that is not a string makes
      it throw.
    - Prisma: the [User] table is a list of rows; a value given for a
      [String] must be a string without a NUL character, else the call
      throws. The wall clock, the salt drawn by bcrypt and the row a
      [findFirst] without [orderBy] happens to return are inputs of every
      request ([World]). *)

From Stdlib Require Import String Ascii ZArith List Bool Arith Lia.
Import ListNotations.
Local Open Scope string_scope.

(** ** Primitive data *)

(** [String @id @default(cuid())]: an opaque identifier, never empty. *)
Definition Id := nat.

(** A property of [req.body] as [express.json()] delivers it: absent,
    [null], a string, or a value of another JSON type (a number, a boolean,
    an array or an object). Of a value of another type the handlers look at
    the truthiness only; [json] is its text. Prisma and bcrypt take such a
    value for no string; an object written in Prisma's own filter or
    update syntax is not among the values modelled. *)
Inductive Field :=
| Absent
| IsNull
| Text (s : string)
| Other (json : string) (truthy : bool).

(** JavaScript truthiness ([undefined], [null] and the empty string are
    falsy). *)
Definition truthy (f : Field) : bool :=
  match f with
  | Text s => negb (s =? "")
  | Other _ b => b
  | Absent | IsNull => false
  end.

(** The string a property holds, if it holds one. *)
Definition str (f : Field) : string :=
  match f with Text s => s | _ => "" end.

(** What a call into a library gives: the value it returns, or an
    exception. *)
Inductive Try (A : Type) :=
| Returns (a : A)
| Throws.
Arguments Returns {A} a.
Arguments Throws {A}.

(** ** jsonwebtoken *)

Module Jwt.

(** Claims of a token signed by this program: the payload [{ userId }]
    plus the [iat] and [exp] that [jwt.sign] adds, in seconds. *)
Record claims := { userId : Id; iat : Z; exp : Z }.

(** What is presented as a token: either a well-formed JWT signed under
    [key], or anything else. A truthy value that is not a string counts
    among the rest, since [jwt.verify] refuses it with a
    [JsonWebTokenError] like a string that is no JWT; a falsy one is as good
    as the empty string. *)
Inductive token :=
| Signed (key : string) (c : claims)
| Malformed (raw : string).

Inductive error := TokenExpiredError | JsonWebTokenError.

Definition claims_eq_dec (a b : claims) : {a = b} + {a <> b}.
Proof. decide equality; (apply Z.eq_dec || apply Nat.eq_dec). Defined.

Definition token_eq_dec (a b : token) : {a = b} + {a <> b}.
Proof. decide equality; (apply string_dec || apply claims_eq_dec). Defined.

Definition eqb (a b : token) : bool :=
  if token_eq_dec a b then true else false.

(** [Math.floor(Date.now() / 1000)] *)
Definition seconds (now : Z) : Z := (now / 1000)%Z.

(** [jwt.sign({ userId }, secret, { expiresIn })] at wall-clock [now] (ms);
    it throws [secretOrPrivateKey must have a value] when the secret is
    empty or unset. *)
Definition sign (uid : Id) (secret : string) (expiresIn : Z) (now : Z)
  : Try token :=
  if secret =? "" then Throws
  else Returns (Signed secret {| userId := uid;
                                 iat := seconds now;
                                 exp := (seconds now + expiresIn)%Z |}).

(** [jwt.verify(token, secret)]: structure and signature first, then
    expiry ([clockTimestamp >= payload.exp] is expired). Without a secret
    the error is [secret or public key must be provided], a
    [JsonWebTokenError] like the others. *)
Definition verify (t : token) (secret : string) (now : Z) : error + claims :=
  match t with
  | Malformed _ => inl JsonWebTokenError
  | Signed key c =>
      if secret =? "" then inl JsonWebTokenError
      else if string_dec key secret then
        if (exp c <=? seconds now)%Z then inl TokenExpiredError else inr c
      else inl JsonWebTokenError
  end.

(** Truthiness of a presented token string. *)
Definition present (o : option token) : bool :=
  match o with
  | Some (Malformed raw) => negb (raw =? "")
  | Some (Signed _ _) => true
  | None => false
  end.

End Jwt.

(** ** bcrypt *)

Module Bcrypt.

(** bcrypt consumes at most the first 72 bytes of the password. *)
Definition key (pw : string) : string := substring 0 72 pw.

Inductive digest := Digest (salt : string) (k : string).

(** The hash of a string under a salt, and whether a string matches a
    hash. *)
Definition digestOf (salt pw : string) : digest := Digest salt (key pw).

Definition matches (pw : string) (h : digest) : bool :=
  match h with Digest _ k => key pw =? k end.

(** [bcrypt.hash(data, rounds)] and [bcrypt.compare(data, hash)]: both
    throw unless [data] is a string. *)
Definition hash (salt : string) (data : Field) : Try digest :=
  match data with
  | Text pw => Returns (digestOf salt pw)
  | _ => Throws
  end.

Definition compare (data : Field) (h : digest) : Try bool :=
  match data with
  | Text pw => Returns (matches pw h)
  | _ => Throws
  end.

End Bcrypt.

(** ** The [User] model of the Prisma schema *)

Inductive Role := USER | ADMIN.

Module User.

Record t := {
  id : Id;
  email : string;
  username : option string;
  password : Bcrypt.digest;
  name : option string;
  avatar : option string;
  role : Role;
  isActive : bool;
  resetToken : option Jwt.token;
  resetTokenExpiry : option Z;
  refreshToken : option Jwt.token;
  createdAt : Z;
  updatedAt : Z
}.

End User.

(** ** JSON values carried by responses *)

#[warnings="-register-all"]
Inductive value :=
| VNull
| VUndefined
| VBool (b : bool)
| VStr (s : string)
| VId (i : Id)
| VDate (ms : Z)
| VToken (t : Jwt.token)
| VDigest (h : Bcrypt.digest)
| VObj (fields : list (string * value)).

Definition vopt {A} (f : A -> value) (o : option A) : value :=
  match o with Some a => f a | None => VNull end.

Definition vrole (r : Role) : value :=
  match r with USER => VStr "USER" | ADMIN => VStr "ADMIN" end.

(** The object Prisma returns for a row when no [select] is given. *)
Definition row_object (u : User.t) : list (string * value) :=
  [ ("id", VId (User.id u));
    ("email", VStr (User.email u));
    ("username", vopt VStr (User.username u));
    ("password", VDigest (User.password u));
    ("name", vopt VStr (User.name u));
    ("avatar", vopt VStr (User.avatar u));
    ("role", vrole (User.role u));
    ("isActive", VBool (User.isActive u));
    ("resetToken", vopt VToken (User.resetToken u));
    ("resetTokenExpiry", vopt VDate (User.resetTokenExpiry u));
    ("refreshToken", vopt VToken (User.refreshToken u));
    ("createdAt", VDate (User.createdAt u));
    ("updatedAt", VDate (User.updatedAt u)) ].

Definition has_key (k : string) (o : list (string * value)) : bool :=
  existsb (fun kv => fst kv =? k) o.

Fixpoint field (k : string) (o : list (string * value)) : option value :=
  match o with
  | [] => None
  | (k', v) :: rest => if k' =? k then Some v else field k rest
  end.

(** [select: { k1: true, ... }] *)
Definition select (keys : list string) (o : list (string * value))
  : list (string * value) :=
  filter (fun kv => existsb (String.eqb (fst kv)) keys) o.

(** Rest destructuring [const { k1: _, ..., ...rest } = o]. *)
Definition omit (keys : list string) (o : list (string * value))
  : list (string * value) :=
  filter (fun kv => negb (existsb (String.eqb (fst kv)) keys)) o.

(** What [res.json] puts on the wire: properties whose value is [undefined]
    are dropped. *)
Fixpoint to_json (v : value) : value :=
  match v with
  | VObj fields =>
      VObj ((fix go (l : list (string * value)) : list (string * value) :=
               match l with
               | [] => []
               | (k, VUndefined) :: rest => go rest
               | (k, x) :: rest => (k, to_json x) :: go rest
               end) fields)
  | _ => v
  end.

(** ** Prisma: the [User] table *)

Definition DB := list User.t.

Module Prisma.

Definition opt_token_eqb (a b : option Jwt.token) : bool :=
  match a, b with
  | Some x, Some y => Jwt.eqb x y
  | None, None => true
  | _, _ => false
  end.

(** PostgreSQL takes no string that holds a NUL character. *)
Definition nul_free (s : string) : bool :=
  forallb (fun c => negb (Ascii.eqb c Ascii.zero)) (list_ascii_of_string s).

(** A value given where the schema has a [String]: Prisma throws on a
    value that is not a string, the database on a string it does not
    take. *)
Definition stringArg (v : Field) : Try string :=
  match v with
  | Text s => if nul_free s then Returns s else Throws
  | _ => Throws
  end.

(** The same for a [String?] of [data]: absent and [null] both leave the
    column of a new row empty. *)
Definition nullable (v : Field) : Try (option string) :=
  match v with
  | Absent | IsNull => Returns None
  | Text s => if nul_free s then Returns (Some s) else Throws
  | Other _ _ => Throws
  end.

Definition byEmail (e : string) (u : User.t) : bool := User.email u =? e.

Definition byUsername (n : string) (u : User.t) : bool :=
  match User.username u with
  | Some n' => n' =? n
  | None => false
  end.

(** [findUnique({ where: { email } })] *)
Definition findByEmail (db : DB) (email : Field) : Try (option User.t) :=
  match stringArg email with
  | Returns e => Returns (find (byEmail e) db)
  | Throws => Throws
  end.

(** [findUnique({ where: { username } })] *)
Definition findByUsername (db : DB) (username : Field) : Try (option User.t) :=
  match stringArg username with
  | Returns n => Returns (find (byUsername n) db)
  | Throws => Throws
  end.

(** [findUnique({ where: { id } })] *)
Definition findById (db : DB) (i : Id) : option User.t :=
  find (fun u => (User.id u =? i)%nat) db.

(** [findUnique({ where: { id, refreshToken } })] *)
Definition findByIdAndRefreshToken (db : DB) (i : Id) (t : Jwt.token)
  : option User.t :=
  find (fun u => (User.id u =? i)%nat
                 && opt_token_eqb (User.refreshToken u) (Some t)) db.

(** [findFirst({ where: { id, resetToken, resetTokenExpiry: { gt: now } } })] *)
Definition findByIdAndLiveResetToken (db : DB) (i : Id) (t : Jwt.token)
    (now : Z) : option User.t :=
  find (fun u => (User.id u =? i)%nat
                 && opt_token_eqb (User.resetToken u) (Some t)
                 && match User.resetTokenExpiry u with
                    | Some e => (now <? e)%Z
                    | None => false
                    end) db.

(** The identifier the store gives to the next row. *)
Definition freshId (db : DB) : Id := S (list_max (map User.id db)).

(** The row a [create] writes: the schema defaults fill the columns that
    [data] does not give. *)
Definition created (db : DB) (now : Z) (e : string) (pw : Bcrypt.digest)
    (n un : option string) : User.t :=
  {| User.id := freshId db;
     User.email := e;
     User.username := un;
     User.password := pw;
     User.name := n;
     User.avatar := None;
     User.role := USER;
     User.isActive := true;
     User.resetToken := None;
     User.resetTokenExpiry := None;
     User.refreshToken := None;
     User.createdAt := now;
     User.updatedAt := now |}.

(** [create({ data: { email, password, name, username } })]: the call
    throws on a value that is no [String], and when the unique constraint
    on [email] or on [username] would break. *)
Definition create (db : DB) (now : Z) (email : Field) (pw : Bcrypt.digest)
    (name username : Field) : Try (DB * User.t) :=
  match stringArg email, nullable name, nullable username with
  | Returns e, Returns n, Returns un =>
      let taken :=
        match find (byEmail e) db, un with
        | Some _, _ => true
        | None, Some s => match find (byUsername s) db with
                          | Some _ => true
                          | None => false
                          end
        | None, None => false
        end in
      if taken then Throws
      else Returns ((db ++ [created db now e pw n un])%list,
                    created db now e pw n un)
  | _, _, _ => Throws
  end.

(** The [data] of an update: [None] leaves a column alone. *)
Record patch := {
  set_password : option Bcrypt.digest;
  set_resetToken : option (option Jwt.token);
  set_resetTokenExpiry : option (option Z);
  set_refreshToken : option (option Jwt.token)
}.

Definition pick {A} (o : option A) (old : A) : A :=
  match o with Some a => a | None => old end.

Definition apply_patch (now : Z) (p : patch) (u : User.t) : User.t :=
  {| User.id := User.id u;
     User.email := User.email u;
     User.username := User.username u;
     User.password := pick (set_password p) (User.password u);
     User.name := User.name u;
     User.avatar := User.avatar u;
     User.role := User.role u;
     User.isActive := User.isActive u;
     User.resetToken := pick (set_resetToken p) (User.resetToken u);
     User.resetTokenExpiry :=
       pick (set_resetTokenExpiry p) (User.resetTokenExpiry u);
     User.refreshToken := pick (set_refreshToken p) (User.refreshToken u);
     User.createdAt := User.createdAt u;
     User.updatedAt := now |}.

(** [update({ where: { id }, data })]: throws when no row has the id. *)
Definition update (db : DB) (now : Z) (i : Id) (p : patch) : Try DB :=
  match findById db i with
  | None => Throws
  | Some _ =>
      Returns (map (fun u => if (User.id u =? i)%nat
                             then apply_patch now p u else u) db)
  end.

End Prisma.

(** ** Requests, responses and the ambient world *)

(** [process.env]; a secret that is not set reads as the empty string,
    and the two time spans are already parsed into seconds. *)
Record Env := {
  JWT_SECRET : string;
  JWT_REFRESH_SECRET : string;
  JWT_EXPIRES_IN : option Z;
  JWT_REFRESH_EXPIRES_IN : option Z;
  NODE_ENV : option string
}.

(** What a request reads from outside the store: [Date.now()] in
    milliseconds, the salt bcrypt draws, and which of several matching rows
    a [findFirst] without [orderBy] returns. *)
Record World := { now : Z; salt : string; choice : nat }.

(** [req.user] as the middleware attaches it. *)
Record Identity := {
  ident_id : Id;
  ident_email : string;
  ident_username : option string;
  ident_name : option string;
  ident_role : Role;
  ident_isActive : bool
}.

(** The parts of [req] the handlers read. *)
Record Request := {
  body_email : Field;
  body_password : Field;
  body_name : Field;
  body_username : Field;
  body_refreshToken : option Jwt.token;
  body_token : option Jwt.token;
  body_newPassword : Field;
  body_currentPassword : Field;
  bearer : option Jwt.token;
  cookie_accessToken : option Jwt.token;
  cookie_refreshToken : option Jwt.token;
  user : option Identity
}.

Inductive Cookie :=
| SetCookie (name : string) (v : Jwt.token) (httpOnly secure : bool) (maxAge : Z)
| ClearCookie (name : string).

(** What [res.status(code).json(body)] sends. *)
Record Reply := {
  status : Z;
  success : bool;
  message : string;
  data : value
}.

Record Response := { sent : Reply; cookies : list Cookie }.

(** ** utils/helpers.js *)

(** Modelled from the spec: [successResponse] of utils/helpers.js is not
    among the sources; every response is
    [{success: boolean, message: string, data: object|null}], sent with the
    given status (200 when none is given). *)
Definition successResponse (d : value) (msg : string) (code : Z) : Reply :=
  {| status := code; success := true; message := msg; data := to_json d |}.

(** Modelled from the spec: [errorResponse] of utils/helpers.js is not among
    the sources; same shape, [success] false and no data. *)
Definition errorResponse (msg : string) (code : Z) : Reply :=
  {| status := code; success := false; message := msg; data := VNull |}.

(** Modelled from the spec: [validatePassword] of utils/helpers.js is not
    among the sources; the minimum-length policy is at least 6 characters,
    so a value that is not a string fails it. *)
Definition validatePassword (pw : Field) : bool :=
  match pw with
  | Text s => (6 <=? String.length s)%nat
  | _ => false
  end.

(** ** Handlers

    An [async (req, res) => { try { ... } catch (error) { ... } }] handler
    threads the table and the cookies set on [res]; a statement falls
    through, returns a response, or throws. Writes made before a throw stay. *)

Inductive Exn :=
| JwtError (e : Jwt.error)
| PrismaError
| TypeError
| Error.

Inductive Outcome (A : Type) :=
| Next (a : A)
| Return (r : Reply)
| Throw (e : Exn).
Arguments Next {A} a.
Arguments Return {A} r.
Arguments Throw {A} e.

Record State := { table : DB; jar : list Cookie }.

Definition Handler (A : Type) := State -> State * Outcome A.

Definition ret {A} (a : A) : Handler A := fun s => (s, Next a).

Definition bind {A B} (m : Handler A) (f : A -> Handler B) : Handler B :=
  fun s =>
    match m s with
    | (s', Next a) => f a s'
    | (s', Return r) => (s', Return r)
    | (s', Throw e) => (s', Throw e)
    end.

Declare Scope handler_scope.
Delimit Scope handler_scope with handler.
Notation "x <- m ;; k" := (bind m (fun x => k))
  (at level 100, m at next level, right associativity) : handler_scope.
Notation "m ;; k" := (bind m (fun _ => k))
  (at level 100, right associativity) : handler_scope.
Local Open Scope handler_scope.

(** [return xResponse(res, ...)] *)
Definition respond {A} (r : Reply) : Handler A := fun s => (s, Return r).

Definition throw {A} (e : Exn) : Handler A := fun s => (s, Throw e).

(** [if (cond) { return xResponse(res, ...) }] *)
Definition when (cond : bool) (r : Reply) : Handler unit :=
  if cond then respond r else ret tt.

(** A read of the table that cannot throw. *)
Definition query {A} (f : DB -> A) : Handler A :=
  fun s => (s, Next (f (table s))).

(** A read of the table with a filter taken from the request. *)
Definition lookup {A} (f : DB -> Try A) : Handler A :=
  fun s =>
    match f (table s) with
    | Returns a => (s, Next a)
    | Throws => (s, Throw PrismaError)
    end.

(** A call of [jwt.sign] or of bcrypt inside the [try]. *)
Definition attempt {A} (r : Try A) : Handler A :=
  match r with
  | Returns a => ret a
  | Throws => throw Error
  end.

Definition prisma_create (now : Z) (email : Field) (pw : Bcrypt.digest)
    (name username : Field) : Handler User.t :=
  fun s =>
    match Prisma.create (table s) now email pw name username with
    | Returns (db', u) => ({| table := db'; jar := jar s |}, Next u)
    | Throws => (s, Throw PrismaError)
    end.

Definition prisma_update (now : Z) (i : Id) (p : Prisma.patch) : Handler unit :=
  fun s =>
    match Prisma.update (table s) now i p with
    | Returns db' => ({| table := db'; jar := jar s |}, Next tt)
    | Throws => (s, Throw PrismaError)
    end.

(** [res.cookie(...)] and [res.clearCookie(...)] *)
Definition res_cookie (c : Cookie) : Handler unit :=
  fun s => ({| table := table s; jar := (jar s ++ [c])%list |}, Next tt).

(** A call of [jwt.verify] inside the [try]. *)
Definition verified (r : Jwt.error + Jwt.claims) : Handler Jwt.claims :=
  match r with
  | inl e => throw (JwtError e)
  | inr c => ret c
  end.

(** The [try { body } catch (error) { ... }] around a whole handler. Every
    path of a body ends in a [return], so a body yields no value. *)
Definition handle (body : Handler Empty_set) (catch : Exn -> Reply) (db : DB)
  : DB * Response :=
  match body {| table := db; jar := [] |} with
  | (s, Next e) => match e with end
  | (s, Return r) => (table s, {| sent := r; cookies := jar s |})
  | (s, Throw e) => (table s, {| sent := catch e; cookies := jar s |})
  end.

Definition is_some {A} (o : option A) : bool :=
  match o with Some _ => true | None => false end.

(** [a || b] on presented tokens. *)
Definition or_token (a b : option Jwt.token) : option Jwt.token :=
  if Jwt.present a then a else b.

(** A presented token after its truthiness test passed. *)
Definition the_token (o : option Jwt.token) : Jwt.token :=
  match o with Some t => t | None => Jwt.Malformed "" end.

(** A sample format check, for running the handlers on concrete requests. *)
Definition contains_at (e : Field) : bool :=
  match e with
  | Text s => existsb (fun c => Ascii.eqb c "@"%char) (list_ascii_of_string s)
  | _ => false
  end.

Section Controllers.

(** [process.env], fixed while the server runs. *)
Variable env : Env.

(** [validateEmail] of utils/helpers.js is not among the sources and the
    design document only calls it a format check: it stays a parameter, of
    whatever value the body holds. *)
Variable validateEmail : Field -> bool.

(** *** utils/jwt.js *)

Definition accessExpiresIn : Z :=
  match JWT_EXPIRES_IN env with Some d => d | None => (15 * 60)%Z end.

Definition refreshExpiresIn : Z :=
  match JWT_REFRESH_EXPIRES_IN env with
  | Some d => d
  | None => (7 * 24 * 60 * 60)%Z
  end.

Definition generateAccessToken (uid : Id) (now : Z) : Try Jwt.token :=
  Jwt.sign uid (JWT_SECRET env) accessExpiresIn now.

Definition generateRefreshToken (uid : Id) (now : Z) : Try Jwt.token :=
  Jwt.sign uid (JWT_REFRESH_SECRET env) refreshExpiresIn now.

Definition verifyToken (t : Jwt.token) (secret : string) (now : Z)
  : Jwt.error + Jwt.claims :=
  Jwt.verify t secret now.

Definition generateResetToken (uid : Id) (now : Z) : Try Jwt.token :=
  Jwt.sign uid (JWT_SECRET env) (60 * 60)%Z now.

(** *** utils/password.js *)

Definition hashPassword (w : World) (password : Field) : Try Bcrypt.digest :=
  Bcrypt.hash (salt w) password.

Definition comparePassword (password : Field) (hashedPassword : Bcrypt.digest)
  : Try bool :=
  Bcrypt.compare password hashedPassword.

(** *** controllers/authController.js *)

Definition production : bool :=
  match NODE_ENV env with Some m => m =? "production" | None => false end.

Definition development : bool :=
  match NODE_ENV env with Some m => m =? "development" | None => false end.

Definition accessCookie (t : Jwt.token) : Cookie :=
  SetCookie "accessToken" t true production (15 * 60 * 1000)%Z.

Definition refreshCookie (t : Jwt.token) : Cookie :=
  SetCookie "refreshToken" t true production (7 * 24 * 60 * 60 * 1000)%Z.

Definition store_refreshToken (t : option Jwt.token) : Prisma.patch :=
  {| Prisma.set_password := None;
     Prisma.set_resetToken := None;
     Prisma.set_resetTokenExpiry := None;
     Prisma.set_refreshToken := Some t |}.

(** POST /auth/register *)
Definition register (w : World) (req : Request) : DB -> DB * Response :=
  handle
    (let email := body_email req in
     let password := body_password req in
     let name := body_name req in
     let username := body_username req in
     when (negb (truthy email) || negb (truthy password))
          (errorResponse "Email and password are required" 400) ;;
     when (negb (validateEmail email))
          (errorResponse "Invalid email format" 400) ;;
     when (negb (validatePassword password))
          (errorResponse "Password must be at least 6 characters" 400) ;;
     existingUser <- lookup (fun db => Prisma.findByEmail db email) ;;
     when (is_some existingUser)
          (errorResponse "Email already registered" 400) ;;
     (if truthy username then
        existingUsername <-
          lookup (fun db => Prisma.findByUsername db username) ;;
        when (is_some existingUsername)
             (errorResponse "Username already taken" 400)
      else ret tt) ;;
     hashedPassword <- attempt (hashPassword w password) ;;
     user <- prisma_create (now w) email hashedPassword name username ;;
     accessToken <- attempt (generateAccessToken (User.id user) (now w)) ;;
     refreshToken <- attempt (generateRefreshToken (User.id user) (now w)) ;;
     prisma_update (now w) (User.id user)
                   (store_refreshToken (Some refreshToken)) ;;
     res_cookie (accessCookie accessToken) ;;
     res_cookie (refreshCookie refreshToken) ;;
     respond
       (successResponse
          (VObj [ ("user",
                   VObj (select ["id"; "email"; "username"; "name"; "role";
                                 "createdAt"] (row_object user)));
                  ("accessToken", VToken accessToken);
                  ("refreshToken", VToken refreshToken) ])
          "Registration successful" 201))
    (fun _ => errorResponse "Registration failed" 500).

(** POST /auth/login *)
Definition login (w : World) (req : Request) : DB -> DB * Response :=
  handle
    (let email := body_email req in
     let password := body_password req in
     when (negb (truthy email) || negb (truthy password))
          (errorResponse "Email and password are required" 400) ;;
     found <- lookup (fun db => Prisma.findByEmail db email) ;;
     match found with
     | None => respond (errorResponse "Invalid email or password" 401)
     | Some user =>
         when (negb (User.isActive user))
              (errorResponse "Account is deactivated" 401) ;;
         isPasswordValid <-
           attempt (comparePassword password (User.password user)) ;;
         when (negb isPasswordValid)
              (errorResponse "Invalid email or password" 401) ;;
         accessToken <- attempt (generateAccessToken (User.id user) (now w)) ;;
         refreshToken <- attempt (generateRefreshToken (User.id user) (now w)) ;;
         prisma_update (now w) (User.id user)
                       (store_refreshToken (Some refreshToken)) ;;
         res_cookie (accessCookie accessToken) ;;
         res_cookie (refreshCookie refreshToken) ;;
         let userResponse :=
           omit ["password"; "refreshToken"] (row_object user) in
         respond
           (successResponse
              (VObj [ ("user", VObj userResponse);
                      ("accessToken", VToken accessToken);
                      ("refreshToken", VToken refreshToken) ])
              "Login successful" 200)
     end)
    (fun _ => errorResponse "Login failed" 500).

(** POST /auth/logout *)
Definition logout (w : World) (req : Request) : DB -> DB * Response :=
  handle
    (match user req with
     | Some who =>
         prisma_update (now w) (ident_id who) (store_refreshToken None)
     | None => ret tt
     end ;;
     res_cookie (ClearCookie "accessToken") ;;
     res_cookie (ClearCookie "refreshToken") ;;
     respond (successResponse VNull "Logout successful" 200))
    (fun _ => errorResponse "Logout failed" 500).

(** POST /auth/refresh-token *)
Definition refreshToken (w : World) (req : Request) : DB -> DB * Response :=
  handle
    (let presented :=
       or_token (cookie_refreshToken req) (body_refreshToken req) in
     when (negb (Jwt.present presented))
          (errorResponse "Refresh token required" 401) ;;
     let refreshToken := the_token presented in
     decoded <-
       verified (verifyToken refreshToken (JWT_REFRESH_SECRET env) (now w)) ;;
     found <-
       query (fun db =>
                Prisma.findByIdAndRefreshToken db (Jwt.userId decoded)
                                               refreshToken) ;;
     match found with
     | None => respond (errorResponse "Invalid refresh token" 401)
     | Some user =>
         when (negb (User.isActive user))
              (errorResponse "Invalid refresh token" 401) ;;
         newAccessToken <-
           attempt (generateAccessToken (User.id user) (now w)) ;;
         newRefreshToken <-
           attempt (generateRefreshToken (User.id user) (now w)) ;;
         prisma_update (now w) (User.id user)
                       (store_refreshToken (Some newRefreshToken)) ;;
         res_cookie (accessCookie newAccessToken) ;;
         res_cookie (refreshCookie newRefreshToken) ;;
         respond
           (successResponse
              (VObj [ ("accessToken", VToken newAccessToken);
                      ("refreshToken", VToken newRefreshToken) ])
              "Token refreshed successfully" 200)
     end)
    (fun error =>
       match error with
       | JwtError Jwt.TokenExpiredError =>
           errorResponse "Refresh token expired" 401
       | JwtError Jwt.JsonWebTokenError =>
           errorResponse "Invalid refresh token" 401
       | _ => errorResponse "Token refresh failed" 500
       end).

(** POST /auth/forgot-password *)
Definition forgotPassword (w : World) (req : Request) : DB -> DB * Response :=
  handle
    (let email := body_email req in
     when (negb (truthy email)) (errorResponse "Email is required" 400) ;;
     when (negb (validateEmail email))
          (errorResponse "Invalid email format" 400) ;;
     found <- lookup (fun db => Prisma.findByEmail db email) ;;
     match found with
     | None =>
         respond (successResponse VNull
                    "If email exists, reset link has been sent" 200)
     | Some user =>
         resetToken <- attempt (generateResetToken (User.id user) (now w)) ;;
         let resetTokenExpiry := (now w + 60 * 60 * 1000)%Z in
         prisma_update (now w) (User.id user)
           {| Prisma.set_password := None;
              Prisma.set_resetToken := Some (Some resetToken);
              Prisma.set_resetTokenExpiry := Some (Some resetTokenExpiry);
              Prisma.set_refreshToken := None |} ;;
         respond
           (successResponse
              (VObj [ ("resetToken",
                       if development then VToken resetToken
                       else VUndefined) ])
              "If email exists, reset link has been sent" 200)
     end)
    (fun _ => errorResponse "Failed to process forgot password request" 500).

(** POST /auth/reset-password *)
Definition resetPassword (w : World) (req : Request) : DB -> DB * Response :=
  handle
    (let token := body_token req in
     let newPassword := body_newPassword req in
     when (negb (Jwt.present token) || negb (truthy newPassword))
          (errorResponse "Token and new password are required" 400) ;;
     when (negb (validatePassword newPassword))
          (errorResponse "Password must be at least 6 characters" 400) ;;
     decoded <-
       verified (verifyToken (the_token token) (JWT_SECRET env) (now w)) ;;
     found <-
       query (fun db =>
                Prisma.findByIdAndLiveResetToken db (Jwt.userId decoded)
                                                 (the_token token) (now w)) ;;
     match found with
     | None => respond (errorResponse "Invalid or expired reset token" 400)
     | Some user =>
         hashedPassword <- attempt (hashPassword w newPassword) ;;
         prisma_update (now w) (User.id user)
           {| Prisma.set_password := Some hashedPassword;
              Prisma.set_resetToken := Some None;
              Prisma.set_resetTokenExpiry := Some None;
              Prisma.set_refreshToken := Some None |} ;;
         respond (successResponse VNull "Password reset successful" 200)
     end)
    (fun error =>
       match error with
       | JwtError _ => errorResponse "Invalid or expired reset token" 400
       | _ => errorResponse "Password reset failed" 500
       end).

(** *** controllers/userController.js *)

(** PATCH /users/me/password; reading [req.user.id] without the
    middleware having set [req.user] is a [TypeError]. *)
Definition changeMyPassword (w : World) (req : Request)
  : DB -> DB * Response :=
  handle
    (let currentPassword := body_currentPassword req in
     let newPassword := body_newPassword req in
     when (negb (truthy currentPassword) || negb (truthy newPassword))
          (errorResponse "Current password and new password are required"
                         400) ;;
     when (negb (validatePassword newPassword))
          (errorResponse "New password must be at least 6 characters" 400) ;;
     match user req with
     | None => throw TypeError
     | Some who =>
         found <- query (fun db => Prisma.findById db (ident_id who)) ;;
         match found with
         | None => respond (errorResponse "User not found" 404)
         | Some user =>
             isCurrentPasswordValid <-
               attempt (comparePassword currentPassword
                                        (User.password user)) ;;
             when (negb isCurrentPasswordValid)
                  (errorResponse "Current password is incorrect" 400) ;;
             hashedNewPassword <- attempt (hashPassword w newPassword) ;;
             prisma_update (now w) (ident_id who)
               {| Prisma.set_password := Some hashedNewPassword;
                  Prisma.set_resetToken := None;
                  Prisma.set_resetTokenExpiry := None;
                  Prisma.set_refreshToken := Some None |} ;;
             res_cookie (ClearCookie "accessToken") ;;
             res_cookie (ClearCookie "refreshToken") ;;
             respond
               (successResponse VNull
                  "Password changed successfully. Please login again." 200)
         end
     end)
    (fun _ => errorResponse "Failed to change password" 500).

(** *** middlewares/auth.js *)

(** The [select] of the middleware. *)
Definition identify (u : User.t) : Identity :=
  {| ident_id := User.id u;
     ident_email := User.email u;
     ident_username := User.username u;
     ident_name := User.name u;
     ident_role := User.role u;
     ident_isActive := User.isActive u |}.

(** [req.user = user] *)
Definition attach (req : Request) (who : Identity) : Request :=
  {| body_email := body_email req;
     body_password := body_password req;
     body_name := body_name req;
     body_username := body_username req;
     body_refreshToken := body_refreshToken req;
     body_token := body_token req;
     body_newPassword := body_newPassword req;
     body_currentPassword := body_currentPassword req;
     bearer := bearer req;
     cookie_accessToken := cookie_accessToken req;
     cookie_refreshToken := cookie_refreshToken req;
     user := Some who |}.

(** The bearer token of the Authorization header, else the cookie. *)
Definition accessTokenOf (req : Request) : option Jwt.token :=
  if Jwt.present (bearer req) then bearer req else cookie_accessToken req.

(** [authenticate]: a 401 reply, or the request handed to [next()]. *)
Definition authenticate (w : World) (req : Request) (db : DB)
  : Reply + Request :=
  let token := accessTokenOf req in
  if negb (Jwt.present token) then
    inl (errorResponse "Access token required" 401)
  else
    match verifyToken (the_token token) (JWT_SECRET env) (now w) with
    | inl Jwt.TokenExpiredError => inl (errorResponse "Token expired" 401)
    | inl Jwt.JsonWebTokenError => inl (errorResponse "Invalid token" 401)
    | inr decoded =>
        match Prisma.findById db (Jwt.userId decoded) with
        | Some u =>
            if User.isActive u then inr (attach req (identify u))
            else inl (errorResponse "User not found or inactive" 401)
        | None => inl (errorResponse "User not found or inactive" 401)
        end
    end.

(** [optionalAuth]: never fails the request. *)
Definition optionalAuth (w : World) (req : Request) (db : DB) : Request :=
  let token := accessTokenOf req in
  if Jwt.present token then
    match verifyToken (the_token token) (JWT_SECRET env) (now w) with
    | inl _ => req
    | inr decoded =>
        match Prisma.findById db (Jwt.userId decoded) with
        | Some u => if User.isActive u then attach req (identify u) else req
        | None => req
        end
    end
  else req.

(** *** routes/auth.route.js and routes/user.route.js *)

Inductive Route :=
| PostRegister
| PostLogin
| PostLogout
| PostRefreshToken
| PostForgotPassword
| PostResetPassword
| PatchMyPassword.

Definition serve (r : Route) (w : World) (req : Request) (db : DB)
  : DB * Response :=
  match r with
  | PostRegister => register w req db
  | PostLogin => login w req db
  | PostLogout => logout w (optionalAuth w req db) db
  | PostRefreshToken => refreshToken w req db
  | PostForgotPassword => forgotPassword w req db
  | PostResetPassword => resetPassword w req db
  | PatchMyPassword =>
      match authenticate w req db with
      | inl r => (db, {| sent := r; cookies := [] |})
      | inr req' => changeMyPassword w req' db
      end
  end.

(** A history of calls to these routes, oldest first. *)
Definition Call := (Route * World * Request)%type.

Definition call_time (c : Call) : Z := now (snd (fst c)).

Fixpoint run (calls : list Call) (db : DB) : DB :=
  match calls with
  | [] => db
  | (r, w, req) :: rest => run rest (fst (serve r w req db))
  end.

(** The refresh token a request presents: cookie first, then body. *)
Definition presentedRefreshToken (req : Request) : Jwt.token :=
  the_token (or_token (cookie_refreshToken req) (body_refreshToken req)).

(** *** Token purposes, as the code binds them to secrets *)

Inductive Purpose := Access | Refresh | Reset.

(** The secret each purpose signs with ... *)
Definition issue (p : Purpose) (uid : Id) (now : Z) : Try Jwt.token :=
  match p with
  | Access => generateAccessToken uid now
  | Refresh => generateRefreshToken uid now
  | Reset => generateResetToken uid now
  end.

(** ... and the secret its consumer verifies under: [authenticate],
    [refreshToken] and [resetPassword]. *)
Definition secretOf (p : Purpose) : string :=
  match p with
  | Access => JWT_SECRET env
  | Refresh => JWT_REFRESH_SECRET env
  | Reset => JWT_SECRET env
  end.

Definition verifyAs (p : Purpose) (t : Jwt.token) (now : Z)
  : Jwt.error + Jwt.claims :=
  verifyToken t (secretOf p) now.

End Controllers.

(** ** User management: controllers/userController.js and its routes *)

(** What Prisma does with a [String?] property of the [data] of an update:
    [undefined] leaves the column alone, [null] empties it, a string the
    database takes fills it, and anything else makes the call throw. *)
Definition assigned (f : Field) : Try (option (option string)) :=
  match f with
  | Absent => Returns None
  | IsNull => Returns (Some None)
  | Text s => if Prisma.nul_free s then Returns (Some (Some s)) else Throws
  | Other _ _ => Throws
  end.

(** A request to the user routes: the part shared with the session routes
    (headers, cookies, [req.user]), [req.params.id], the body of an update
    and the file name multer stored the upload under. *)
Record UserRequest := {
  base : Request;
  params_id : Id;
  put_name : Field;
  put_username : Field;
  put_email : Field;
  put_role : Field;
  put_isActive : option bool;
  file_filename : option string
}.

Definition with_base (req : UserRequest) (b : Request) : UserRequest :=
  {| base := b;
     params_id := params_id req;
     put_name := put_name req;
     put_username := put_username req;
     put_email := put_email req;
     put_role := put_role req;
     put_isActive := put_isActive req;
     file_filename := file_filename req |}.

Module Profile.

(** The [data] of an update of the profile columns; [None] leaves a column
    alone. *)
Record data := {
  name : option (option string);
  username : option (option string);
  email : option string;
  role : option Role;
  isActive : option bool;
  avatar : option (option string)
}.

(** No property of [data] is set. *)
Definition empty (d : data) : bool :=
  match name d, username d, email d, role d, isActive d, avatar d with
  | None, None, None, None, None, None => true
  | _, _, _, _, _, _ => false
  end.

(** The row after an update; [updatedAt] moves only when [data] sets a
    column. *)
Definition apply (now : Z) (d : data) (u : User.t) : User.t :=
  if empty d then u else
  {| User.id := User.id u;
     User.email := Prisma.pick (email d) (User.email u);
     User.username := Prisma.pick (username d) (User.username u);
     User.password := User.password u;
     User.name := Prisma.pick (name d) (User.name u);
     User.avatar := Prisma.pick (avatar d) (User.avatar u);
     User.role := Prisma.pick (role d) (User.role u);
     User.isActive := Prisma.pick (isActive d) (User.isActive u);
     User.resetToken := User.resetToken u;
     User.resetTokenExpiry := User.resetTokenExpiry u;
     User.refreshToken := User.refreshToken u;
     User.createdAt := User.createdAt u;
     User.updatedAt := now |}.

Definition sameUsername (r : User.t) (n : string) : bool :=
  match User.username r with
  | Some n' => n' =? n
  | None => false
  end.

(** The unique constraints on [email] and [username]: another row already
    holds the value the update would write. *)
Definition clashes (db : DB) (i : Id) (d : data) : bool :=
  existsb (fun r =>
             negb (User.id r =? i)%nat
             && (match email d with
                 | Some e => User.email r =? e
                 | None => false
                 end
                 || match username d with
                    | Some (Some n) => sameUsername r n
                    | _ => false
                    end)) db.

Inductive outcome :=
| Updated (db : DB) (u : User.t)
| NotFound
| Conflict.

(** [update({ where: { id }, data })]: P2025 when no row has the id, P2002
    when a unique constraint would break; else the table and the row
    written. *)
Definition update (db : DB) (now : Z) (i : Id) (d : data) : outcome :=
  match Prisma.findById db i with
  | None => NotFound
  | Some u =>
      if clashes db i d then Conflict
      else Updated
             (map (fun r => if (User.id r =? i)%nat then apply now d r else r) db)
             (apply now d u)
  end.

(** [delete({ where: { id } })] on a row the database lets go. *)
Definition delete (db : DB) (i : Id) : DB :=
  filter (fun r => negb (User.id r =? i)%nat) db.

End Profile.

(** The value of the [Role] enum a string names, if any. *)
Definition parseRole (s : string) : option Role :=
  if s =? "USER" then Some USER
  else if s =? "ADMIN" then Some ADMIN
  else None.

Definition roleName (r : Role) : string :=
  match r with USER => "USER" | ADMIN => "ADMIN" end.

Definition isAdmin (who : Identity) : bool :=
  match ident_role who with ADMIN => true | USER => false end.

(** A handler's answer when it sets no cookie. *)
Definition answer (db : DB) (r : Reply) : DB * Response :=
  (db, {| sent := r; cookies := [] |}).

Definition profileKeys : list string :=
  ["id"; "email"; "username"; "name"; "avatar"; "role"; "isActive";
   "createdAt"; "updatedAt"].

(** [authorize(roles)] of middlewares/auth.js: the reply it sends, or
    nothing when it calls [next()]. *)
Definition authorize (roles : list string) (req : Request) : option Reply :=
  match user req with
  | None => Some (errorResponse "Authentication required" 401)
  | Some who =>
      if negb (length roles =? 0)%nat
         && negb (existsb (String.eqb (roleName (ident_role who))) roles)
      then Some (errorResponse "Insufficient permissions" 403)
      else None
  end.

Section UserController.

Variable env : Env.
Variable validateEmail : Field -> bool.

(** GET /users/:id; reading [req.user.role] without an identity is a
    [TypeError], caught as any other error. *)
Definition getUserById (req : UserRequest) (db : DB) : DB * Response :=
  match user (base req) with
  | None => answer db (errorResponse "Failed to retrieve user" 500)
  | Some who =>
      if negb (isAdmin who) && negb (ident_id who =? params_id req)%nat then
        answer db (errorResponse "Access denied" 403)
      else
        match Prisma.findById db (params_id req) with
        | None => answer db (errorResponse "User not found" 404)
        | Some u =>
            answer db
              (successResponse
                 (VObj [ ("user", VObj (select profileKeys (row_object u))) ])
                 "User retrieved successfully" 200)
        end
  end.

(** The rows the uniqueness check of an update looks for: not the row
    being updated, and holding the email or the user name of the body (each
    looked at only when truthy). *)
Definition holders (db : DB) (id : Id) (email username : Field) : list User.t :=
  filter (fun r =>
            negb (User.id r =? id)%nat
            && ((truthy email && (User.email r =? str email))
                || (truthy username
                    && Profile.sameUsername r (str username)))) db.

(** The row [findFirst] returns for that check: one of them, in no
    specified order. *)
Definition takenBy (w : World) (db : DB) (id : Id) (email username : Field)
  : option User.t :=
  nth_error (holders db id email username)
            (choice w mod length (holders db id email username)).

(** Whether Prisma takes a value as a [String]. *)
Definition isString (v : Field) : bool :=
  match Prisma.stringArg v with Returns _ => true | Throws => false end.

(** PUT /users/:id. The role of the body reaches Prisma only for an admin;
    a value that names no value of the enum, and a name, user name or email
    that is no [String], make the call they reach throw. *)
Definition updateUser (w : World) (req : UserRequest) (db : DB)
  : DB * Response :=
  match user (base req) with
  | None => answer db (errorResponse "Failed to update user" 500)
  | Some who =>
      let id := params_id req in
      let name := put_name req in
      let username := put_username req in
      let email := put_email req in
      let role := put_role req in
      if negb (isAdmin who) && negb (ident_id who =? id)%nat then
        answer db (errorResponse "Access denied" 403)
      else
        let newEmail :=
          if truthy email && validateEmail email
          then Some (str email) else None in
        let newRole :=
          if isAdmin who && truthy role
          then Some (parseRole (str role)) else None in
        let newActive := if isAdmin who then put_isActive req else None in
        let checked := truthy email || truthy username in
        let existingUser :=
          if checked then takenBy w db id email username else None in
        if checked
           && negb ((negb (truthy email) || isString email)
                    && (negb (truthy username) || isString username))
        then answer db (errorResponse "Failed to update user" 500)
        else
        match existingUser with
        | Some existing =>
            let field :=
              match email with
              | Text e => if User.email existing =? e then "Email"
                          else "Username"
              | _ => "Username"
              end in
            answer db (errorResponse (field ++ " already taken") 400)
        | None =>
            match newRole, assigned name, assigned username with
            | Some None, _, _ | _, Throws, _ | _, _, Throws =>
                answer db (errorResponse "Failed to update user" 500)
            | _, Returns newName, Returns newUsername =>
                let updateData :=
                  {| Profile.name := newName;
                     Profile.username := newUsername;
                     Profile.email := newEmail;
                     Profile.role :=
                       match newRole with Some r => r | None => None end;
                     Profile.isActive := newActive;
                     Profile.avatar := None |} in
                match Profile.update db (now w) id updateData with
                | Profile.Updated db' u =>
                    (db',
                     {| sent :=
                          successResponse
                            (VObj [ ("user",
                                     VObj (select
                                             ["id"; "email"; "username"; "name";
                                              "avatar"; "role"; "isActive";
                                              "updatedAt"] (row_object u))) ])
                            "User updated successfully" 200;
                        cookies := [] |})
                | Profile.NotFound =>
                    answer db (errorResponse "User not found" 404)
                | Profile.Conflict =>
                    answer db (errorResponse "Failed to update user" 500)
                end
            end
        end
  end.

(** DELETE /users/:id. [refused] says that the database does not let the
    row go because a row of another table still refers to it; those tables
    are not part of this model. *)
Definition deleteUser (refused : bool) (req : UserRequest) (db : DB)
  : DB * Response :=
  match user (base req) with
  | None => answer db (errorResponse "Failed to delete user" 500)
  | Some who =>
      let id := params_id req in
      if negb (isAdmin who) then
        answer db (errorResponse "Access denied" 403)
      else if (ident_id who =? id)%nat then
        answer db (errorResponse "Cannot delete your own account" 400)
      else
        match Prisma.findById db id with
        | None => answer db (errorResponse "User not found" 404)
        | Some _ =>
            if refused then
              answer db (errorResponse "Failed to delete user" 500)
            else
              answer (Profile.delete db id)
                     (successResponse VNull "User deleted successfully" 200)
        end
  end.

(** GET /users/me *)
Definition getMyProfile (req : UserRequest) (db : DB) : DB * Response :=
  match user (base req) with
  | None => answer db (errorResponse "Failed to retrieve profile" 500)
  | Some who =>
      match Prisma.findById db (ident_id who) with
      | None => answer db (errorResponse "User not found" 404)
      | Some u =>
          answer db
            (successResponse
               (VObj [ ("user", VObj (select profileKeys (row_object u))) ])
               "Profile retrieved successfully" 200)
      end
  end.

(** PATCH /users/me/avatar, after multer has stored the upload. *)
Definition updateMyAvatar (w : World) (req : UserRequest) (db : DB)
  : DB * Response :=
  match file_filename req with
  | None => answer db (errorResponse "Avatar image is required" 400)
  | Some filename =>
      let avatarPath := "/uploads/avatars/" ++ filename in
      match user (base req) with
      | None => answer db (errorResponse "Failed to update avatar" 500)
      | Some who =>
          match Profile.update db (now w) (ident_id who)
                  {| Profile.name := None;
                     Profile.username := None;
                     Profile.email := None;
                     Profile.role := None;
                     Profile.isActive := None;
                     Profile.avatar := Some (Some avatarPath) |} with
          | Profile.Updated db' u =>
              (db',
               {| sent :=
                    successResponse
                      (VObj [ ("user",
                               VObj (select
                                       ["id"; "email"; "username"; "name";
                                        "avatar"; "role"] (row_object u))) ])
                      "Avatar updated successfully" 200;
                  cookies := [] |})
          | _ => answer db (errorResponse "Failed to update avatar" 500)
          end
      end
  end.

(** The routes of routes/user.route.js that lead to these handlers; all of
    them sit behind [router.use(authenticate)]. *)
Inductive UserRoute := GetMe | DeleteUserById | GetUserById | PutUserById.

Definition serveUser (r : UserRoute) (refused : bool) (w : World)
    (req : UserRequest) (db : DB) : DB * Response :=
  match authenticate env w (base req) db with
  | inl reply => answer db reply
  | inr b =>
      let req' := with_base req b in
      match r with
      | GetMe => getMyProfile req' db
      | DeleteUserById =>
          match authorize ["ADMIN"] b with
          | Some reply => answer db reply
          | None => deleteUser refused req' db
          end
      | GetUserById => getUserById req' db
      | PutUserById => updateUser w req' db
      end
  end.

End UserController.

(** ** Vocabulary of the properties *)

(** The row [u] after an [update] that leaves its identity alone. *)
Definition patched (t : Z) (i : Id) (p : Prisma.patch) (db : DB) : DB :=
  map (fun r => if (User.id r =? i)%nat then Prisma.apply_patch t p r else r) db.

(** Every row of user [uid] holds [t] as its refresh token. *)
Definition holdsRefreshToken (db : DB) (uid : Id) (t : option Jwt.token) : Prop :=
  forall u, In u db -> User.id u = uid -> User.refreshToken u = t.

(** No row of user [uid] holds [t] as its refresh token. *)
Definition rotatedOut (db : DB) (uid : Id) (t : Jwt.token) : Prop :=
  forall u, In u db -> User.id u = uid -> User.refreshToken u <> Some t.

(** The row of a successful password reset. *)
Definition afterReset (t : Z) (h : Bcrypt.digest) (u : User.t) : User.t :=
  {| User.id := User.id u;
     User.email := User.email u;
     User.username := User.username u;
     User.password := h;
     User.name := User.name u;
     User.avatar := User.avatar u;
     User.role := User.role u;
     User.isActive := User.isActive u;
     User.resetToken := None;
     User.resetTokenExpiry := None;
     User.refreshToken := None;
     User.createdAt := User.createdAt u;
     User.updatedAt := t |}.

(** The user object of a login response: every column but [password] and
    [refreshToken]. *)
Definition loginUserObject (u : User.t) : list (string * value) :=
  [ ("id", VId (User.id u));
    ("email", VStr (User.email u));
    ("username", vopt VStr (User.username u));
    ("name", vopt VStr (User.name u));
    ("avatar", vopt VStr (User.avatar u));
    ("role", vrole (User.role u));
    ("isActive", VBool (User.isActive u));
    ("resetToken", vopt VToken (User.resetToken u));
    ("resetTokenExpiry", vopt VDate (User.resetTokenExpiry u));
    ("createdAt", VDate (User.createdAt u));
    ("updatedAt", VDate (User.updatedAt u)) ].

(** Values that are neither [undefined] nor a nested object. *)
Definition plain (v : value) : bool :=
  match v with VUndefined | VObj _ => false | _ => true end.

(** The string a column gets from a property of the body. *)
Definition stored (f : Field) : option string :=
  match f with Text s => Some s | _ => None end.

(** The row a registration creates, before its refresh token is stored. *)
Definition newRow (w : World) (req : Request) (db : DB) : User.t :=
  {| User.id := Prisma.freshId db;
     User.email := str (body_email req);
     User.username := stored (body_username req);
     User.password := Bcrypt.digestOf (salt w) (str (body_password req));
     User.name := stored (body_name req);
     User.avatar := None;
     User.role := USER;
     User.isActive := true;
     User.resetToken := None;
     User.resetTokenExpiry := None;
     User.refreshToken := None;
     User.createdAt := now w;
     User.updatedAt := now w |}.

Definition registerUserObject (w : World) (req : Request) (db : DB)
  : list (string * value) :=
  [ ("id", VId (Prisma.freshId db));
    ("email", VStr (str (body_email req)));
    ("username", vopt VStr (stored (body_username req)));
    ("name", vopt VStr (stored (body_name req)));
    ("role", VStr "USER");
    ("createdAt", VDate (now w)) ].

(** The server is configured: both signing secrets are set. The design
    document files a codec that is not configured under the unexpected
    failures, answered with a generic 5xx. *)
Definition configured (env : Env) : Prop :=
  JWT_SECRET env <> "" /\ JWT_REFRESH_SECRET env <> "".

(** A registration that meets the preconditions of [register]: email
    present, of valid format and not yet stored, password of at least 6
    characters, name and user name absent, [null] or strings, and the user
    name (when one is given) not yet taken. *)
Definition validRegistration (validateEmail : Field -> bool) (db : DB)
    (req : Request) : Prop :=
  truthy (body_email req) = true /\
  validateEmail (body_email req) = true /\
  validatePassword (body_password req) = true /\
  Prisma.findByEmail db (body_email req) = Returns None /\
  (exists n, Prisma.nullable (body_name req) = Returns n) /\
  (exists un, Prisma.nullable (body_username req) = Returns un /\
              forall s, un = Some s ->
                        find (Prisma.byUsername s) db = None).

(** A property of a response body. *)
Definition property (k : string) (v : value) : option value :=
  match v with VObj fields => field k fields | _ => None end.

(** No property of the object is a password hash or a token. *)
Definition carriesNoSecret (o : list (string * value)) : bool :=
  forallb (fun kv => match snd kv with
                     | VDigest _ | VToken _ => false
                     | _ => true
                     end) o.

(** A request that carries only an email and a password. *)
Definition credentials (e pw : string) : Request :=
  {| body_email := Text e; body_password := Text pw; body_name := Absent;
     body_username := Absent; body_refreshToken := None; body_token := None;
     body_newPassword := Absent; body_currentPassword := Absent;
     bearer := None; cookie_accessToken := None;
     cookie_refreshToken := None; user := None |}.

(** A request that carries only a refresh token in its body. *)
Definition presenting (t : Jwt.token) : Request :=
  {| body_email := Absent; body_password := Absent; body_name := Absent;
     body_username := Absent; body_refreshToken := Some t; body_token := None;
     body_newPassword := Absent; body_currentPassword := Absent;
     bearer := None; cookie_accessToken := None;
     cookie_refreshToken := None; user := None |}.

(** A reset request: token and new password. *)
Definition resetting (t : option Jwt.token) (pw : string) : Request :=
  {| body_email := Absent; body_password := Absent; body_name := Absent;
     body_username := Absent; body_refreshToken := None; body_token := t;
     body_newPassword := Text pw; body_currentPassword := Absent;
     bearer := None; cookie_accessToken := None;
     cookie_refreshToken := None; user := None |}.

(** A sample configuration and sample rows for concrete runs. *)
Definition sampleEnv : Env :=
  {| JWT_SECRET := "access-secret";
     JWT_REFRESH_SECRET := "refresh-secret";
     JWT_EXPIRES_IN := None;
     JWT_REFRESH_EXPIRES_IN := None;
     NODE_ENV := Some "production" |}.

Definition sampleUser (active : bool) : User.t :=
  {| User.id := 1;
     User.email := "a@b.com";
     User.username := None;
     User.password := Bcrypt.digestOf "salt" "secret1";
     User.name := Some "A";
     User.avatar := None;
     User.role := USER;
     User.isActive := active;
     User.resetToken := None;
     User.resetTokenExpiry := None;
     User.refreshToken := None;
     User.createdAt := 0;
     User.updatedAt := 0 |}.

(** No row of user [uid] holds [t] as a reset token that is still live at
    [now]: it was never stored, was superseded or consumed, or its stored
    expiry has passed. *)
Definition noLiveResetRow (db : DB) (uid : Id) (t : Jwt.token) (now : Z) : Prop :=
  forall u, In u db -> User.id u = uid -> User.resetToken u = Some t ->
            match User.resetTokenExpiry u with
            | Some e => (e <= now)%Z
            | None => True
            end.

(** The credential events of user [uid] that go through: a logout of the
    resolved caller, a password change with the right current password, and
    a password reset with a live token. Each is given with its outcome. *)
Inductive credentialEvent (env : Env) (w : World) (db : DB) (uid : Id)
  : DB * Response -> Prop :=
| LoggedOut req who u :
    user req = Some who -> ident_id who = uid ->
    In u db -> User.id u = uid ->
    credentialEvent env w db uid (logout w req db)
| PasswordChanged req who u :
    user req = Some who -> ident_id who = uid ->
    Prisma.findById db uid = Some u ->
    truthy (body_currentPassword req) = true ->
    validatePassword (body_newPassword req) = true ->
    comparePassword (body_currentPassword req) (User.password u)
      = Returns true ->
    credentialEvent env w db uid (changeMyPassword w req db)
| PasswordReset req t c u :
    body_token req = Some t ->
    validatePassword (body_newPassword req) = true ->
    verifyToken t (JWT_SECRET env) (now w) = inr c ->
    Jwt.userId c = uid ->
    Prisma.findByIdAndLiveResetToken db uid t (now w) = Some u ->
    credentialEvent env w db uid (resetPassword env w req db).

(** Purposes the code signs and verifies under one and the same secret. *)
Definition sameSecret (p q : Purpose) : bool :=
  match p, q with
  | Refresh, Refresh => true
  | Refresh, _ | _, Refresh => false
  | _, _ => true
  end.

(** A statement of a handler keeps a property of the table. *)
Definition preserves {A} (P : DB -> Prop) (m : Handler A) : Prop :=
  forall s, P (table s) -> P (table (fst (m s))).

(** A property of the table that survives appending a row without a
    refresh token, and every [update] at time [t] that leaves the refresh
    token alone, clears it, or stores one issued at [t]. *)
Definition tokenInvariant (env : Env) (P : DB -> Prop) (t : Z) : Prop :=
  (forall db u, P db -> User.refreshToken u = None -> P (db ++ [u])%list) /\
  (forall db i p,
      P db ->
      (forall tok, Prisma.set_refreshToken p = Some (Some tok) ->
                   exists j, generateRefreshToken env j t = Returns tok) ->
      P (patched t i p db)).

(** Sample worlds, requests and stores for concrete runs. *)
Definition at_ms (t : Z) : World := {| now := t; salt := "salt"; choice := 0 |}.

Definition registeredDb : DB :=
  fst (register sampleEnv contains_at (at_ms 1000000)
         (credentials "a@b.com" "secret1") []).

(** The refresh token of that registration and the reset token of a
    request made a thousand seconds later, with their claims. *)
Definition firstClaims : Jwt.claims :=
  {| Jwt.userId := 1; Jwt.iat := 1000; Jwt.exp := 605800 |}.

Definition firstRefreshToken : Jwt.token :=
  Jwt.Signed "refresh-secret" firstClaims.

Definition resetClaims : Jwt.claims :=
  {| Jwt.userId := 1; Jwt.iat := 2000; Jwt.exp := 5600 |}.

Definition sampleResetToken : Jwt.token :=
  Jwt.Signed "access-secret" resetClaims.

(** The row of the registered user, and the same row with a pending reset. *)
Definition registeredRow : User.t :=
  Prisma.apply_patch 1000000 (store_refreshToken (Some firstRefreshToken))
    (newRow (at_ms 1000000) (credentials "a@b.com" "secret1") []).

Definition pendingRow : User.t :=
  Prisma.apply_patch 2000000
    {| Prisma.set_password := None;
       Prisma.set_resetToken := Some (Some sampleResetToken);
       Prisma.set_resetTokenExpiry := Some (Some 5600000%Z);
       Prisma.set_refreshToken := None |} registeredRow.

(** The store after the registered user asked for a reset link. *)
Definition pendingResetDb : DB :=
  fst (forgotPassword sampleEnv contains_at (at_ms 2000000)
         (credentials "a@b.com" "") registeredDb).

Definition sampleIdentity : Identity :=
  {| ident_id := 1; ident_email := "a@b.com"; ident_username := None;
     ident_name := None; ident_role := USER; ident_isActive := true |}.

Definition loggingOut : Request :=
  {| body_email := Absent; body_password := Absent; body_name := Absent;
     body_username := Absent; body_refreshToken := None; body_token := None;
     body_newPassword := Absent; body_currentPassword := Absent;
     bearer := None; cookie_accessToken := None;
     cookie_refreshToken := None; user := Some sampleIdentity |}.

Definition changingPassword (current new : string) : Request :=
  {| body_email := Absent; body_password := Absent; body_name := Absent;
     body_username := Absent; body_refreshToken := None; body_token := None;
     body_newPassword := Text new; body_currentPassword := Text current;
     bearer := None; cookie_accessToken := None;
     cookie_refreshToken := None; user := Some sampleIdentity |}.

(** The time span, in seconds, each purpose signs with. *)
Definition lifetime (env : Env) (p : Purpose) : Z :=
  match p with
  | Access => accessExpiresIn env
  | Refresh => refreshExpiresIn env
  | Reset => (60 * 60)%Z
  end.

(** The token a purpose's generator signs for user [uid] at time [t]. *)
Definition tokenFor (env : Env) (p : Purpose) (uid : Id) (t : Z) : Jwt.token :=
  Jwt.Signed (secretOf env p)
    {| Jwt.userId := uid;
       Jwt.iat := Jwt.seconds t;
       Jwt.exp := (Jwt.seconds t + lifetime env p)%Z |}.

(** The columns that say who a user is and what the user may do. *)
Definition identityColumns (u : User.t)
  : Id * string * option string * option string * option string * Role
    * bool * Z :=
  (User.id u, User.email u, User.username u, User.name u, User.avatar u,
   User.role u, User.isActive u, User.createdAt u).

(** The routes whose handlers write the [password] column of a stored row. *)
Definition writesPassword (r : Route) : bool :=
  match r with
  | PostResetPassword | PatchMyPassword => true
  | _ => false
  end.

(** Every record of user [uid] is deactivated. *)
Definition deactivated (db : DB) (uid : Id) : Prop :=
  forall u, In u db -> User.id u = uid -> User.isActive u = false.

(** A request that carries only a bearer token and a cookie token. *)
Definition carrying (header cookie : option Jwt.token) : Request :=
  {| body_email := Absent; body_password := Absent; body_name := Absent;
     body_username := Absent; body_refreshToken := None; body_token := None;
     body_newPassword := Absent; body_currentPassword := Absent;
     bearer := header; cookie_accessToken := cookie;
     cookie_refreshToken := None; user := None |}.

Definition Route_eq_dec (a b : Route) : {a = b} + {a <> b}.
Proof. decide equality. Defined.

(** Every row of user [uid] holds [t] as its reset token. *)
Definition holdsResetToken (db : DB) (uid : Id) (t : option Jwt.token) : Prop :=
  forall u, In u db -> User.id u = uid -> User.resetToken u = t.

(** The user object of the profile reads: the nine selected columns. *)
Definition profileObject (u : User.t) : list (string * value) :=
  [ ("id", VId (User.id u));
    ("email", VStr (User.email u));
    ("username", vopt VStr (User.username u));
    ("name", vopt VStr (User.name u));
    ("avatar", vopt VStr (User.avatar u));
    ("role", vrole (User.role u));
    ("isActive", VBool (User.isActive u));
    ("createdAt", VDate (User.createdAt u));
    ("updatedAt", VDate (User.updatedAt u)) ].

(** The columns that hold a user's credentials and sessions. *)
Definition credentialColumns (u : User.t)
  : Id * Bcrypt.digest * option Jwt.token * option Jwt.token * option Z :=
  (User.id u, User.password u, User.refreshToken u, User.resetToken u,
   User.resetTokenExpiry u).

(** A user-management request with nothing but a caller and a target. *)
Definition managing (who : option Identity) (target : Id) : UserRequest :=
  {| base := {| body_email := Absent; body_password := Absent;
                body_name := Absent; body_username := Absent;
                body_refreshToken := None; body_token := None;
                body_newPassword := Absent;
                body_currentPassword := Absent; bearer := None;
                cookie_accessToken := None; cookie_refreshToken := None;
                user := who |};
     params_id := target;
     put_name := Absent; put_username := Absent; put_email := Absent;
     put_role := Absent; put_isActive := None; file_filename := None |}.

(** More sample data: the access token of the registration, an admin, a
    store with both users, and a few requests. *)
Definition firstAccessToken : Jwt.token :=
  Jwt.Signed "access-secret"
    {| Jwt.userId := 1; Jwt.iat := 1000; Jwt.exp := 1900 |}.

Definition adminRow : User.t :=
  {| User.id := 2;
     User.email := "root@b.com";
     User.username := Some "root";
     User.password := Bcrypt.digestOf "salt" "topsecret";
     User.name := None;
     User.avatar := None;
     User.role := ADMIN;
     User.isActive := true;
     User.resetToken := None;
     User.resetTokenExpiry := None;
     User.refreshToken := None;
     User.createdAt := 0;
     User.updatedAt := 0 |}.

Definition adminIdentity : Identity :=
  {| ident_id := 2; ident_email := "root@b.com";
     ident_username := Some "root"; ident_name := None;
     ident_role := ADMIN; ident_isActive := true |}.

Definition officeDb : DB := (registeredDb ++ [adminRow])%list.

(** A request with credentials in the body and tokens in header and body. *)
Definition fullRequest (e pw : string) (header refresh : option Jwt.token)
  : Request :=
  {| body_email := Text e; body_password := Text pw; body_name := Absent;
     body_username := Absent; body_refreshToken := refresh; body_token := None;
     body_newPassword := Absent; body_currentPassword := Absent;
     bearer := header; cookie_accessToken := None;
     cookie_refreshToken := None; user := None |}.

(** A password change sent with an access token in the header. *)
Definition changingWithToken (header : option Jwt.token) (current new : string)
  : Request :=
  {| body_email := Absent; body_password := Absent; body_name := Absent;
     body_username := Absent; body_refreshToken := None; body_token := None;
     body_newPassword := Text new; body_currentPassword := Text current;
     bearer := header; cookie_accessToken := None;
     cookie_refreshToken := None; user := None |}.

(** A registration that sends a user name. *)
Definition registering (e pw : string) (un : Field) : Request :=
  {| body_email := Text e; body_password := Text pw; body_name := Absent;
     body_username := un; body_refreshToken := None; body_token := None;
     body_newPassword := Absent; body_currentPassword := Absent;
     bearer := None; cookie_accessToken := None;
     cookie_refreshToken := None; user := None |}.

(** The store after a registration with an empty user name. *)
Definition blankNameDb : DB :=
  fst (register sampleEnv contains_at (at_ms 1000000)
         (registering "a@b.com" "secret1" (Text "")) []).

(** A profile update by the registered user on the own row that asks for
    the admin role, deactivation and a new name. *)
Definition selfPromotion (email : Field) : UserRequest :=
  {| base := loggingOut;
     params_id := 1;
     put_name := Text "B";
     put_username := Absent;
     put_email := email;
     put_role := Text "ADMIN";
     put_isActive := Some false;
     file_filename := None |}.

(** A login request whose email and password are any JSON values. *)
Definition sending (e pw : Field) : Request :=
  {| body_email := e; body_password := pw; body_name := Absent;
     body_username := Absent; body_refreshToken := None; body_token := None;
     body_newPassword := Absent; body_currentPassword := Absent;
     bearer := None; cookie_accessToken := None;
     cookie_refreshToken := None; user := None |}.

(** A server started without [JWT_SECRET]. *)
Definition unsetEnv : Env :=
  {| JWT_SECRET := "";
     JWT_REFRESH_SECRET := "refresh-secret";
     JWT_EXPIRES_IN := None;
     JWT_REFRESH_EXPIRES_IN := None;
     NODE_ENV := Some "production" |}.

(** A row whose email has no at sign, and a store that holds it next to
    the registered user. *)
Definition strayRow : User.t :=
  {| User.id := 2;
     User.email := "not-an-email";
     User.username := None;
     User.password := Bcrypt.digestOf "salt" "secret9";
     User.name := None;
     User.avatar := None;
     User.role := USER;
     User.isActive := true;
     User.resetToken := None;
     User.resetTokenExpiry := None;
     User.refreshToken := None;
     User.createdAt := 0;
     User.updatedAt := 0 |}.

Definition strayDb : DB := (registeredDb ++ [strayRow])%list.
(** ** Properties *)

Section Properties.

Variable env : Env.
Variable validateEmail : Field -> bool.

(** *** Facts about the store *)

Lemma find_hit {A} (f : A -> bool) (l : list A) (a : A) :
  In a l -> f a = true -> exists b, find f l = Some b.
Proof.
  intros Hin Hf. destruct (find f l) eqn:E; eauto.
  exfalso. pose proof (find_none f l E a Hin). congruence.
Qed.

Lemma find_map_stable {A} (f : A -> bool) (g : A -> A) (l : list A) :
  (forall a, f (g a) = f a) ->
  find f (map g l) = option_map g (find f l).
Proof.
  intros Hfg. induction l as [|a l IH]; cbn; [reflexivity|].
  rewrite Hfg. destruct (f a); [reflexivity | exact IH].
Qed.

Lemma find_app_miss {A} (f : A -> bool) (l : list A) (a : A) :
  find f l = None -> find f (l ++ [a]) = if f a then Some a else None.
Proof.
  induction l as [|b l IH]; cbn; [reflexivity|].
  destruct (f b); [discriminate | exact IH].
Qed.

Lemma update_found db t i p u :
  In u db -> User.id u = i ->
  Prisma.update db t i p = Returns (patched t i p db).
Proof.
  intros Hin Hid. unfold Prisma.update, Prisma.findById.
  destruct (find_hit (fun r => (User.id r =? i)%nat) db u Hin) as [b ->];
    [apply Nat.eqb_eq; exact Hid | reflexivity].
Qed.

Lemma update_inv db t i p db' :
  Prisma.update db t i p = Returns db' -> db' = patched t i p db.
Proof.
  unfold Prisma.update, patched.
  destruct (Prisma.findById db i); intros H; [injection H as <-; reflexivity | discriminate].
Qed.

Lemma patched_ids t i p db : map User.id (patched t i p db) = map User.id db.
Proof.
  unfold patched. rewrite map_map. apply map_ext.
  intros r. destruct (User.id r =? i)%nat; reflexivity.
Qed.

Lemma in_patched t i p db u' :
  In u' (patched t i p db) ->
  exists u, In u db /\ User.id u' = User.id u /\
            u' = (if (User.id u =? i)%nat then Prisma.apply_patch t p u else u).
Proof.
  unfold patched. intros H. apply in_map_iff in H as [u [<- Hin]].
  exists u. repeat split; [exact Hin|].
  destruct (User.id u =? i)%nat; reflexivity.
Qed.

Lemma token_eqb_eq a b : Jwt.eqb a b = true <-> a = b.
Proof.
  unfold Jwt.eqb. destruct (Jwt.token_eq_dec a b); split; congruence.
Qed.

Lemma opt_token_eqb_eq a b : Prisma.opt_token_eqb a b = true <-> a = b.
Proof.
  destruct a, b; cbn; try (split; congruence).
  rewrite token_eqb_eq. split; congruence.
Qed.

(** A password that passes the policy is a non-empty string, so bcrypt
    takes it. *)
Lemma validatePassword_text pw :
  validatePassword pw = true -> pw = Text (str pw).
Proof. destruct pw; cbn; intros H; (reflexivity || discriminate). Qed.

Lemma validatePassword_truthy pw :
  validatePassword pw = true -> truthy pw = true.
Proof.
  destruct pw as [| |[|c s]|j b]; cbn; intros H; (reflexivity || discriminate).
Qed.

Lemma hashPassword_valid w pw :
  validatePassword pw = true ->
  hashPassword w pw = Returns (Bcrypt.digestOf (salt w) (str pw)).
Proof. destruct pw; cbn; intros H; (reflexivity || discriminate). Qed.

Lemma comparePassword_hash salt pw :
  comparePassword (Text pw) (Bcrypt.digestOf salt pw) = Returns true.
Proof.
  unfold comparePassword, Bcrypt.compare, Bcrypt.matches, Bcrypt.digestOf.
  rewrite String.eqb_refl. reflexivity.
Qed.

(** What a read by email that returns has been given, and what it
    returns. *)
Lemma findByEmail_returns db email r :
  Prisma.findByEmail db email = Returns r ->
  email = Text (str email) /\
  Prisma.nul_free (str email) = true /\
  r = find (Prisma.byEmail (str email)) db.
Proof.
  unfold Prisma.findByEmail, Prisma.stringArg.
  destruct email as [| |e|j b]; try discriminate. cbn [str].
  destruct (Prisma.nul_free e); [|discriminate].
  intros H. injection H as <-. repeat split.
Qed.

Lemma findByEmail_text db e :
  Prisma.nul_free e = true ->
  Prisma.findByEmail db (Text e) = Returns (find (Prisma.byEmail e) db).
Proof. intros H. unfold Prisma.findByEmail, Prisma.stringArg. rewrite H. reflexivity. Qed.

(** What a generator that returns has signed, and under which secret. *)
Lemma sign_returns uid secret span t tok :
  Jwt.sign uid secret span t = Returns tok ->
  secret <> "" /\
  tok = Jwt.Signed secret {| Jwt.userId := uid; Jwt.iat := Jwt.seconds t;
                             Jwt.exp := (Jwt.seconds t + span)%Z |}.
Proof.
  unfold Jwt.sign. destruct (String.eqb_spec secret ""); [discriminate|].
  intros H. injection H as <-. split; [assumption | reflexivity].
Qed.

Lemma sign_configured uid secret span t :
  secret <> "" ->
  Jwt.sign uid secret span t =
    Returns (Jwt.Signed secret {| Jwt.userId := uid; Jwt.iat := Jwt.seconds t;
                                  Jwt.exp := (Jwt.seconds t + span)%Z |}).
Proof.
  intros H. unfold Jwt.sign. destruct (String.eqb_spec secret "");
    [contradiction | reflexivity].
Qed.

(** [res.json] leaves an object alone when none of its properties is
    [undefined] or a nested object. *)
Lemma to_json_plain fields :
  forallb (fun kv => plain (snd kv)) fields = true ->
  to_json (VObj fields) = VObj fields.
Proof.
  intros H. cbn. f_equal. induction fields as [|[k v] l IH]; [reflexivity|].
  cbn in H. apply andb_true_iff in H as [Hv Hl].
  rewrite (IH Hl). destruct v; cbn in Hv; (reflexivity || discriminate).
Qed.

Lemma plain_vopt {A} (f : A -> value) (o : option A) :
  (forall a, plain (f a) = true) -> plain (vopt f o) = true.
Proof. intros H. destruct o; cbn; auto. Qed.

Lemma loginUserObject_plain u :
  forallb (fun kv => plain (snd kv)) (loginUserObject u) = true.
Proof.
  cbn. rewrite !plain_vopt by reflexivity. destruct (User.role u); reflexivity.
Qed.

Lemma to_json_token_pair obj a r :
  to_json (VObj [ ("user", VObj obj); ("accessToken", VToken a);
                  ("refreshToken", VToken r) ])
  = VObj [ ("user", to_json (VObj obj)); ("accessToken", VToken a);
           ("refreshToken", VToken r) ].
Proof. reflexivity. Qed.

Lemma omit_row_object u :
  omit ["password"; "refreshToken"] (row_object u) = loginUserObject u.
Proof. reflexivity. Qed.


Ltac step_handler :=
  cbv beta iota zeta delta
    [handle bind when query lookup attempt respond ret throw verified
     prisma_update prisma_create res_cookie
     table jar negb orb andb is_some];
  cbn [app fst snd].

(** On a configured server the generators return. *)
Lemma configured_tokens uid t :
  configured env ->
  exists a r,
    generateAccessToken env uid t = Returns a /\
    generateRefreshToken env uid t = Returns r.
Proof.
  intros [Ha Hr]. unfold generateAccessToken, generateRefreshToken.
  rewrite (sign_configured _ _ _ _ Ha), (sign_configured _ _ _ _ Hr). eauto.
Qed.

Lemma findByEmail_in db email u :
  Prisma.findByEmail db email = Returns (Some u) ->
  In u db /\ User.email u = str email.
Proof.
  intros H. apply findByEmail_returns in H as [_ [_ H]].
  symmetry in H. apply find_some in H as [Hin He].
  split; [exact Hin|]. apply String.eqb_eq. exact He.
Qed.

(** *** Login *)

(** What a login that passes every check does and answers. *)
Lemma login_success w req db u a r :
  truthy (body_email req) = true ->
  truthy (body_password req) = true ->
  Prisma.findByEmail db (body_email req) = Returns (Some u) ->
  User.isActive u = true ->
  comparePassword (body_password req) (User.password u) = Returns true ->
  generateAccessToken env (User.id u) (now w) = Returns a ->
  generateRefreshToken env (User.id u) (now w) = Returns r ->
  login env w req db =
    (patched (now w) (User.id u) (store_refreshToken (Some r)) db,
     {| sent :=
          {| status := 200; success := true; message := "Login successful";
             data :=
               VObj [ ("user", VObj (loginUserObject u));
                      ("accessToken", VToken a);
                      ("refreshToken", VToken r) ]
          |};
        cookies := [ accessCookie env a; refreshCookie env r ]
     |}).
Proof.
  intros He Hp Hf Ha Hc Hat Hrt.
  unfold login. step_handler.
  rewrite He, Hp. step_handler. rewrite Hf. step_handler.
  rewrite Ha. step_handler. rewrite Hc. step_handler.
  rewrite Hat. step_handler. rewrite Hrt. step_handler.
  destruct (findByEmail_in _ _ _ Hf) as [Hin _].
  rewrite (update_found _ _ _ _ u Hin eq_refl). cbn [table jar].
  rewrite omit_row_object. unfold successResponse.
  rewrite to_json_token_pair, (to_json_plain _ (loginUserObject_plain u)).
  reflexivity.
Qed.

(** C9. The user object of a successful login is the row read from the
    store with only [password] and [refreshToken] removed; a pending
    [resetToken] and [resetTokenExpiry] are part of it, as stored. *)
Theorem login_returns_row_without_two_fields w req db u :
  configured env ->
  truthy (body_email req) = true ->
  truthy (body_password req) = true ->
  Prisma.findByEmail db (body_email req) = Returns (Some u) ->
  User.isActive u = true ->
  comparePassword (body_password req) (User.password u) = Returns true ->
  exists obj,
    property "user" (data (sent (snd (login env w req db)))) =
      Some (VObj obj) /\
    obj = omit ["password"; "refreshToken"] (row_object u) /\
    (forall k v, field k (row_object u) = Some v ->
                 k <> "password" -> k <> "refreshToken" ->
                 field k obj = Some v) /\
    field "password" obj = None /\
    field "refreshToken" obj = None /\
    field "resetToken" obj = Some (vopt VToken (User.resetToken u)) /\
    field "resetTokenExpiry" obj = Some (vopt VDate (User.resetTokenExpiry u)).
Proof.
  intros Hcfg He Hp Hf Ha Hc.
  destruct (configured_tokens (User.id u) (now w) Hcfg) as [a [r [Hat Hrf]]].
  rewrite (login_success w req db u a r He Hp Hf Ha Hc Hat Hrf).
  exists (loginUserObject u). cbn [snd sent data property].
  repeat split; try reflexivity.
  intros k v Hk Hpw Hrt.
  unfold row_object in Hk. unfold loginUserObject. cbn [field] in Hk |- *.
  repeat match type of Hk with
         | (if ?a =? ?b then _ else _) = _ =>
             destruct (String.eqb_spec a b) as [<-|_];
             [ first [ exact Hk | congruence ] | ]
         end.
  discriminate.
Qed.


(** *** Registration *)

Lemma nullable_stored v o : Prisma.nullable v = Returns o -> o = stored v.
Proof.
  destruct v as [| |s|j b]; cbn; try (intros H; injection H as <-; reflexivity);
    try discriminate.
  destruct (Prisma.nul_free s); [|discriminate].
  intros H; injection H as <-; reflexivity.
Qed.

(** What a [create] that returns was given, and what it wrote. *)
Lemma create_returns db t email pw name username db' u :
  Prisma.create db t email pw name username = Returns (db', u) ->
  Prisma.findByEmail db email = Returns None /\
  Prisma.nullable name = Returns (stored name) /\
  Prisma.nullable username = Returns (stored username) /\
  (forall s, stored username = Some s ->
             find (Prisma.byUsername s) db = None) /\
  u = Prisma.created db t (str email) pw (stored name) (stored username) /\
  db' = (db ++ [u])%list.
Proof.
  unfold Prisma.create, Prisma.findByEmail.
  destruct (Prisma.stringArg email) as [e|] eqn:He; [|discriminate].
  destruct (Prisma.nullable name) as [n|] eqn:Hn; [|discriminate].
  destruct (Prisma.nullable username) as [un|] eqn:Hun; [|discriminate].
  apply nullable_stored in Hn, Hun. subst n un.
  assert (Hstr : str email = e).
  { unfold Prisma.stringArg in He. destruct email; try discriminate.
    destruct (Prisma.nul_free s); [|discriminate].
    injection He as <-. reflexivity. }
  rewrite Hstr.
  destruct (find (Prisma.byEmail e) db) eqn:Hfe; [discriminate|].
  destruct (stored username) as [s|] eqn:Hs.
  - destruct (find (Prisma.byUsername s) db) eqn:Hfu; [discriminate|].
    intros H. injection H as <- <-. repeat split.
    intros s' Hs'. injection Hs' as <-. exact Hfu.
  - intros H. injection H as <- <-. repeat split. discriminate.
Qed.

Lemma create_fresh db t email pw name username :
  Prisma.findByEmail db email = Returns None ->
  Prisma.nullable name = Returns (stored name) ->
  Prisma.nullable username = Returns (stored username) ->
  (forall s, stored username = Some s ->
             find (Prisma.byUsername s) db = None) ->
  Prisma.create db t email pw name username =
    Returns ((db ++ [Prisma.created db t (str email) pw (stored name)
                       (stored username)])%list,
             Prisma.created db t (str email) pw (stored name)
               (stored username)).
Proof.
  intros He Hn Hun Hfree.
  apply findByEmail_returns in He as [Htext [Hnul Hfe]].
  unfold Prisma.create. rewrite Hn, Hun.
  rewrite Htext. cbn [Prisma.stringArg str]. rewrite Hnul, <- Hfe.
  destruct (stored username) as [s|]; [rewrite (Hfree s eq_refl)|];
    reflexivity.
Qed.

Lemma select_newRow w req db :
  select ["id"; "email"; "username"; "name"; "role"; "createdAt"]
         (row_object (newRow w req db))
  = registerUserObject w req db.
Proof. reflexivity. Qed.

Lemma registerUserObject_plain w req db :
  forallb (fun kv => plain (snd kv)) (registerUserObject w req db) = true.
Proof. cbn. rewrite !plain_vopt by reflexivity. reflexivity. Qed.

Lemma validRegistration_create w req db :
  validRegistration validateEmail db req ->
  hashPassword w (body_password req)
    = Returns (Bcrypt.digestOf (salt w) (str (body_password req))) /\
  Prisma.create db (now w) (body_email req)
    (Bcrypt.digestOf (salt w) (str (body_password req)))
    (body_name req) (body_username req)
  = Returns ((db ++ [newRow w req db])%list, newRow w req db).
Proof.
  intros [He [Hv [Hp [Hfresh [[n Hn] [un [Hun Hfree]]]]]]].
  split; [exact (hashPassword_valid w _ Hp)|].
  pose proof (nullable_stored _ _ Hn) as ->.
  pose proof (nullable_stored _ _ Hun) as ->.
  exact (create_fresh db (now w) _ _ _ _ Hfresh Hn Hun Hfree).
Qed.

(** The user-name check of [register] passes for a valid registration. *)
Lemma validRegistration_username req db :
  validRegistration validateEmail db req ->
  truthy (body_username req) = true ->
  Prisma.findByUsername db (body_username req) = Returns None.
Proof.
  intros [_ [_ [_ [_ [_ [un [Hun Hfree]]]]]]] Ht.
  unfold Prisma.findByUsername, Prisma.stringArg.
  destruct (body_username req) as [| |s|j b]; try discriminate.
  cbn in Hun. destruct (Prisma.nul_free s); [|discriminate].
  injection Hun as <-. rewrite (Hfree s eq_refl). reflexivity.
Qed.

Lemma register_success w req db a r :
  validRegistration validateEmail db req ->
  generateAccessToken env (Prisma.freshId db) (now w) = Returns a ->
  generateRefreshToken env (Prisma.freshId db) (now w) = Returns r ->
  register env validateEmail w req db =
    (patched (now w) (Prisma.freshId db) (store_refreshToken (Some r))
       (db ++ [newRow w req db])%list,
     {| sent :=
          {| status := 201; success := true;
             message := "Registration successful";
             data :=
               VObj [ ("user", VObj (registerUserObject w req db));
                      ("accessToken", VToken a);
                      ("refreshToken", VToken r) ] |};
        cookies := [ accessCookie env a; refreshCookie env r ] |}).
Proof.
  intros Hvalid Hat Hrt.
  destruct (validRegistration_create w req db Hvalid) as [Hhash Hcreate].
  pose proof (validRegistration_username req db Hvalid) as Hname.
  destruct Hvalid as [He [Hv [Hp [Hfresh _]]]].
  pose proof (validatePassword_truthy _ Hp) as Hpt.
  assert (Hupd :
            Prisma.update (db ++ [newRow w req db])%list (now w)
              (Prisma.freshId db) (store_refreshToken (Some r))
            = Returns (patched (now w) (Prisma.freshId db)
                         (store_refreshToken (Some r))
                         (db ++ [newRow w req db])%list)).
  { apply (update_found _ _ _ _ (newRow w req db));
      [apply in_or_app; right; left; reflexivity | reflexivity]. }
  unfold register. step_handler.
  rewrite He, Hpt, Hv, Hp. step_handler. rewrite Hfresh. step_handler.
  destruct (truthy (body_username req));
    [rewrite (Hname eq_refl)|];
    step_handler; rewrite Hhash; step_handler; rewrite Hcreate; step_handler;
    change (User.id (newRow w req db)) with (Prisma.freshId db);
    rewrite Hat; step_handler; rewrite Hrt; step_handler;
    rewrite Hupd; step_handler;
    unfold successResponse;
    rewrite to_json_token_pair, select_newRow,
      (to_json_plain _ (registerUserObject_plain w req db));
    reflexivity.
Qed.

Lemma sign_throws uid secret span t :
  Jwt.sign uid secret span t = Throws -> secret = "".
Proof.
  unfold Jwt.sign. destruct (String.eqb_spec secret ""); [auto | discriminate].
Qed.

Ltac crack :=
  repeat match goal with
         | |- context [match ?x with _ => _ end] =>
             lazymatch x with
             | context [match _ with _ => _ end] => fail
             | _ => destruct x eqn:?
             end
         end.

(** The valid registrations on a configured server are exactly the ones
    [register] accepts. *)
Lemma register_accepts_iff w req db :
  status (sent (snd (register env validateEmail w req db))) = 201%Z <->
  validRegistration validateEmail db req /\ configured env.
Proof.
  split.
  - unfold validRegistration, register. step_handler. crack; cbn;
      try discriminate; intros _.
    all: repeat match goal with
                | H : Prisma.create _ _ _ _ _ _ = Returns _ |- _ =>
                    apply create_returns in H as [? [? [? [? [? ?]]]]]
                | H : generateAccessToken _ _ _ = Returns _ |- _ =>
                    apply sign_returns in H as [? _]
                | H : generateRefreshToken _ _ _ = Returns _ |- _ =>
                    apply sign_returns in H as [? _]
                end.
    all: unfold configured; repeat split; eauto.
  - intros [Hvalid Hcfg].
    destruct (configured_tokens (Prisma.freshId db) (now w) Hcfg)
      as [a [r [Hat Hrt]]].
    rewrite (register_success w req db a r Hvalid Hat Hrt). reflexivity.
Qed.

(** On a configured server each generator returns the token of its
    purpose. *)
Lemma issue_configured p uid t :
  configured env -> issue env p uid t = Returns (tokenFor env p uid t).
Proof.
  intros [Ha Hr].
  destruct p; cbn [issue]; unfold generateAccessToken, generateRefreshToken,
    generateResetToken; apply sign_configured; assumption.
Qed.

(** A read by email after an update that leaves the emails alone. *)
Lemma findByEmail_map (g : User.t -> User.t) db email :
  (forall r, User.email (g r) = User.email r) ->
  Prisma.findByEmail (map g db) email =
    match Prisma.findByEmail db email with
    | Returns found => Returns (option_map g found)
    | Throws => Throws
    end.
Proof.
  intros Hg. unfold Prisma.findByEmail.
  destruct (Prisma.stringArg email) as [e|]; [|reflexivity].
  f_equal. apply find_map_stable. intros a. unfold Prisma.byEmail.
  rewrite Hg. reflexivity.
Qed.

Lemma findByEmail_patched t i p db email :
  Prisma.findByEmail (patched t i p db) email =
    match Prisma.findByEmail db email with
    | Returns found =>
        Returns (option_map (fun r => if (User.id r =? i)%nat
                                      then Prisma.apply_patch t p r else r)
                            found)
    | Throws => Throws
    end.
Proof.
  unfold patched. apply findByEmail_map.
  intros r. destruct (User.id r =? i)%nat; reflexivity.
Qed.

(** C8. On a configured server a valid registration (fresh email of valid
    format, password of at least 6 characters, name and user name that the
    store takes, user name free when one is given) is accepted with 201 and
    the pair of an access and a refresh token signed for the new user at
    that time, and a later login with the same email and password is
    accepted with 200 and the pair signed for that user at the time of the
    login; the user object of either answer has no [password] and no
    [refreshToken] property, and none of its values is a hash or a token. *)
Theorem register_then_login w w' req req' db :
  configured env ->
  validRegistration validateEmail db req ->
  body_email req' = body_email req ->
  body_password req' = body_password req ->
  let uid := Prisma.freshId db in
  let registered := register env validateEmail w req db in
  let loggedIn := login env w' req' (fst registered) in
  exists ru lu,
    sent (snd registered) =
      {| status := 201; success := true; message := "Registration successful";
         data := VObj [ ("user", VObj ru);
                        ("accessToken",
                         VToken (tokenFor env Access uid (now w)));
                        ("refreshToken",
                         VToken (tokenFor env Refresh uid (now w))) ] |} /\
    sent (snd loggedIn) =
      {| status := 200; success := true; message := "Login successful";
         data := VObj [ ("user", VObj lu);
                        ("accessToken",
                         VToken (tokenFor env Access uid (now w')));
                        ("refreshToken",
                         VToken (tokenFor env Refresh uid (now w'))) ] |} /\
    has_key "password" ru = false /\ has_key "refreshToken" ru = false /\
    has_key "password" lu = false /\ has_key "refreshToken" lu = false /\
    carriesNoSecret ru = true /\ carriesNoSecret lu = true.
Proof.
  intros Hcfg Hvalid Hreq_e Hreq_p uid registered loggedIn.
  subst uid registered loggedIn.
  rewrite (register_success w req db _ _ Hvalid
             (issue_configured Access _ _ Hcfg)
             (issue_configured Refresh _ _ Hcfg)).
  cbn [fst snd sent].
  destruct Hvalid as [He [Hv [Hp [Hfresh _]]]].
  set (rt := tokenFor env Refresh (Prisma.freshId db) (now w)).
  set (row := Prisma.apply_patch (now w) (store_refreshToken (Some rt))
                (newRow w req db)).
  assert (Hfind :
            Prisma.findByEmail
              (patched (now w) (Prisma.freshId db)
                 (store_refreshToken (Some rt)) (db ++ [newRow w req db])%list)
              (body_email req') = Returns (Some row)).
  { rewrite Hreq_e, findByEmail_patched.
    apply findByEmail_returns in Hfresh as [Htext [Hnul Hnone]].
    rewrite Htext, (findByEmail_text _ _ Hnul).
    rewrite (find_app_miss _ _ _ (eq_sym Hnone)).
    unfold Prisma.byEmail at 1. cbn [User.email newRow].
    rewrite String.eqb_refl.
    cbn [option_map User.id newRow]. rewrite Nat.eqb_refl. reflexivity. }
  rewrite (login_success w' req' _ row
             (tokenFor env Access (Prisma.freshId db) (now w'))
             (tokenFor env Refresh (Prisma.freshId db) (now w'))).
  - exists (registerUserObject w req db), (loginUserObject row).
    cbn [snd sent]. repeat split; try reflexivity.
    + unfold carriesNoSecret, registerUserObject.
      destruct (stored (body_username req)), (stored (body_name req));
        reflexivity.
    + unfold carriesNoSecret, loginUserObject, row. cbn.
      destruct (stored (body_username req)), (stored (body_name req));
        reflexivity.
  - rewrite Hreq_e; exact He.
  - rewrite Hreq_p; exact (validatePassword_truthy _ Hp).
  - exact Hfind.
  - reflexivity.
  - rewrite Hreq_p, (validatePassword_text _ Hp). apply comparePassword_hash.
  - exact (issue_configured Access _ _ Hcfg).
  - exact (issue_configured Refresh _ _ Hcfg).
Qed.

(** What [login] answers before it issues tokens. *)
Lemma login_unknown_email w req db :
  truthy (body_email req) = true ->
  truthy (body_password req) = true ->
  Prisma.findByEmail db (body_email req) = Returns None ->
  login env w req db =
    (db, {| sent := errorResponse "Invalid email or password" 401;
            cookies := [] |}).
Proof.
  intros He Hp Hf. unfold login. step_handler. rewrite He, Hp. step_handler.
  rewrite Hf. reflexivity.
Qed.

Lemma login_wrong_password w req db u :
  truthy (body_email req) = true ->
  truthy (body_password req) = true ->
  Prisma.findByEmail db (body_email req) = Returns (Some u) ->
  User.isActive u = true ->
  comparePassword (body_password req) (User.password u) = Returns false ->
  login env w req db =
    (db, {| sent := errorResponse "Invalid email or password" 401;
            cookies := [] |}).
Proof.
  intros He Hp Hf Ha Hc. unfold login. step_handler. rewrite He, Hp.
  step_handler. rewrite Hf. step_handler. rewrite Ha. step_handler.
  rewrite Hc. reflexivity.
Qed.

Lemma login_deactivated w req db u :
  truthy (body_email req) = true ->
  truthy (body_password req) = true ->
  Prisma.findByEmail db (body_email req) = Returns (Some u) ->
  User.isActive u = false ->
  login env w req db =
    (db, {| sent := errorResponse "Account is deactivated" 401;
            cookies := [] |}).
Proof.
  intros He Hp Hf Ha. unfold login. step_handler. rewrite He, Hp.
  step_handler. rewrite Hf. step_handler. rewrite Ha. reflexivity.
Qed.

Lemma login_missing_input w req db :
  truthy (body_email req) && truthy (body_password req) = false ->
  login env w req db =
    (db, {| sent := errorResponse "Email and password are required" 400;
            cookies := [] |}).
Proof.
  intros H. unfold login. step_handler.
  destruct (truthy (body_email req)), (truthy (body_password req));
    (discriminate H || reflexivity).
Qed.

(** C7 (amended). Take a login whose email the store looks up and does not
    find, and a login whose email is registered. When email and
    password are both present, the first is answered 401 [Invalid email or
    password]; so is the second when the account is active and the password
    is a string that does not match; and then one and the same body gets
    the same answer in both situations. When the account is deactivated the
    second is answered 401 [Account is deactivated], whatever the password.
    The store is left alone each time. *)
Theorem login_failure_indistinguishable w1 req1 db1 w2 req2 db2 u :
  Prisma.findByEmail db1 (body_email req1) = Returns None ->
  Prisma.findByEmail db2 (body_email req2) = Returns (Some u) ->
  (truthy (body_email req1) = true -> truthy (body_password req1) = true ->
   login env w1 req1 db1 =
     (db1, {| sent := errorResponse "Invalid email or password" 401;
              cookies := [] |})) /\
  (truthy (body_email req2) = true -> truthy (body_password req2) = true ->
   User.isActive u = true ->
   comparePassword (body_password req2) (User.password u) = Returns false ->
   login env w2 req2 db2 =
     (db2, {| sent := errorResponse "Invalid email or password" 401;
              cookies := [] |})) /\
  (body_email req1 = body_email req2 ->
   body_password req1 = body_password req2 ->
   User.isActive u = true ->
   comparePassword (body_password req2) (User.password u) = Returns false ->
   snd (login env w1 req1 db1) = snd (login env w2 req2 db2) /\
   fst (login env w1 req1 db1) = db1 /\ fst (login env w2 req2 db2) = db2) /\
  (truthy (body_email req2) = true -> truthy (body_password req2) = true ->
   User.isActive u = false ->
   login env w2 req2 db2 =
     (db2, {| sent := errorResponse "Account is deactivated" 401;
              cookies := [] |})).
Proof.
  intros H1 H2. split; [|split; [|split]].
  - intros He Hp. exact (login_unknown_email w1 req1 db1 He Hp H1).
  - intros He Hp Ha Hc. exact (login_wrong_password w2 req2 db2 u He Hp H2 Ha Hc).
  - intros Hsame_e Hsame_p Ha Hc.
    destruct (truthy (body_email req2) && truthy (body_password req2)) eqn:Ht.
    + apply andb_true_iff in Ht as [He Hp].
      rewrite (login_wrong_password w2 req2 db2 u He Hp H2 Ha Hc).
      rewrite <- Hsame_e in He. rewrite <- Hsame_p in Hp.
      rewrite (login_unknown_email w1 req1 db1 He Hp H1).
      repeat split.
    + rewrite (login_missing_input w2 req2 db2 Ht).
      rewrite <- Hsame_e, <- Hsame_p in Ht.
      rewrite (login_missing_input w1 req1 db1 Ht).
      repeat split.
  - intros He Hp Ha. exact (login_deactivated w2 req2 db2 u He Hp H2 Ha).
Qed.

(** Where the two situations can be told apart: a password that is not a
    string is refused with 401 for an email that is not registered, and
    makes bcrypt throw, answered 500, for an active account; an email the
    store does not take as a filter is answered 500 as well. *)
Lemma login_outside_strings w req db :
  truthy (body_email req) = true ->
  truthy (body_password req) = true ->
  (Prisma.findByEmail db (body_email req) = Throws ->
   login env w req db =
     (db, {| sent := errorResponse "Login failed" 500; cookies := [] |})) /\
  (forall u,
      Prisma.findByEmail db (body_email req) = Returns (Some u) ->
      User.isActive u = true ->
      comparePassword (body_password req) (User.password u) = Throws ->
      login env w req db =
        (db, {| sent := errorResponse "Login failed" 500; cookies := [] |})).
Proof.
  intros He Hp. split.
  - intros Hf. unfold login. step_handler. rewrite He, Hp. step_handler.
    rewrite Hf. reflexivity.
  - intros u Hf Ha Hc. unfold login. step_handler. rewrite He, Hp.
    step_handler. rewrite Hf. step_handler. rewrite Ha. step_handler.
    rewrite Hc. reflexivity.
Qed.

(** X26. A login whose password is present but not a string (a number, an
    object, an array, [true]) tells a registered active account from an
    email that is not registered: [bcrypt.compare] throws on such a value,
    so the first is answered 500 [Login failed], while the second is
    answered 401 [Invalid email or password] before anything is compared.
    The store is left alone in both. *)
Theorem login_non_string_password_tells_registered w1 db1 w2 db2 req j u :
  truthy (body_email req) = true ->
  body_password req = Other j true ->
  Prisma.findByEmail db1 (body_email req) = Returns None ->
  Prisma.findByEmail db2 (body_email req) = Returns (Some u) ->
  User.isActive u = true ->
  login env w1 req db1 =
    (db1, {| sent := errorResponse "Invalid email or password" 401;
             cookies := [] |}) /\
  login env w2 req db2 =
    (db2, {| sent := errorResponse "Login failed" 500; cookies := [] |}).
Proof.
  intros He Hpw Hnone Hsome Ha.
  assert (Hp : truthy (body_password req) = true) by (rewrite Hpw; reflexivity).
  split.
  - exact (login_unknown_email w1 req db1 He Hp Hnone).
  - apply (proj2 (login_outside_strings w2 req db2 He Hp) u Hsome Ha).
    rewrite Hpw. reflexivity.
Qed.

(** *** Password reset *)

Lemma verified_is_signed t secret t0 c :
  verifyToken t secret t0 = inr c -> t = Jwt.Signed secret c.
Proof.
  unfold verifyToken, Jwt.verify. destruct t as [key c'|raw]; [|discriminate].
  destruct (secret =? ""); [discriminate|].
  destruct (string_dec key secret) as [->|]; [|discriminate].
  destruct (Jwt.exp c' <=? Jwt.seconds t0)%Z; [discriminate|].
  intros H; injection H as ->; reflexivity.
Qed.

Lemma verified_present t secret t0 c :
  verifyToken t secret t0 = inr c -> Jwt.present (Some t) = true.
Proof. intros H. rewrite (verified_is_signed _ _ _ _ H). reflexivity. Qed.

Lemma live_row_found db uid t t0 u e :
  In u db -> User.id u = uid -> User.resetToken u = Some t ->
  User.resetTokenExpiry u = Some e -> (t0 < e)%Z ->
  exists u', Prisma.findByIdAndLiveResetToken db uid t t0 = Some u'.
Proof.
  intros Hin Hid Ht He Hlt. unfold Prisma.findByIdAndLiveResetToken.
  apply (find_hit _ db u Hin).
  rewrite Ht, He. apply andb_true_iff; split; [apply andb_true_iff; split|].
  - apply Nat.eqb_eq; exact Hid.
  - apply opt_token_eqb_eq; reflexivity.
  - apply Z.ltb_lt; exact Hlt.
Qed.

Lemma no_live_row_not_found db uid t t0 :
  noLiveResetRow db uid t t0 ->
  Prisma.findByIdAndLiveResetToken db uid t t0 = None.
Proof.
  intros H. unfold Prisma.findByIdAndLiveResetToken.
  match goal with |- find ?f db = None => destruct (find f db) as [u|] eqn:E end;
    [|reflexivity].
  apply find_some in E as [Hin Hu].
  apply andb_true_iff in Hu as [Hu He]. apply andb_true_iff in Hu as [Hid Ht].
  apply Nat.eqb_eq in Hid. apply opt_token_eqb_eq in Ht.
  specialize (H u Hin Hid Ht).
  destruct (User.resetTokenExpiry u); [|discriminate].
  apply Z.ltb_lt in He. lia.
Qed.

Lemma resetPassword_success w req db t c u :
  body_token req = Some t ->
  validatePassword (body_newPassword req) = true ->
  verifyToken t (JWT_SECRET env) (now w) = inr c ->
  Prisma.findByIdAndLiveResetToken db (Jwt.userId c) t (now w) = Some u ->
  resetPassword env w req db =
    (map (fun r => if (User.id r =? Jwt.userId c)%nat
                   then afterReset (now w)
                          (Bcrypt.digestOf (salt w)
                             (str (body_newPassword req))) r
                   else r) db,
     {| sent := {| status := 200; success := true;
                   message := "Password reset successful"; data := VNull |};
        cookies := [] |}).
Proof.
  intros Ht Hp Hv Hf.
  pose proof (validatePassword_truthy _ Hp) as Hpt.
  pose proof (verified_present _ _ _ _ Hv) as Hpr.
  pose proof Hf as Hf'. unfold Prisma.findByIdAndLiveResetToken in Hf'.
  apply find_some in Hf' as [Hin Hu].
  apply andb_true_iff in Hu as [Hu _]. apply andb_true_iff in Hu as [Hid _].
  apply Nat.eqb_eq in Hid.
  unfold resetPassword. step_handler.
  rewrite Ht, Hpr, Hpt, Hp. cbn [the_token]. step_handler.
  rewrite Hv. step_handler. rewrite Hf. step_handler.
  rewrite (hashPassword_valid w _ Hp). step_handler.
  rewrite (update_found _ _ _ _ u Hin eq_refl). rewrite Hid. reflexivity.
Qed.

(** C5. When the presented token verifies, is the stored [resetToken] of
    the user it names, and the stored [resetTokenExpiry] is strictly in the
    future, a reset with a new password of at least 6 characters stores the
    hash of the new password and clears [resetToken], [resetTokenExpiry]
    and [refreshToken] on that user's record, touches no other record, and
    answers 200. *)
Theorem resetPassword_postcondition w req db t c u e :
  body_token req = Some t ->
  validatePassword (body_newPassword req) = true ->
  verifyToken t (JWT_SECRET env) (now w) = inr c ->
  In u db ->
  User.id u = Jwt.userId c ->
  User.resetToken u = Some t ->
  User.resetTokenExpiry u = Some e ->
  (now w < e)%Z ->
  exists h,
    hashPassword w (body_newPassword req) = Returns h /\
    resetPassword env w req db =
      (map (fun r => if (User.id r =? Jwt.userId c)%nat
                     then afterReset (now w) h r
                     else r) db,
       {| sent := {| status := 200; success := true;
                     message := "Password reset successful"; data := VNull |};
          cookies := [] |}).
Proof.
  intros Ht Hp Hv Hin Hid Hrt He Hlt.
  destruct (live_row_found db _ t (now w) u e Hin Hid Hrt He Hlt) as [u' Hf].
  exists (Bcrypt.digestOf (salt w) (str (body_newPassword req))).
  split; [exact (hashPassword_valid w _ Hp)|].
  exact (resetPassword_success w req db t c u' Ht Hp Hv Hf).
Qed.

(** C6 (amended). A reset call whose token is absent or the empty string
    is refused by the input guard with 400 [Token and new password are
    required], whatever else it holds. A reset call that presents a
    non-empty token together with a new password of at least 6 characters,
    where the token does not verify (malformed, signed under another key,
    or expired) or names a user none of whose records holds it as a live
    reset token (never stored, superseded, consumed, or past its stored
    expiry), is answered with the one error [Invalid or expired reset
    token], status 400. The store is left alone in both cases. *)
Theorem resetPassword_merged_error w req db :
  (Jwt.present (body_token req) = false ->
   resetPassword env w req db =
     (db, {| sent := errorResponse "Token and new password are required" 400;
             cookies := [] |})) /\
  (Jwt.present (body_token req) = true ->
   validatePassword (body_newPassword req) = true ->
   (forall c,
       verifyToken (the_token (body_token req)) (JWT_SECRET env) (now w)
         = inr c ->
       noLiveResetRow db (Jwt.userId c) (the_token (body_token req)) (now w)) ->
   resetPassword env w req db =
     (db, {| sent := errorResponse "Invalid or expired reset token" 400;
             cookies := [] |})).
Proof.
  split.
  - intros Hpr. unfold resetPassword. step_handler. rewrite Hpr. reflexivity.
  - intros Hpr Hp Hno.
    pose proof (validatePassword_truthy _ Hp) as Hpt.
    unfold resetPassword. step_handler. rewrite Hpr, Hpt, Hp. step_handler.
    destruct (verifyToken (the_token (body_token req)) (JWT_SECRET env) (now w))
      as [err|c] eqn:Hv; step_handler.
    + destruct err; reflexivity.
    + rewrite (no_live_row_not_found _ _ _ _ (Hno c eq_refl)). reflexivity.
Qed.

(** A token that has just been used for a reset is no longer live. *)
Lemma reset_consumes_token w req db t c u t1 :
  body_token req = Some t ->
  validatePassword (body_newPassword req) = true ->
  verifyToken t (JWT_SECRET env) (now w) = inr c ->
  Prisma.findByIdAndLiveResetToken db (Jwt.userId c) t (now w) = Some u ->
  noLiveResetRow (fst (resetPassword env w req db)) (Jwt.userId c) t t1.
Proof.
  intros Ht Hp Hv Hf.
  rewrite (resetPassword_success w req db t c u Ht Hp Hv Hf). cbn [fst].
  intros r Hin Hid Hrt. apply in_map_iff in Hin as [r0 [<- _]].
  destruct (User.id r0 =? Jwt.userId c)%nat eqn:E.
  - discriminate Hrt.
  - apply Nat.eqb_neq in E. cbn in Hid. contradiction.
Qed.


(** *** Credential events *)

Lemma patched_clears t i p db :
  Prisma.set_refreshToken p = Some None ->
  holdsRefreshToken (patched t i p db) i None.
Proof.
  intros Hp u' Hin Hid. apply in_patched in Hin as [u [_ [Hsame ->]]].
  rewrite Hsame in Hid. apply Nat.eqb_eq in Hid. rewrite Hid.
  cbn. rewrite Hp. reflexivity.
Qed.

(** C4. Each credential event of a user that goes through (logout,
    password change with the right current password, password reset with a
    live token) answers 200 and leaves [refreshToken] null on every record
    of that user, and the table keeps the same users. A user has one
    [refreshToken] column, so at most one refresh token is live per user. *)
Theorem credential_events_clear_refreshToken w db uid out :
  credentialEvent env w db uid out ->
  status (sent (snd out)) = 200%Z /\
  holdsRefreshToken (fst out) uid None /\
  map User.id (fst out) = map User.id db.
Proof.
  intros [req who u Hu Hwho Hin Hid
         | req who u Hu Hwho Hf Hcur Hnew Hcmp
         | req t c u Ht Hp Hv Hc Hf].
  - unfold logout. step_handler. rewrite Hu, Hwho. step_handler.
    rewrite (update_found _ _ _ _ u Hin Hid). cbn [table jar fst snd sent status].
    repeat split; [apply patched_clears; reflexivity | apply patched_ids].
  - pose proof (validatePassword_truthy _ Hnew) as Hnt.
    pose proof Hf as Hf'. unfold Prisma.findById in Hf'.
    apply find_some in Hf' as [Hin Hid]. apply Nat.eqb_eq in Hid.
    unfold changeMyPassword. step_handler. rewrite Hcur, Hnt, Hnew, Hu, Hwho.
    step_handler. rewrite Hf. step_handler. rewrite Hcmp. step_handler.
    rewrite (hashPassword_valid w _ Hnew). step_handler.
    rewrite (update_found _ _ _ _ u Hin Hid). cbn [table jar fst snd sent status].
    repeat split; [apply patched_clears; reflexivity | apply patched_ids].
  - subst uid.
    rewrite (resetPassword_success w req db t c u Ht Hp Hv Hf).
    cbn [fst snd sent status]. repeat split.
    + intros r Hin Hid. apply in_map_iff in Hin as [r0 [<- _]].
      destruct (User.id r0 =? Jwt.userId c)%nat eqn:E; [reflexivity|].
      apply Nat.eqb_neq in E. contradiction.
    + rewrite map_map. apply map_ext. intros r.
      destruct (User.id r =? Jwt.userId c)%nat; reflexivity.
Qed.

(** *** Password-reset requests *)

Lemma forgotPassword_unknown w req db :
  truthy (body_email req) = true ->
  validateEmail (body_email req) = true ->
  Prisma.findByEmail db (body_email req) = Returns None ->
  forgotPassword env validateEmail w req db =
    (db, {| sent := {| status := 200; success := true;
                       message := "If email exists, reset link has been sent";
                       data := VNull |};
            cookies := [] |}).
Proof.
  intros He Hv Hf. unfold forgotPassword. step_handler.
  rewrite He, Hv. step_handler. rewrite Hf. reflexivity.
Qed.

Lemma forgotPassword_known w req db u tok :
  truthy (body_email req) = true ->
  validateEmail (body_email req) = true ->
  Prisma.findByEmail db (body_email req) = Returns (Some u) ->
  generateResetToken env (User.id u) (now w) = Returns tok ->
  forgotPassword env validateEmail w req db =
    (patched (now w) (User.id u)
       {| Prisma.set_password := None;
          Prisma.set_resetToken := Some (Some tok);
          Prisma.set_resetTokenExpiry := Some (Some (now w + 60 * 60 * 1000)%Z);
          Prisma.set_refreshToken := None |} db,
     {| sent := {| status := 200; success := true;
                   message := "If email exists, reset link has been sent";
                   data :=
                     VObj (if development env
                           then [ ("resetToken", VToken tok) ]
                           else []) |};
        cookies := [] |}).
Proof.
  intros He Hv Hf Htok. unfold forgotPassword. step_handler.
  rewrite He, Hv. step_handler. rewrite Hf. step_handler.
  rewrite Htok. step_handler.
  destruct (findByEmail_in _ _ _ Hf) as [Hin _].
  rewrite (update_found _ _ _ _ u Hin eq_refl). cbn [table jar].
  unfold successResponse. destruct (development env); reflexivity.
Qed.

Lemma forgotPassword_known_unset w req db u :
  truthy (body_email req) = true ->
  validateEmail (body_email req) = true ->
  Prisma.findByEmail db (body_email req) = Returns (Some u) ->
  generateResetToken env (User.id u) (now w) = Throws ->
  forgotPassword env validateEmail w req db =
    (db, {| sent := errorResponse
                      "Failed to process forgot password request" 500;
            cookies := [] |}).
Proof.
  intros He Hv Hf Htok. unfold forgotPassword. step_handler.
  rewrite He, Hv. step_handler. rewrite Hf. step_handler.
  rewrite Htok. reflexivity.
Qed.

(** C3 (what the code does). For well-formed emails the answer to a reset
    request tells whether the email is registered: it carries [data: null]
    when the email is not registered, and differs from that answer when it
    is. With the access secret set, the answer for a registered email
    carries an object as data, while status, success flag and message
    agree. *)
Theorem forgotPassword_data_tells_registered w1 req1 db1 w2 req2 db2 u :
  truthy (body_email req1) = true ->
  validateEmail (body_email req1) = true ->
  Prisma.findByEmail db1 (body_email req1) = Returns (Some u) ->
  truthy (body_email req2) = true ->
  validateEmail (body_email req2) = true ->
  Prisma.findByEmail db2 (body_email req2) = Returns None ->
  let known := sent (snd (forgotPassword env validateEmail w1 req1 db1)) in
  let unknown := sent (snd (forgotPassword env validateEmail w2 req2 db2)) in
  (JWT_SECRET env <> "" ->
   status known = status unknown /\
   success known = success unknown /\
   message known = message unknown /\
   exists fields, data known = VObj fields) /\
  data unknown = VNull /\
  known <> unknown.
Proof.
  intros He1 Hv1 H1 He2 Hv2 H2 known unknown. subst known unknown.
  rewrite (forgotPassword_unknown w2 req2 db2 He2 Hv2 H2).
  cbn [snd sent status success message data].
  destruct (generateResetToken env (User.id u) (now w1)) as [tok|] eqn:Htok.
  - rewrite (forgotPassword_known w1 req1 db1 u tok He1 Hv1 H1 Htok).
    cbn [snd sent status success message data].
    split; [|split; [reflexivity | intros H; discriminate H]].
    intros _. repeat split; eauto.
  - rewrite (forgotPassword_known_unset w1 req1 db1 u He1 Hv1 H1 Htok).
    cbn [snd sent status success message data].
    split; [|split; [reflexivity | intros H; discriminate H]].
    intros Hset. apply sign_throws in Htok. contradiction.
Qed.

(** *** Token purposes *)

Lemma issue_signed p uid t tok :
  issue env p uid t = Returns tok ->
  exists c, tok = Jwt.Signed (secretOf env p) c /\
            Jwt.userId c = uid /\ Jwt.iat c = Jwt.seconds t.
Proof.
  destruct p; cbn [issue secretOf];
    unfold generateAccessToken, generateRefreshToken, generateResetToken;
    intros H; apply sign_returns in H as [_ ->];
    eexists; repeat split.
Qed.

Lemma verify_other_key key c secret t :
  key <> secret ->
  verifyToken (Jwt.Signed key c) secret t = inl Jwt.JsonWebTokenError.
Proof.
  intros H. unfold verifyToken, Jwt.verify.
  destruct (secret =? ""); [reflexivity|].
  destruct (string_dec key secret); [contradiction | reflexivity].
Qed.

(** C2 (amended). A token verifies only under the secret it was signed
    with: under any other secret verification fails with
    [JsonWebTokenError]. When the two configured secrets differ, this
    separates refresh tokens from access and reset tokens in both
    directions. Access and reset tokens are signed and verified under the
    same secret, so each verifies under the other's purpose exactly as
    under its own. *)
Theorem purpose_separation p q uid t t' tok :
  JWT_SECRET env <> JWT_REFRESH_SECRET env ->
  issue env p uid t = Returns tok ->
  (forall secret, secret <> secretOf env p ->
      verifyToken tok secret t' = inl Jwt.JsonWebTokenError) /\
  (sameSecret p q = false ->
      verifyAs env q tok t' = inl Jwt.JsonWebTokenError) /\
  (sameSecret p q = true ->
      verifyAs env q tok t' = verifyAs env p tok t').
Proof.
  intros Hdiff Hissue.
  destruct (issue_signed p uid t tok Hissue) as [c [-> _]]. repeat split.
  - intros secret Hs. apply verify_other_key. congruence.
  - intros Hpq. unfold verifyAs. apply verify_other_key.
    destruct p, q; cbn in Hpq |- *; congruence.
  - intros Hpq. unfold verifyAs.
    destruct p, q; cbn in Hpq |- *; (reflexivity || discriminate).
Qed.


(** *** Invariants of the table across handlers *)

Section Preservation.

Variable P : DB -> Prop.

Lemma preserves_ret {A} (a : A) : preserves P (ret a).
Proof. intros s H; exact H. Qed.

Lemma preserves_respond {A} r : preserves P (@respond A r).
Proof. intros s H; exact H. Qed.

Lemma preserves_throw {A} e : preserves P (@throw A e).
Proof. intros s H; exact H. Qed.

Lemma preserves_when b r : preserves P (when b r).
Proof. intros s H; destruct b; exact H. Qed.

Lemma preserves_query {A} (f : DB -> A) : preserves P (query f).
Proof. intros s H; exact H. Qed.

Lemma preserves_cookie c : preserves P (res_cookie c).
Proof. intros s H; exact H. Qed.

Lemma preserves_verified r : preserves P (verified r).
Proof. intros s H; destruct r; exact H. Qed.

Lemma preserves_lookup {A} (f : DB -> Try A) : preserves P (lookup f).
Proof. intros s H. unfold lookup. destruct (f (table s)); exact H. Qed.

(** After a call that may throw, the rest runs on what the call returned. *)
Lemma preserves_attempt {A B} (r : Try A) (k : A -> Handler B) :
  (forall a, r = Returns a -> preserves P (k a)) ->
  preserves P (bind (attempt r) k).
Proof.
  intros Hk s H. unfold bind, attempt.
  destruct r as [a|]; cbn; [exact (Hk a eq_refl s H) | exact H].
Qed.

Lemma preserves_bind {A B} (m : Handler A) (k : A -> Handler B) :
  preserves P m -> (forall a, preserves P (k a)) -> preserves P (bind m k).
Proof.
  intros Hm Hk s H. unfold bind. specialize (Hm s H).
  destruct (m s) as [s' [a|r|e]]; cbn [fst] in *; [|exact Hm|exact Hm].
  exact (Hk a s' Hm).
Qed.

Lemma preserves_update t i p :
  (forall db, P db -> P (patched t i p db)) ->
  preserves P (prisma_update t i p).
Proof.
  intros Hp s H. unfold prisma_update.
  destruct (Prisma.update (table s) t i p) as [db'|] eqn:E; cbn; [|exact H].
  rewrite (update_inv _ _ _ _ _ E). exact (Hp _ H).
Qed.

Lemma preserves_create t e pw n un :
  (forall db u, P db -> User.refreshToken u = None -> P (db ++ [u])%list) ->
  preserves P (prisma_create t e pw n un).
Proof.
  intros Hp s H. unfold prisma_create.
  destruct (Prisma.create (table s) t e pw n un) as [[db' u]|] eqn:E;
    cbn; [|exact H].
  apply create_returns in E as [_ [_ [_ [_ [-> ->]]]]].
  apply Hp; [exact H | reflexivity].
Qed.

Lemma preserves_handle body catch db :
  preserves P body -> P db -> P (fst (handle body catch db)).
Proof.
  intros Hb H. unfold handle.
  specialize (Hb {| table := db; jar := [] |} H).
  destruct (body {| table := db; jar := [] |}) as [s [[]|r|e]]; exact Hb.
Qed.

End Preservation.

Create HintDb handlers.

#[local] Hint Resolve preserves_ret preserves_respond preserves_throw
  preserves_when preserves_query preserves_cookie preserves_verified
  preserves_lookup
  : handlers.

(** Walks a handler body statement by statement. *)
Ltac walk :=
  repeat first
    [ apply preserves_attempt; intros ? ?
    | apply preserves_bind; [|intros ?]
    | solve [eauto with handlers]
    | match goal with
      | |- preserves _ (match ?x with _ => _ end) => destruct x
      | |- preserves _ (if ?b then _ else _) => destruct b
      end ].

Lemma serve_preserves P r w req db :
  tokenInvariant env P (now w) -> P db ->
  P (fst (serve env validateEmail r w req db)).
Proof.
  intros [Happ Hupd] H.
  assert (Hset : forall i j tok,
             generateRefreshToken env j (now w) = Returns tok ->
             preserves P (prisma_update (now w) i
                            (store_refreshToken (Some tok)))).
  { intros i j tok Hgen. apply preserves_update. intros db0 H0.
    apply Hupd; [exact H0|].
    intros tok' Ht. injection Ht as <-. eauto. }
  assert (Hother : forall i p,
             (forall tok, Prisma.set_refreshToken p <> Some (Some tok)) ->
             preserves P (prisma_update (now w) i p)).
  { intros i p Hp. apply preserves_update. intros db0 H0. apply Hupd; [exact H0|].
    intros tok Ht. destruct (Hp tok Ht). }
  assert (Hnew : forall e pw n un,
             preserves P (prisma_create (now w) e pw n un)).
  { intros. apply preserves_create. exact Happ. }
  destruct r; cbn [serve];
    unfold register, login, logout, refreshToken, forgotPassword,
           resetPassword, changeMyPassword.
  - apply preserves_handle; [|exact H]. cbv zeta. walk.
  - apply preserves_handle; [|exact H]. cbv zeta. walk.
  - apply preserves_handle; [|exact H]. cbv zeta. walk.
    apply Hother. discriminate.
  - apply preserves_handle; [|exact H]. cbv zeta. walk.
  - apply preserves_handle; [|exact H]. cbv zeta. walk.
    apply Hother. discriminate.
  - apply preserves_handle; [|exact H]. cbv zeta. walk.
    apply Hother. discriminate.
  - destruct (authenticate env w req db); [exact H|].
    apply preserves_handle; [|exact H]. cbv zeta. walk.
    apply Hother. discriminate.
Qed.


(** *** Refresh-token rotation *)

Lemma presented_token req t :
  presentedRefreshToken req = t -> Jwt.present (Some t) = true ->
  or_token (cookie_refreshToken req) (body_refreshToken req) = Some t.
Proof.
  unfold presentedRefreshToken. intros <- Hp.
  destruct (or_token (cookie_refreshToken req) (body_refreshToken req));
    [reflexivity | discriminate Hp].
Qed.

Lemma verified_secret t secret t0 c :
  verifyToken t secret t0 = inr c -> secret <> "".
Proof.
  unfold verifyToken, Jwt.verify. destruct t as [key c'|raw]; [|discriminate].
  destruct (String.eqb_spec secret ""); [discriminate | auto].
Qed.

Lemma verify_signed secret c t' :
  secret <> "" ->
  verifyToken (Jwt.Signed secret c) secret t' =
    if (Jwt.exp c <=? Jwt.seconds t')%Z then inl Jwt.TokenExpiredError
    else inr c.
Proof.
  intros Hs. unfold verifyToken, Jwt.verify.
  destruct (String.eqb_spec secret ""); [contradiction|].
  destruct (string_dec secret secret) as [_|Hne]; [|destruct (Hne eq_refl)].
  reflexivity.
Qed.

(** A token verifies for the purpose it was signed for until its time span
    has run out. *)
Lemma verify_own_token p uid t t' :
  secretOf env p <> "" ->
  (Jwt.seconds t' < Jwt.seconds t + lifetime env p)%Z ->
  verifyAs env p (tokenFor env p uid t) t' =
    inr {| Jwt.userId := uid; Jwt.iat := Jwt.seconds t;
           Jwt.exp := (Jwt.seconds t + lifetime env p)%Z |}.
Proof.
  intros Hs Hlive. unfold verifyAs, tokenFor. rewrite (verify_signed _ _ _ Hs).
  cbn [Jwt.exp].
  destruct (Z.leb_spec (Jwt.seconds t + lifetime env p) (Jwt.seconds t'));
    [lia | reflexivity].
Qed.

(** Tokens signed for one user and purpose within one clock second are one
    and the same token. *)
Lemma tokenFor_second p uid t t' :
  Jwt.seconds t = Jwt.seconds t' -> tokenFor env p uid t = tokenFor env p uid t'.
Proof. intros H. unfold tokenFor. rewrite H. reflexivity. Qed.

Lemma find_strengthen {A} (f g : A -> bool) (l : list A) (a : A) :
  find f l = Some a ->
  (forall x, g x = true -> f x = true) ->
  g a = true ->
  find g l = Some a.
Proof.
  intros Hf Himp Hg. induction l as [|b l IH]; cbn in *; [discriminate|].
  destruct (f b) eqn:Hfb.
  - injection Hf as ->. rewrite Hg. reflexivity.
  - destruct (g b) eqn:Hgb; [|exact (IH Hf)].
    rewrite (Himp b Hgb) in Hfb. discriminate.
Qed.

Lemma findById_patched t i p db j :
  Prisma.findById (patched t i p db) j =
    option_map (fun r => if (User.id r =? i)%nat
                         then Prisma.apply_patch t p r else r)
               (Prisma.findById db j).
Proof.
  unfold Prisma.findById, patched. apply find_map_stable.
  intros a. destruct (User.id a =? i)%nat; reflexivity.
Qed.

(** A refresh that answers 200 ran on a configured server, has verified the
    presented token, found an active user holding it, and stored a new
    one. *)
Lemma refresh_accepted w req db :
  status (sent (snd (refreshToken env w req db))) = 200%Z ->
  configured env /\
  exists c u,
    verifyToken (presentedRefreshToken req) (JWT_REFRESH_SECRET env) (now w)
      = inr c /\
    Prisma.findByIdAndRefreshToken db (Jwt.userId c) (presentedRefreshToken req)
      = Some u /\
    refreshToken env w req db =
      (patched (now w) (User.id u)
         (store_refreshToken
            (Some (tokenFor env Refresh (User.id u) (now w)))) db,
       {| sent :=
            {| status := 200; success := true;
               message := "Token refreshed successfully";
               data :=
                 VObj [ ("accessToken",
                         VToken (tokenFor env Access (User.id u) (now w)));
                        ("refreshToken",
                         VToken (tokenFor env Refresh (User.id u) (now w)))
                      ] |};
          cookies :=
            [ accessCookie env (tokenFor env Access (User.id u) (now w));
              refreshCookie env (tokenFor env Refresh (User.id u) (now w)) ]
       |}).
Proof.
  unfold refreshToken, presentedRefreshToken. step_handler.
  destruct (Jwt.present
              (or_token (cookie_refreshToken req) (body_refreshToken req)));
    step_handler; [|discriminate].
  destruct (verifyToken _ (JWT_REFRESH_SECRET env) (now w)) as [[]|c] eqn:Hv;
    step_handler; try discriminate.
  destruct (Prisma.findByIdAndRefreshToken db (Jwt.userId c) _) as [u|] eqn:Hf;
    step_handler; [|discriminate].
  destruct (User.isActive u); step_handler; [|discriminate].
  destruct (generateAccessToken env (User.id u) (now w)) as [a|] eqn:Hat;
    step_handler; [|discriminate].
  destruct (generateRefreshToken env (User.id u) (now w)) as [r|] eqn:Hrt;
    step_handler; [|discriminate].
  apply sign_returns in Hat as [Hsa ->], Hrt as [Hsr ->].
  pose proof Hf as Hf'. unfold Prisma.findByIdAndRefreshToken in Hf'.
  apply find_some in Hf' as [Hin _].
  rewrite (update_found _ _ _ _ u Hin eq_refl). cbn [table jar fst snd].
  intros _. split; [split; assumption|].
  exists c, u. split; [reflexivity|]. split; [exact Hf | reflexivity].
Qed.

(** The refresh token stored for an active user is accepted until it
    expires, and is replaced by the one issued then. *)
Lemma stored_refresh_token_accepted w' req' db u t :
  configured env ->
  Prisma.findById db (User.id u) = Some u ->
  User.isActive u = true ->
  User.refreshToken u = Some (tokenFor env Refresh (User.id u) t) ->
  presentedRefreshToken req' = tokenFor env Refresh (User.id u) t ->
  (Jwt.seconds (now w') < Jwt.seconds t + refreshExpiresIn env)%Z ->
  refreshToken env w' req' db =
    (patched (now w') (User.id u)
       (store_refreshToken
          (Some (tokenFor env Refresh (User.id u) (now w')))) db,
     {| sent :=
          {| status := 200; success := true;
             message := "Token refreshed successfully";
             data :=
               VObj [ ("accessToken",
                       VToken (tokenFor env Access (User.id u) (now w')));
                      ("refreshToken",
                       VToken (tokenFor env Refresh (User.id u) (now w')))
                    ] |};
        cookies :=
          [ accessCookie env (tokenFor env Access (User.id u) (now w'));
            refreshCookie env (tokenFor env Refresh (User.id u) (now w')) ]
     |}).
Proof.
  intros Hcfg Hpk Ha Hstored Hpres Hlive.
  pose proof (presented_token req' _ Hpres eq_refl) as Hor.
  assert (Hfind : Prisma.findByIdAndRefreshToken db (User.id u)
                    (tokenFor env Refresh (User.id u) t) = Some u).
  { unfold Prisma.findByIdAndRefreshToken.
    apply (find_strengthen (fun r => (User.id r =? User.id u)%nat)).
    - exact Hpk.
    - intros x Hx. apply andb_true_iff in Hx as [Hx _]. exact Hx.
    - rewrite Nat.eqb_refl, Hstored. cbn [andb].
      apply opt_token_eqb_eq. reflexivity. }
  pose proof Hpk as Hin. unfold Prisma.findById in Hin.
  apply find_some in Hin as [Hin _].
  pose proof (verify_own_token Refresh (User.id u) t (now w') (proj2 Hcfg) Hlive)
    as Hv.
  unfold verifyAs in Hv. cbn [secretOf lifetime] in Hv.
  unfold refreshToken. step_handler. rewrite Hor.
  cbn [Jwt.present tokenFor]. step_handler. cbn [the_token].
  fold (tokenFor env Refresh (User.id u) t).
  rewrite Hv. step_handler. cbn [Jwt.userId].
  rewrite Hfind, Ha. step_handler.
  rewrite (issue_configured Access _ _ Hcfg : generateAccessToken _ _ _ = _).
  step_handler.
  rewrite (issue_configured Refresh _ _ Hcfg : generateRefreshToken _ _ _ = _).
  step_handler.
  rewrite (update_found _ _ _ _ u Hin eq_refl). reflexivity.
Qed.

(** A refresh that presents a token no record of its user holds. *)
Lemma refresh_rejected w req db c :
  JWT_REFRESH_SECRET env <> "" ->
  presentedRefreshToken req = Jwt.Signed (JWT_REFRESH_SECRET env) c ->
  rotatedOut db (Jwt.userId c) (Jwt.Signed (JWT_REFRESH_SECRET env) c) ->
  refreshToken env w req db =
    (db, {| sent := if (Jwt.exp c <=? Jwt.seconds (now w))%Z
                    then errorResponse "Refresh token expired" 401
                    else errorResponse "Invalid refresh token" 401;
            cookies := [] |}).
Proof.
  intros Hs Hpres Hout.
  pose proof (presented_token req _ Hpres eq_refl) as Hor.
  unfold refreshToken. step_handler. rewrite Hor. cbn [Jwt.present the_token].
  step_handler. rewrite (verify_signed _ _ _ Hs).
  destruct (Jwt.exp c <=? Jwt.seconds (now w))%Z; step_handler; [reflexivity|].
  destruct (Prisma.findByIdAndRefreshToken db (Jwt.userId c) _) as [u|] eqn:Hf;
    [|reflexivity].
  exfalso. unfold Prisma.findByIdAndRefreshToken in Hf.
  apply find_some in Hf as [Hin Hu]. apply andb_true_iff in Hu as [Hid Ht].
  apply Nat.eqb_eq in Hid. apply opt_token_eqb_eq in Ht.
  exact (Hout u Hin Hid Ht).
Qed.

(** Tokens issued in a later second than [c] never equal the token of [c]. *)
Lemma rotatedOut_invariant uid key c t :
  (Jwt.iat c < Jwt.seconds t)%Z ->
  tokenInvariant env (fun db => rotatedOut db uid (Jwt.Signed key c)) t.
Proof.
  intros Hlater. split.
  - intros db u H Hnone r Hin Hid. apply in_app_or in Hin as [Hin|[<-|[]]].
    + exact (H r Hin Hid).
    + rewrite Hnone. discriminate.
  - intros db i p H Hp r Hin Hid.
    apply in_patched in Hin as [u [Hin [Hsame ->]]]. rewrite Hsame in Hid.
    destruct (User.id u =? i)%nat; [|exact (H u Hin Hid)].
    cbn [Prisma.apply_patch User.refreshToken].
    destruct (Prisma.set_refreshToken p) as [[tok|]|] eqn:Hset;
      cbn [Prisma.pick].
    + destruct (Hp tok eq_refl) as [j Hgen].
      apply sign_returns in Hgen as [_ ->]. intros Heq.
      injection Heq as _ Hc. rewrite <- Hc in Hlater. cbn in Hlater. lia.
    + discriminate.
    + exact (H u Hin Hid).
Qed.

Lemma run_preserves P t calls db :
  (forall t', (t <= t')%Z -> tokenInvariant env P t') ->
  Forall (fun call => (t <= call_time call)%Z) calls ->
  P db -> P (run env validateEmail calls db).
Proof.
  intros Hinv Hcalls. revert db.
  induction Hcalls as [|[[r w] req] calls Hcall _ IH]; intros db H;
    [exact H|].
  cbn [run]. apply IH. apply serve_preserves; [|exact H].
  apply Hinv. exact Hcall.
Qed.

(** X1. A refresh that is accepted in a later clock second than the one in
    which the presented token was issued answers with a newly issued
    refresh token and stores it on every record of the user. From then on,
    whatever calls of the authentication routes follow (the clock not
    running backwards), a refresh that presents the previous token changes
    nothing and is refused with 401: [Invalid refresh token] while that
    token is unexpired, [Refresh token expired] afterwards. *)
Theorem refresh_rotates_out_previous_token w req db c calls w' req' :
  status (sent (snd (refreshToken env w req db))) = 200%Z ->
  verifyToken (presentedRefreshToken req) (JWT_REFRESH_SECRET env) (now w)
    = inr c ->
  (Jwt.iat c < Jwt.seconds (now w))%Z ->
  Forall (fun call => (now w <= call_time call)%Z) calls ->
  presentedRefreshToken req' = presentedRefreshToken req ->
  let first := refreshToken env w req db in
  let issued := tokenFor env Refresh (Jwt.userId c) (now w) in
  let later := run env validateEmail calls (fst first) in
  let again := refreshToken env w' req' later in
  property "refreshToken" (data (sent (snd first))) = Some (VToken issued) /\
  (exists u, In u (fst first) /\ User.id u = Jwt.userId c) /\
  holdsRefreshToken (fst first) (Jwt.userId c) (Some issued) /\
  issued <> presentedRefreshToken req /\
  fst again = later /\
  sent (snd again) =
    (if (Jwt.exp c <=? Jwt.seconds (now w'))%Z
     then errorResponse "Refresh token expired" 401
     else errorResponse "Invalid refresh token" 401).
Proof.
  intros Hok Hv Hlater Hcalls Hsame first issued later again.
  destruct (refresh_accepted w req db Hok) as [Hcfg [c' [u [Hv' [Hf Hrun]]]]].
  rewrite Hv in Hv'. injection Hv' as <-.
  pose proof (verified_is_signed _ _ _ _ Hv) as Hold.
  pose proof Hf as Hf'. unfold Prisma.findByIdAndRefreshToken in Hf'.
  apply find_some in Hf' as [Hin Hu]. apply andb_true_iff in Hu as [Hid _].
  apply Nat.eqb_eq in Hid.
  assert (Hnew : issued <> presentedRefreshToken req).
  { subst issued. rewrite Hold. unfold tokenFor.
    intros Heq. injection Heq as Hc. rewrite <- Hc in Hlater.
    cbn in Hlater. lia. }
  assert (Hheld : holdsRefreshToken (fst first) (Jwt.userId c) (Some issued)).
  { subst first issued. rewrite Hrun. cbn [fst]. rewrite Hid.
    intros r Hr Hrid. apply in_patched in Hr as [r0 [_ [Hsame0 ->]]].
    rewrite Hsame0 in Hrid. apply Nat.eqb_eq in Hrid. rewrite Hrid.
    reflexivity. }
  assert (Hout : rotatedOut later (Jwt.userId c)
                   (Jwt.Signed (JWT_REFRESH_SECRET env) c)).
  { subst later.
    apply (run_preserves
             (fun db0 => rotatedOut db0 (Jwt.userId c)
                           (Jwt.Signed (JWT_REFRESH_SECRET env) c))
             (now w)); [| exact Hcalls |].
    - intros t' Ht'. apply rotatedOut_invariant.
      assert (Jwt.seconds (now w) <= Jwt.seconds t')%Z
        by (apply Z.div_le_mono; lia).
      lia.
    - intros r Hr Hrid Htok. rewrite (Hheld r Hr Hrid) in Htok.
      apply Hnew. congruence. }
  rewrite Hold in Hsame.
  subst again.
  rewrite (refresh_rejected w' req' later c (proj2 Hcfg) Hsame Hout).
  cbn [fst snd sent]. repeat split; try assumption.
  - subst first. rewrite Hrun, Hid. reflexivity.
  - exists (Prisma.apply_patch (now w)
              (store_refreshToken
                 (Some (tokenFor env Refresh (User.id u) (now w)))) u).
    subst first. rewrite Hrun. cbn [fst]. split; [|exact Hid].
    unfold patched. apply in_map_iff. exists u. rewrite Nat.eqb_refl.
    split; [reflexivity | exact Hin].
Qed.

(** C1 (what the code does). A refresh served within the clock second in
    which the presented token was issued signs the same claims again: it
    answers 200 with the very token that was presented and stores it
    again, so nothing is rotated out, and a later refresh that presents
    that token once more, at any time before it expires, is accepted with
    200 as well. *)
Theorem refresh_replay_in_issuing_second w req db u t tok w' req' :
  configured env ->
  generateRefreshToken env (User.id u) t = Returns tok ->
  Prisma.findById db (User.id u) = Some u ->
  User.isActive u = true ->
  User.refreshToken u = Some tok ->
  presentedRefreshToken req = tok ->
  presentedRefreshToken req' = tok ->
  Jwt.seconds (now w) = Jwt.seconds t ->
  (Jwt.seconds t < Jwt.seconds t + refreshExpiresIn env)%Z ->
  (Jwt.seconds (now w') < Jwt.seconds t + refreshExpiresIn env)%Z ->
  let first := refreshToken env w req db in
  let again := refreshToken env w' req' (fst first) in
  status (sent (snd first)) = 200%Z /\
  property "refreshToken" (data (sent (snd first))) = Some (VToken tok) /\
  holdsRefreshToken (fst first) (User.id u) (Some tok) /\
  status (sent (snd again)) = 200%Z.
Proof.
  intros Hcfg Hgen Hpk Ha Hstored Hpres Hpres' Hsec Hspan Hlive first again.
  apply sign_returns in Hgen as [_ Htok].
  change (tok = tokenFor env Refresh (User.id u) t) in Htok. subst tok.
  assert (Hfirst : (Jwt.seconds (now w)
                    < Jwt.seconds t + refreshExpiresIn env)%Z)
    by (rewrite Hsec; exact Hspan).
  subst again first.
  rewrite (stored_refresh_token_accepted w req db u t Hcfg Hpk Ha Hstored
             Hpres Hfirst).
  cbn [fst snd sent status data].
  rewrite <- (tokenFor_second Refresh (User.id u) (now w) t Hsec).
  split; [reflexivity|]. split; [reflexivity|].
  set (p := store_refreshToken
              (Some (tokenFor env Refresh (User.id u) (now w)))).
  split.
  - intros r Hr Hrid. apply in_patched in Hr as [r0 [_ [Hsame0 ->]]].
    rewrite Hsame0 in Hrid. apply Nat.eqb_eq in Hrid. rewrite Hrid.
    reflexivity.
  - rewrite (stored_refresh_token_accepted w' req' _
               (Prisma.apply_patch (now w) p u) (now w) Hcfg).
    + reflexivity.
    + cbn [User.id Prisma.apply_patch]. rewrite findById_patched, Hpk.
      cbn [option_map]. rewrite Nat.eqb_refl. reflexivity.
    + exact Ha.
    + reflexivity.
    + rewrite Hpres'.
      apply (tokenFor_second Refresh (User.id u) t (now w) (eq_sym Hsec)).
    + rewrite Hsec. exact Hlive.
Qed.

(** *** The middleware *)

(** X2. [optionalAuth] resolves a caller exactly when [authenticate] lets
    the request through, and to the same request; otherwise it hands the
    request on as it came. *)
Theorem optionalAuth_agrees_with_authenticate w req db :
  optionalAuth env w req db =
    match authenticate env w req db with
    | inr req' => req'
    | inl _ => req
    end.
Proof.
  unfold optionalAuth, authenticate.
  destruct (Jwt.present (accessTokenOf req)); cbn [negb]; [|reflexivity].
  destruct (verifyToken (the_token (accessTokenOf req)) (JWT_SECRET env) (now w))
    as [[]|c]; try reflexivity.
  destruct (Prisma.findById db (Jwt.userId c)) as [u|]; [|reflexivity].
  destruct (User.isActive u); reflexivity.
Qed.

(** X3. [authenticate] fails closed: every refusal is a 401 without data,
    and a request gets through only with a token that verifies under the
    access secret and names a stored, active user, whose identity is then
    attached to the request. *)
Theorem authenticate_fails_closed w req db :
  match authenticate env w req db with
  | inl r => status r = 401%Z /\ success r = false /\ data r = VNull
  | inr req' =>
      exists c u,
        verifyToken (the_token (accessTokenOf req)) (JWT_SECRET env) (now w)
          = inr c /\
        Prisma.findById db (Jwt.userId c) = Some u /\
        User.id u = Jwt.userId c /\
        User.isActive u = true /\
        req' = attach req (identify u)
  end.
Proof.
  unfold authenticate.
  destruct (Jwt.present (accessTokenOf req)); cbn [negb];
    [|split; [reflexivity | split; reflexivity]].
  destruct (verifyToken (the_token (accessTokenOf req)) (JWT_SECRET env) (now w))
    as [[]|c] eqn:Hv; try (split; [reflexivity | split; reflexivity]).
  destruct (Prisma.findById db (Jwt.userId c)) as [u|] eqn:Hf;
    [|split; [reflexivity | split; reflexivity]].
  destruct (User.isActive u) eqn:Ha;
    [|split; [reflexivity | split; reflexivity]].
  exists c, u. split; [first [exact Hv | reflexivity]|].
  split; [first [exact Hf | reflexivity]|].
  split; [|split; [exact Ha | reflexivity]].
  unfold Prisma.findById in Hf. apply find_some in Hf as [_ Hid].
  apply Nat.eqb_eq. exact Hid.
Qed.

(** X4. A non-empty bearer token in the Authorization header decides alone:
    the access-token cookie is not looked at, so a header token that fails
    is not rescued by a good cookie. *)
Theorem bearer_header_overrides_cookie w req1 req2 db :
  bearer req1 = bearer req2 ->
  Jwt.present (bearer req1) = true ->
  match authenticate env w req1 db, authenticate env w req2 db with
  | inl r1, inl r2 => r1 = r2
  | inr a, inr b => user a = user b
  | _, _ => False
  end.
Proof.
  intros Hsame Hpresent. unfold authenticate, accessTokenOf.
  rewrite <- Hsame, Hpresent. cbv beta iota. rewrite Hpresent. cbn [negb].
  destruct (verifyToken (the_token (bearer req1)) (JWT_SECRET env) (now w))
    as [[]|c]; try reflexivity.
  destruct (Prisma.findById db (Jwt.userId c)) as [u|]; [|reflexivity].
  destruct (User.isActive u); reflexivity.
Qed.


(** *** What the routes leave alone *)

(** A registration that meets the preconditions stores its row. When the
    server is configured it is accepted; when a secret is not set,
    [jwt.sign] throws after [prisma.user.create] has written the row: the
    answer is 500 and the row stays. *)
Lemma register_valid w req db :
  validRegistration validateEmail db req ->
  (configured env /\
   register env validateEmail w req db =
     (patched (now w) (Prisma.freshId db)
        (store_refreshToken
           (Some (tokenFor env Refresh (Prisma.freshId db) (now w))))
        (db ++ [newRow w req db])%list,
      {| sent :=
           {| status := 201; success := true;
              message := "Registration successful";
              data :=
                VObj [ ("user", VObj (registerUserObject w req db));
                       ("accessToken",
                        VToken (tokenFor env Access (Prisma.freshId db)
                                  (now w)));
                       ("refreshToken",
                        VToken (tokenFor env Refresh (Prisma.freshId db)
                                  (now w))) ] |};
         cookies :=
           [ accessCookie env (tokenFor env Access (Prisma.freshId db) (now w));
             refreshCookie env
               (tokenFor env Refresh (Prisma.freshId db) (now w)) ] |})) \/
  (~ configured env /\
   register env validateEmail w req db =
     ((db ++ [newRow w req db])%list,
      {| sent := errorResponse "Registration failed" 500; cookies := [] |})).
Proof.
  intros Hvalid.
  destruct (generateAccessToken env (Prisma.freshId db) (now w)) as [a|]
    eqn:Hat;
    [destruct (generateRefreshToken env (Prisma.freshId db) (now w)) as [r|]
       eqn:Hrt|].
  - left. pose proof (register_success w req db a r Hvalid Hat Hrt) as Hrun.
    apply sign_returns in Hat as [Hsa ->], Hrt as [Hsr ->].
    split; [split; assumption | exact Hrun].
  - right. split.
    { intros [_ Hsr]. apply sign_throws in Hrt. contradiction. }
    destruct (validRegistration_create w req db Hvalid) as [Hhash Hcreate].
    pose proof (validRegistration_username req db Hvalid) as Hname.
    destruct Hvalid as [He [Hv [Hp [Hfresh _]]]].
    pose proof (validatePassword_truthy _ Hp) as Hpt.
    unfold register. step_handler.
    rewrite He, Hpt, Hv, Hp. step_handler. rewrite Hfresh. step_handler.
    destruct (truthy (body_username req));
      [rewrite (Hname eq_refl)|];
      step_handler; rewrite Hhash; step_handler; rewrite Hcreate;
      step_handler;
      change (User.id (newRow w req db)) with (Prisma.freshId db);
      rewrite Hat; step_handler; rewrite Hrt; reflexivity.
  - right. split.
    { intros [Hsa _]. apply sign_throws in Hat. contradiction. }
    destruct (validRegistration_create w req db Hvalid) as [Hhash Hcreate].
    pose proof (validRegistration_username req db Hvalid) as Hname.
    destruct Hvalid as [He [Hv [Hp [Hfresh _]]]].
    pose proof (validatePassword_truthy _ Hp) as Hpt.
    unfold register. step_handler.
    rewrite He, Hpt, Hv, Hp. step_handler. rewrite Hfresh. step_handler.
    destruct (truthy (body_username req));
      [rewrite (Hname eq_refl)|];
      step_handler; rewrite Hhash; step_handler; rewrite Hcreate;
      step_handler;
      change (User.id (newRow w req db)) with (Prisma.freshId db);
      rewrite Hat; reflexivity.
Qed.

(** A registration that does not meet them is refused and writes
    nothing. *)
Lemma register_invalid w req db :
  validRegistration validateEmail db req \/
  (fst (register env validateEmail w req db) = db /\
   success (sent (snd (register env validateEmail w req db))) = false /\
   cookies (snd (register env validateEmail w req db)) = []).
Proof.
  unfold validRegistration, register. step_handler. crack; cbn;
    try (right; repeat split; reflexivity); left.
  all: repeat match goal with
              | H : Prisma.create _ _ _ _ _ _ = Returns _ |- _ =>
                  apply create_returns in H as [? [? [? [? [? ?]]]]]
              end.
  all: repeat split; eauto.
Qed.

(** A request that another route refuses writes nothing and sets no
    cookie. *)
Lemma serve_refused r w req db :
  r <> PostRegister ->
  success (sent (snd (serve env validateEmail r w req db))) = false ->
  fst (serve env validateEmail r w req db) = db /\
  cookies (snd (serve env validateEmail r w req db)) = [].
Proof.
  intros Hr.
  destruct r; [destruct (Hr eq_refl)| | | | | | ]; cbn [serve];
    unfold login, logout, refreshToken, forgotPassword,
           resetPassword, changeMyPassword;
    try destruct (authenticate env w req db);
    step_handler; crack; cbn;
    intros Hs; first [split; reflexivity | discriminate Hs].
Qed.

(** X5. A request that is refused sets and clears no cookie and, with one
    exception, writes nothing. The exception is a registration that meets
    every precondition on a server where a signing secret is not set:
    [jwt.sign] throws after the row has been created, the answer is 500
    [Registration failed], and the row stays in the table. *)
Theorem refused_request_leaves_store r w req db :
  success (sent (snd (serve env validateEmail r w req db))) = false ->
  cookies (snd (serve env validateEmail r w req db)) = [] /\
  (fst (serve env validateEmail r w req db) = db \/
   (r = PostRegister /\
    validRegistration validateEmail db req /\
    ~ configured env /\
    serve env validateEmail r w req db =
      ((db ++ [newRow w req db])%list,
       {| sent := errorResponse "Registration failed" 500;
          cookies := [] |}))).
Proof.
  intros Hs.
  destruct (Route_eq_dec r PostRegister) as [-> | Hr].
  - cbn [serve] in Hs |- *.
    destruct (register_invalid w req db) as [Hvalid | [Hdb [_ Hc]]].
    + destruct (register_valid w req db Hvalid) as [[_ Hrun] | [Hcfg Hrun]].
      * rewrite Hrun in Hs. discriminate Hs.
      * rewrite Hrun. cbn [fst snd cookies]. split; [reflexivity|].
        right. split; [reflexivity|]. split; [exact Hvalid|].
        split; [exact Hcfg | reflexivity].
    + split; [exact Hc | left; exact Hdb].
  - destruct (serve_refused r w req db Hr Hs) as [Hdb Hc].
    split; [exact Hc | left; exact Hdb].
Qed.

(** Every route but the registration keeps any property of the table that
    its updates keep. *)
Lemma serve_keeps (P : DB -> Prop) r w req db :
  r <> PostRegister ->
  (forall db0 i p,
      P db0 ->
      (writesPassword r = false -> Prisma.set_password p = None) ->
      P (patched (now w) i p db0)) ->
  P db -> P (fst (serve env validateEmail r w req db)).
Proof.
  intros Hr Hupd H.
  assert (Hstore : forall i t,
             preserves P (prisma_update (now w) i (store_refreshToken t))).
  { intros i t. apply preserves_update. intros db0 H0. apply Hupd; [exact H0|].
    reflexivity. }
  destruct r; [destruct (Hr eq_refl)| | | | | | ]; cbn [serve];
    unfold login, logout, refreshToken, forgotPassword, resetPassword,
           changeMyPassword;
    try destruct (authenticate env w req db); try exact H;
    (apply preserves_handle; [|exact H]); cbv zeta; walk;
    apply preserves_update; intros db0 Hdb0; (apply Hupd; [exact Hdb0|]);
    cbn [writesPassword]; intros Hw; first [reflexivity | discriminate Hw].
Qed.

(** The store a registration leaves: the one it found, or that one with the
    new row appended, with or without its refresh token. *)
Lemma register_store w req db :
  (fst (register env validateEmail w req db) = db /\
   ~ validRegistration validateEmail db req) \/
  (validRegistration validateEmail db req /\
   (fst (register env validateEmail w req db) = (db ++ [newRow w req db])%list
    \/ exists t,
         fst (register env validateEmail w req db) =
           patched (now w) (Prisma.freshId db) (store_refreshToken t)
             (db ++ [newRow w req db])%list)).
Proof.
  destruct (register_invalid w req db) as [Hvalid | [Hdb [Hs _]]].
  - right. split; [exact Hvalid|].
    destruct (register_valid w req db Hvalid) as [[_ Hrun] | [_ Hrun]];
      rewrite Hrun; cbn [fst]; [right; eauto | left; reflexivity].
  - left. split; [exact Hdb|]. intros Hvalid.
    destruct (register_valid w req db Hvalid) as [[_ Hrun] | [_ Hrun]];
      rewrite Hrun in Hs; cbn in Hs; [discriminate Hs|].
    rewrite Hrun in Hdb. cbn [fst] in Hdb.
    apply (f_equal (@length _)) in Hdb. rewrite length_app in Hdb.
    cbn in Hdb. lia.
Qed.

Lemma patched_identityColumns t i p db :
  map identityColumns (patched t i p db) = map identityColumns db.
Proof.
  unfold patched. rewrite map_map. apply map_ext.
  intros r. destruct (User.id r =? i)%nat; reflexivity.
Qed.

Lemma patched_passwords t i p db :
  Prisma.set_password p = None ->
  map User.password (patched t i p db) = map User.password db.
Proof.
  intros Hp. unfold patched. rewrite map_map. apply map_ext.
  intros r. destruct (User.id r =? i)%nat; [|reflexivity].
  cbn. rewrite Hp. reflexivity.
Qed.

(** X6. No authentication route removes or reorders users or changes who a
    user is: id, email, user name, name, avatar, role, active flag and
    creation time of every stored row stay as they were. A row is added by
    a registration that meets the preconditions of [register], and by
    nothing else: exactly one row, at the end, whether the registration is
    then answered 201 or, on a server without its secrets, 500. *)
Theorem routes_keep_identity_columns r w req db :
  exists added,
    map identityColumns (fst (serve env validateEmail r w req db)) =
      (map identityColumns db ++ map identityColumns added)%list /\
    ((r = PostRegister /\ validRegistration validateEmail db req /\
      added = [newRow w req db]) \/
     (~ (r = PostRegister /\ validRegistration validateEmail db req) /\
      added = [])).
Proof.
  destruct (Route_eq_dec r PostRegister) as [-> | Hr].
  - cbn [serve].
    destruct (register_store w req db) as [[-> Hno] | [Hvalid Hrun]].
    + exists []. rewrite app_nil_r. split; [reflexivity|].
      right. split; [|reflexivity]. intros [_ Hvalid]. exact (Hno Hvalid).
    + exists [newRow w req db].
      split; [|left; split; [reflexivity | split; [exact Hvalid | reflexivity]]].
      destruct Hrun as [-> | [t ->]];
        rewrite ?patched_identityColumns, map_app; reflexivity.
  - exists []. rewrite app_nil_r. split.
    + apply (serve_keeps
               (fun d => map identityColumns d = map identityColumns db)
               r w req db Hr); [|reflexivity].
      intros db0 i p H0 _. rewrite patched_identityColumns. exact H0.
    + right. split; [|reflexivity]. intros [Heq _]. exact (Hr Heq).
Qed.

(** X7. Only a password reset and a password change write the password of
    a stored user: after any other route the password hashes of the rows
    that were there are the ones that were there. *)
Theorem only_reset_and_change_write_passwords r w req db :
  writesPassword r = false ->
  firstn (length db)
         (map User.password (fst (serve env validateEmail r w req db)))
  = map User.password db.
Proof.
  intros Hw.
  destruct (Route_eq_dec r PostRegister) as [-> | Hr].
  - cbn [serve].
    destruct (register_store w req db) as [[-> _] | [_ [-> | [t ->]]]].
    + rewrite <- (length_map User.password db). apply firstn_all.
    + rewrite map_app, <- (length_map User.password db).
      rewrite firstn_app, firstn_all, Nat.sub_diag.
      cbn. apply app_nil_r.
    + rewrite patched_passwords by reflexivity.
      rewrite map_app, <- (length_map User.password db).
      rewrite firstn_app, firstn_all, Nat.sub_diag.
      cbn. apply app_nil_r.
  - assert (Hsame : map User.password (fst (serve env validateEmail r w req db))
                    = map User.password db).
    { apply (serve_keeps
               (fun d => map User.password d = map User.password db)
               r w req db Hr); [|reflexivity].
      intros db0 i p H0 Hp. rewrite (patched_passwords _ _ _ _ (Hp Hw)).
      exact H0. }
    rewrite Hsame, <- (length_map User.password db). apply firstn_all.
Qed.

(** *** How the routes compose *)

(** An access token of a stored, active user gets through [authenticate]
    until it expires. *)
Lemma access_token_authenticates w' req' db u t :
  JWT_SECRET env <> "" ->
  Prisma.findById db (User.id u) = Some u ->
  User.isActive u = true ->
  accessTokenOf req' = Some (tokenFor env Access (User.id u) t) ->
  (Jwt.seconds (now w') < Jwt.seconds t + accessExpiresIn env)%Z ->
  authenticate env w' req' db = inr (attach req' (identify u)).
Proof.
  intros Hs Hpk Ha Htok Hlive. unfold authenticate. rewrite Htok.
  cbn [Jwt.present tokenFor negb the_token].
  fold (tokenFor env Access (User.id u) t).
  pose proof (verify_own_token Access (User.id u) t (now w') Hs Hlive) as Hv.
  unfold verifyAs in Hv. cbn [secretOf] in Hv. rewrite Hv. cbn [Jwt.userId].
  rewrite Hpk, Ha. reflexivity.
Qed.

(** X8. The access token a login answers with authenticates as the user who
    logged in: presented in the header or the cookie at any time before it
    expires, it gets through [authenticate] with that user's identity. *)
Theorem login_then_authenticate w req db u a w' req' :
  configured env ->
  truthy (body_email req) = true ->
  truthy (body_password req) = true ->
  Prisma.findByEmail db (body_email req) = Returns (Some u) ->
  User.isActive u = true ->
  comparePassword (body_password req) (User.password u) = Returns true ->
  Prisma.findById db (User.id u) = Some u ->
  generateAccessToken env (User.id u) (now w) = Returns a ->
  accessTokenOf req' = Some a ->
  (Jwt.seconds (now w') < Jwt.seconds (now w) + accessExpiresIn env)%Z ->
  property "accessToken" (data (sent (snd (login env w req db)))) =
    Some (VToken a) /\
  authenticate env w' req' (fst (login env w req db)) =
    inr (attach req' (identify u)).
Proof.
  intros Hcfg He Hp Hf Ha Hc Hpk Hat Htok Hlive.
  rewrite (login_success w req db u a _ He Hp Hf Ha Hc Hat
             (issue_configured Refresh _ _ Hcfg)).
  cbn [fst snd sent data].
  split; [reflexivity|].
  apply sign_returns in Hat as [Hs ->].
  set (p := store_refreshToken
              (Some (tokenFor env Refresh (User.id u) (now w)))).
  change (identify u) with (identify (Prisma.apply_patch (now w) p u)).
  apply (access_token_authenticates w' req' _
           (Prisma.apply_patch (now w) p u) (now w)).
  - exact Hs.
  - cbn [User.id Prisma.apply_patch]. rewrite findById_patched, Hpk.
    cbn [option_map]. rewrite Nat.eqb_refl. reflexivity.
  - exact Ha.
  - exact Htok.
  - exact Hlive.
Qed.

(** X9. The refresh token a login answers with is accepted by the refresh
    route at any time before it expires: the answer is 200 with a new token
    pair and the new refresh token is the one stored from then on. *)
Theorem login_then_refresh w req db u r w' req' :
  configured env ->
  truthy (body_email req) = true ->
  truthy (body_password req) = true ->
  Prisma.findByEmail db (body_email req) = Returns (Some u) ->
  User.isActive u = true ->
  comparePassword (body_password req) (User.password u) = Returns true ->
  Prisma.findById db (User.id u) = Some u ->
  generateRefreshToken env (User.id u) (now w) = Returns r ->
  presentedRefreshToken req' = r ->
  (Jwt.seconds (now w') < Jwt.seconds (now w) + refreshExpiresIn env)%Z ->
  let refreshed := refreshToken env w' req' (fst (login env w req db)) in
  exists r',
    generateRefreshToken env (User.id u) (now w') = Returns r' /\
    status (sent (snd refreshed)) = 200%Z /\
    property "refreshToken" (data (sent (snd refreshed))) = Some (VToken r') /\
    holdsRefreshToken (fst refreshed) (User.id u) (Some r').
Proof.
  intros Hcfg He Hp Hf Ha Hc Hpk Hrt Hpres Hlive refreshed. subst refreshed.
  exists (tokenFor env Refresh (User.id u) (now w')).
  split; [exact (issue_configured Refresh _ _ Hcfg)|].
  rewrite (login_success w req db u _ r He Hp Hf Ha Hc
             (issue_configured Access _ _ Hcfg) Hrt).
  cbn [fst].
  apply sign_returns in Hrt as [_ Hr].
  change (r = tokenFor env Refresh (User.id u) (now w)) in Hr. subst r.
  set (p := store_refreshToken
              (Some (tokenFor env Refresh (User.id u) (now w)))).
  rewrite (stored_refresh_token_accepted w' req' _
             (Prisma.apply_patch (now w) p u) (now w) Hcfg).
  - cbn [fst snd sent status data User.id Prisma.apply_patch].
    split; [reflexivity|]. split; [reflexivity|].
    intros x Hx Hxid. apply in_patched in Hx as [x0 [_ [Hsame0 ->]]].
    rewrite Hsame0 in Hxid. apply Nat.eqb_eq in Hxid. rewrite Hxid.
    reflexivity.
  - cbn [User.id Prisma.apply_patch]. rewrite findById_patched, Hpk.
    cbn [option_map]. rewrite Nat.eqb_refl. reflexivity.
  - exact Ha.
  - reflexivity.
  - exact Hpres.
  - exact Hlive.
Qed.

Lemma refresh_refused db uid w req :
  (forall c, verifyToken (presentedRefreshToken req) (JWT_REFRESH_SECRET env)
               (now w) = inr c ->
             Jwt.userId c = uid /\
             rotatedOut db uid (presentedRefreshToken req)) ->
  fst (refreshToken env w req db) = db /\
  status (sent (snd (refreshToken env w req db))) = 401%Z /\
  success (sent (snd (refreshToken env w req db))) = false /\
  cookies (snd (refreshToken env w req db)) = [].
Proof.
  intros Hout. unfold refreshToken. fold (presentedRefreshToken req).
  step_handler.
  destruct (Jwt.present
              (or_token (cookie_refreshToken req) (body_refreshToken req)));
    step_handler; [|repeat split].
  destruct (verifyToken (presentedRefreshToken req) (JWT_REFRESH_SECRET env)
              (now w)) as [[]|c] eqn:Hv; step_handler; [repeat split..|].
  destruct (Hout c eq_refl) as [Hc Hrot].
  destruct (Prisma.findByIdAndRefreshToken db (Jwt.userId c)
              (presentedRefreshToken req)) as [u|] eqn:Hf;
    step_handler; [exfalso|repeat split].
  unfold Prisma.findByIdAndRefreshToken in Hf.
  apply find_some in Hf as [Hin Hu]. apply andb_true_iff in Hu as [Hid Ht].
  apply Nat.eqb_eq in Hid. apply opt_token_eqb_eq in Ht.
  rewrite Hc in Hid. exact (Hrot u Hin Hid Ht).
Qed.

(** X10. The stored value alone decides: while the refresh token of a user
    is null on every record of that user, every refresh that presents a
    token naming the user is refused with 401, whatever the token, and
    nothing is written or issued. *)
Theorem no_stored_token_no_refresh db uid w req :
  holdsRefreshToken db uid None ->
  (forall c, verifyToken (presentedRefreshToken req) (JWT_REFRESH_SECRET env)
               (now w) = inr c -> Jwt.userId c = uid) ->
  fst (refreshToken env w req db) = db /\
  status (sent (snd (refreshToken env w req db))) = 401%Z /\
  success (sent (snd (refreshToken env w req db))) = false /\
  cookies (snd (refreshToken env w req db)) = [].
Proof.
  intros Hnone Hnames. apply (refresh_refused db uid).
  intros c Hv. split; [exact (Hnames c Hv)|].
  intros u Hin Hid Htok. rewrite (Hnone u Hin Hid) in Htok. discriminate.
Qed.

(** The logout route leaves no refresh token on the caller it resolved. *)
Lemma logout_clears w req db who :
  user (optionalAuth env w req db) = Some who ->
  holdsRefreshToken (fst (serve env validateEmail PostLogout w req db))
                    (ident_id who) None.
Proof.
  intros Hwho. cbn [serve]. unfold logout. step_handler. rewrite Hwho.
  step_handler.
  destruct (Prisma.update db (now w) (ident_id who) (store_refreshToken None))
    as [db'|] eqn:Hupd; step_handler.
  - rewrite (update_inv _ _ _ _ _ Hupd). apply patched_clears. reflexivity.
  - intros u Hin Hid. exfalso.
    rewrite (update_found _ _ _ _ u Hin Hid) in Hupd. discriminate.
Qed.

(** X11. Logout revokes: after the logout route has resolved its caller, a
    refresh that presents a token naming that caller is refused with 401
    and writes nothing, however valid the token is in itself. *)
Theorem logout_then_refresh_refused w req db who w' req' :
  user (optionalAuth env w req db) = Some who ->
  (forall c, verifyToken (presentedRefreshToken req') (JWT_REFRESH_SECRET env)
               (now w') = inr c -> Jwt.userId c = ident_id who) ->
  let db1 := fst (serve env validateEmail PostLogout w req db) in
  fst (refreshToken env w' req' db1) = db1 /\
  status (sent (snd (refreshToken env w' req' db1))) = 401%Z.
Proof.
  intros Hwho Hnames db1.
  destruct (refresh_refused db1 (ident_id who) w' req') as [H1 [H2 _]].
  - intros c Hv. split; [exact (Hnames c Hv)|].
    intros u Hin Hid Htok.
    rewrite (logout_clears w req db who Hwho u Hin Hid) in Htok. discriminate.
  - split; assumption.
Qed.


(** *** The password-reset flow end to end *)

Lemma seconds_bound t1 t2 span :
  (Jwt.seconds t2 < Jwt.seconds t1 + span)%Z -> (t2 < t1 + span * 1000)%Z.
Proof.
  unfold Jwt.seconds. intros H.
  pose proof (Z.mul_div_le t1 1000 ltac:(lia)).
  pose proof (Z.mul_succ_div_gt t2 1000 ltac:(lia)).
  lia.
Qed.

(** A reset that names a user none of whose records holds the presented
    token as a live reset token. *)
Lemma reset_refused w req db :
  (forall c,
      verifyToken (the_token (body_token req)) (JWT_SECRET env) (now w) = inr c ->
      Prisma.findByIdAndLiveResetToken db (Jwt.userId c)
        (the_token (body_token req)) (now w) = None) ->
  fst (resetPassword env w req db) = db /\
  status (sent (snd (resetPassword env w req db))) = 400%Z /\
  success (sent (snd (resetPassword env w req db))) = false.
Proof.
  intros Hno. unfold resetPassword. step_handler.
  destruct (Jwt.present (body_token req)); step_handler; [|repeat split].
  destruct (truthy (body_newPassword req)); step_handler; [|repeat split].
  destruct (validatePassword (body_newPassword req)); step_handler;
    [|repeat split].
  destruct (verifyToken (the_token (body_token req)) (JWT_SECRET env) (now w))
    as [err|c] eqn:Hv; step_handler.
  - destruct err; repeat split.
  - rewrite (Hno c eq_refl). repeat split.
Qed.

(** The status of a login with the email of an active account, by what
    the comparison of the password gives. *)
Lemma login_status w req db u :
  configured env ->
  truthy (body_email req) = true ->
  truthy (body_password req) = true ->
  Prisma.findByEmail db (body_email req) = Returns (Some u) ->
  User.isActive u = true ->
  status (sent (snd (login env w req db))) =
    match comparePassword (body_password req) (User.password u) with
    | Returns true => 200%Z
    | Returns false => 401%Z
    | Throws => 500%Z
    end.
Proof.
  intros Hcfg He Hp Hf Ha.
  destruct (comparePassword (body_password req) (User.password u))
    as [[|]|] eqn:Hc.
  - rewrite (login_success w req db u _ _ He Hp Hf Ha Hc
               (issue_configured Access _ _ Hcfg)
               (issue_configured Refresh _ _ Hcfg)).
    reflexivity.
  - rewrite (login_wrong_password w req db u He Hp Hf Ha Hc). reflexivity.
  - rewrite (proj2 (login_outside_strings w req db He Hp) u Hf Ha Hc).
    reflexivity.
Qed.

(** X12. Password-reset round trip: after a reset link was requested for a
    registered, active account, a reset with the issued token within the
    hour is accepted; from then on a login with the new password is
    accepted, a login with a password the new hash does not match is
    refused with the generic 401, and no refresh token is stored for the
    account. *)
Theorem reset_round_trip w1 req1 db u tok w2 req2 w3 req3 :
  configured env ->
  truthy (body_email req1) = true ->
  validateEmail (body_email req1) = true ->
  Prisma.findByEmail db (body_email req1) = Returns (Some u) ->
  User.isActive u = true ->
  generateResetToken env (User.id u) (now w1) = Returns tok ->
  body_token req2 = Some tok ->
  validatePassword (body_newPassword req2) = true ->
  (Jwt.seconds (now w2) < Jwt.seconds (now w1) + 60 * 60)%Z ->
  body_email req3 = body_email req1 ->
  truthy (body_password req3) = true ->
  let db1 := fst (forgotPassword env validateEmail w1 req1 db) in
  let db2 := fst (resetPassword env w2 req2 db1) in
  exists newHash,
    hashPassword w2 (body_newPassword req2) = Returns newHash /\
    status (sent (snd (resetPassword env w2 req2 db1))) = 200%Z /\
    holdsRefreshToken db2 (User.id u) None /\
    status (sent (snd (login env w3 req3 db2))) =
      match comparePassword (body_password req3) newHash with
      | Returns true => 200%Z
      | Returns false => 401%Z
      | Throws => 500%Z
      end.
Proof.
  intros Hcfg He Hv Hf Ha Hgen Htok Hnew Hlive Hmail Hpw db1 db2.
  set (newHash := Bcrypt.digestOf (salt w2) (str (body_newPassword req2))).
  exists newHash. split; [exact (hashPassword_valid w2 _ Hnew)|].
  set (p1 := {| Prisma.set_password := None;
                Prisma.set_resetToken := Some (Some tok);
                Prisma.set_resetTokenExpiry :=
                  Some (Some (now w1 + 60 * 60 * 1000)%Z);
                Prisma.set_refreshToken := None |}).
  assert (Hdb1 : db1 = patched (now w1) (User.id u) p1 db).
  { subst db1. rewrite (forgotPassword_known w1 req1 db u tok He Hv Hf Hgen).
    reflexivity. }
  destruct (findByEmail_in _ _ _ Hf) as [Hin _].
  assert (Hverify : verifyToken tok (JWT_SECRET env) (now w2) =
                    inr {| Jwt.userId := User.id u;
                           Jwt.iat := Jwt.seconds (now w1);
                           Jwt.exp := (Jwt.seconds (now w1) + 60 * 60)%Z |}).
  { pose proof Hgen as Hgen'. apply sign_returns in Hgen' as [Hs ->].
    exact (verify_own_token Reset (User.id u) (now w1) (now w2) Hs Hlive). }
  assert (Hrow : In (Prisma.apply_patch (now w1) p1 u) db1).
  { rewrite Hdb1. unfold patched. apply in_map_iff. exists u.
    rewrite Nat.eqb_refl. split; [reflexivity | exact Hin]. }
  destruct (live_row_found db1 (User.id u) tok (now w2)
              (Prisma.apply_patch (now w1) p1 u)
              (now w1 + 60 * 60 * 1000)%Z Hrow eq_refl eq_refl eq_refl)
    as [u' Hlive_row].
  { apply seconds_bound in Hlive. lia. }
  pose proof (resetPassword_success w2 req2 db1 tok _ u' Htok Hnew Hverify
                Hlive_row) as Hreset.
  cbn [Jwt.userId] in Hreset. fold newHash in Hreset.
  assert (Hdb2 : db2 = map (fun r => if (User.id r =? User.id u)%nat
                                     then afterReset (now w2) newHash r
                                     else r) db1).
  { subst db2. rewrite Hreset. reflexivity. }
  split; [rewrite Hreset; reflexivity|]. split.
  - rewrite Hdb2. intros r Hr Hid. apply in_map_iff in Hr as [r0 [<- _]].
    destruct (User.id r0 =? User.id u)%nat eqn:E; [reflexivity|].
    apply Nat.eqb_neq in E. contradiction.
  - assert (Hfind : Prisma.findByEmail db2 (body_email req3) =
                    Returns (Some (afterReset (now w2) newHash
                                     (Prisma.apply_patch (now w1) p1 u)))).
    { rewrite Hdb2, Hdb1, Hmail.
      rewrite findByEmail_map
        by (intros r; destruct (User.id r =? User.id u)%nat; reflexivity).
      rewrite findByEmail_patched, Hf. cbn [option_map].
      rewrite Nat.eqb_refl. cbn [User.id Prisma.apply_patch].
      rewrite Nat.eqb_refl. reflexivity. }
    assert (Hmail3 : truthy (body_email req3) = true)
      by (rewrite Hmail; exact He).
    exact (login_status w3 req3 db2 _ Hcfg Hmail3 Hpw Hfind Ha).
Qed.

(** X13. A reset consumes every reset token of the account: after a reset
    was accepted, a reset that presents the same token again, or any other
    token naming that account, is refused with 400 and writes nothing,
    until a new reset link is requested. *)
Theorem reset_token_single_use w req db t c u w' req' :
  body_token req = Some t ->
  validatePassword (body_newPassword req) = true ->
  verifyToken t (JWT_SECRET env) (now w) = inr c ->
  Prisma.findByIdAndLiveResetToken db (Jwt.userId c) t (now w) = Some u ->
  (forall c',
      verifyToken (the_token (body_token req')) (JWT_SECRET env) (now w')
        = inr c' -> Jwt.userId c' = Jwt.userId c) ->
  let db1 := fst (resetPassword env w req db) in
  status (sent (snd (resetPassword env w req db))) = 200%Z /\
  fst (resetPassword env w' req' db1) = db1 /\
  status (sent (snd (resetPassword env w' req' db1))) = 400%Z.
Proof.
  intros Ht Hp Hv Hf Hnames db1.
  pose proof (resetPassword_success w req db t c u Ht Hp Hv Hf) as Hreset.
  split; [rewrite Hreset; reflexivity|].
  destruct (reset_refused w' req' db1) as [H1 [H2 _]]; [|split; assumption].
  intros c' Hv'. rewrite (Hnames c' Hv').
  match goal with
  | |- ?lookup = None => destruct lookup as [r|] eqn:Hfound; [exfalso|reflexivity]
  end.
  unfold Prisma.findByIdAndLiveResetToken in Hfound.
  apply find_some in Hfound as [Hin Hr].
  apply andb_true_iff in Hr as [Hr _]. apply andb_true_iff in Hr as [Hid Htok].
  apply Nat.eqb_eq in Hid.
  subst db1. rewrite Hreset in Hin. cbn [fst] in Hin.
  apply in_map_iff in Hin as [r0 [<- _]].
  destruct (User.id r0 =? Jwt.userId c)%nat eqn:E.
  - discriminate Htok.
  - apply Nat.eqb_neq in E. contradiction.
Qed.

(** X14. A newer reset request supersedes the older one: when a second
    reset link is requested in a later clock second, the token of the first
    request is refused with 400 from then on. *)
Theorem newer_reset_request_supersedes w1 w2 req db u tok1 w3 req3 :
  truthy (body_email req) = true ->
  validateEmail (body_email req) = true ->
  Prisma.findByEmail db (body_email req) = Returns (Some u) ->
  (Jwt.seconds (now w1) < Jwt.seconds (now w2))%Z ->
  generateResetToken env (User.id u) (now w1) = Returns tok1 ->
  body_token req3 = Some tok1 ->
  let db2 :=
    fst (forgotPassword env validateEmail w2 req
           (fst (forgotPassword env validateEmail w1 req db))) in
  exists tok2,
    generateResetToken env (User.id u) (now w2) = Returns tok2 /\
    holdsResetToken db2 (User.id u) (Some tok2) /\
    fst (resetPassword env w3 req3 db2) = db2 /\
    status (sent (snd (resetPassword env w3 req3 db2))) = 400%Z.
Proof.
  intros He Hv Hf Hlater Hgen1 Htok db2.
  pose proof Hgen1 as Hs. apply sign_returns in Hs as [Hs Htok1].
  exists (tokenFor env Reset (User.id u) (now w2)).
  assert (Hgen2 : generateResetToken env (User.id u) (now w2)
                  = Returns (tokenFor env Reset (User.id u) (now w2)))
    by exact (sign_configured _ _ _ _ Hs).
  split; [exact Hgen2|].
  set (p := fun t tok =>
              {| Prisma.set_password := None;
                 Prisma.set_resetToken := Some (Some tok);
                 Prisma.set_resetTokenExpiry := Some (Some (t + 60 * 60 * 1000)%Z);
                 Prisma.set_refreshToken := None |}).
  assert (Hdb1 : fst (forgotPassword env validateEmail w1 req db)
                 = patched (now w1) (User.id u) (p (now w1) tok1) db).
  { rewrite (forgotPassword_known w1 req db u tok1 He Hv Hf Hgen1).
    reflexivity. }
  assert (Hf1 : Prisma.findByEmail
                  (patched (now w1) (User.id u) (p (now w1) tok1) db)
                  (body_email req)
                = Returns (Some (Prisma.apply_patch (now w1)
                                   (p (now w1) tok1) u))).
  { rewrite findByEmail_patched, Hf. cbn [option_map].
    rewrite Nat.eqb_refl. reflexivity. }
  assert (Hdb2 : db2 = patched (now w2) (User.id u)
                         (p (now w2) (tokenFor env Reset (User.id u) (now w2)))
                         (patched (now w1) (User.id u) (p (now w1) tok1) db)).
  { subst db2. rewrite Hdb1.
    rewrite (forgotPassword_known w2 req _ _ _ He Hv Hf1 Hgen2). reflexivity. }
  assert (Hheld : holdsResetToken db2 (User.id u)
                    (Some (tokenFor env Reset (User.id u) (now w2)))).
  { rewrite Hdb2. intros r Hr Hid. apply in_patched in Hr as [r0 [_ [Hsame ->]]].
    rewrite Hsame in Hid. apply Nat.eqb_eq in Hid. rewrite Hid. reflexivity. }
  split; [exact Hheld|].
  destruct (reset_refused w3 req3 db2) as [H1 [H2 _]]; [|split; assumption].
  rewrite Htok. cbn [the_token]. intros c Hc.
  pose proof (verified_is_signed _ _ _ _ Hc) as Hsigned.
  rewrite Htok1 in Hsigned. injection Hsigned as Hclaims.
  match goal with
  | |- ?lookup = None => destruct lookup as [r|] eqn:Hfound; [exfalso|reflexivity]
  end.
  unfold Prisma.findByIdAndLiveResetToken in Hfound.
  apply find_some in Hfound as [Hin Hr].
  apply andb_true_iff in Hr as [Hr _]. apply andb_true_iff in Hr as [Hid Hheld'].
  apply Nat.eqb_eq in Hid. apply opt_token_eqb_eq in Hheld'.
  rewrite <- Hclaims in Hid. cbn [Jwt.userId] in Hid.
  rewrite (Hheld r Hin Hid) in Hheld'.
  rewrite Htok1 in Hheld'. unfold tokenFor in Hheld'.
  injection Hheld' as Hiat _. lia.
Qed.

(** *** Edge behaviour of the session routes *)

(** X15. A logout whose access token does not resolve to a caller (none
    sent, expired, tampered, or of a user who is gone or deactivated) is
    answered 200 [Logout successful] with both cookies cleared, and it
    writes nothing: the refresh token stays stored. *)
Theorem logout_without_identity_is_noop w req db :
  user (optionalAuth env w req db) = None ->
  serve env validateEmail PostLogout w req db =
    (db, {| sent := {| status := 200; success := true;
                       message := "Logout successful"; data := VNull |};
            cookies := [ ClearCookie "accessToken";
                         ClearCookie "refreshToken" ] |}).
Proof.
  intros Hnone. cbn [serve]. unfold logout. step_handler.
  rewrite Hnone. reflexivity.
Qed.

(** X16. A deactivated account is locked out of every way in: a token that
    names it does not get through [authenticate], a refresh that names it
    is refused with 401, and a login to it is refused; none of them writes
    a row or sets a cookie. *)
Theorem deactivated_account_locked_out db uid w req :
  deactivated db uid ->
  ((forall c, verifyToken (the_token (accessTokenOf req)) (JWT_SECRET env)
                (now w) = inr c -> Jwt.userId c = uid) ->
   exists r, authenticate env w req db = inl r /\ status r = 401%Z) /\
  ((forall c, verifyToken (presentedRefreshToken req) (JWT_REFRESH_SECRET env)
                (now w) = inr c -> Jwt.userId c = uid) ->
   refreshToken env w req db =
     (db, {| sent := sent (snd (refreshToken env w req db)); cookies := [] |}) /\
   status (sent (snd (refreshToken env w req db))) = 401%Z) /\
  ((forall u, Prisma.findByEmail db (body_email req) = Returns (Some u) ->
              User.id u = uid) ->
   login env w req db =
     (db, {| sent := sent (snd (login env w req db)); cookies := [] |}) /\
   success (sent (snd (login env w req db))) = false).
Proof.
  intros Hoff. split; [|split].
  - intros Hnames. unfold authenticate.
    destruct (Jwt.present (accessTokenOf req)); cbn [negb];
      [|eexists; split; reflexivity].
    destruct (verifyToken (the_token (accessTokenOf req)) (JWT_SECRET env)
                (now w)) as [[]|c] eqn:Hv;
      try (eexists; split; reflexivity).
    destruct (Prisma.findById db (Jwt.userId c)) as [u|] eqn:Hf;
      [|eexists; split; reflexivity].
    unfold Prisma.findById in Hf. apply find_some in Hf as [Hin Hid].
    apply Nat.eqb_eq in Hid. rewrite (Hnames c eq_refl) in Hid.
    rewrite (Hoff u Hin Hid). eexists; split; reflexivity.
  - intros Hnames. unfold refreshToken. fold (presentedRefreshToken req).
    step_handler.
    destruct (Jwt.present
                (or_token (cookie_refreshToken req) (body_refreshToken req)));
      step_handler; [|split; reflexivity].
    destruct (verifyToken (presentedRefreshToken req) (JWT_REFRESH_SECRET env)
                (now w)) as [[]|c] eqn:Hv; step_handler;
      try (split; reflexivity).
    destruct (Prisma.findByIdAndRefreshToken db (Jwt.userId c)
                (presentedRefreshToken req)) as [u|] eqn:Hf;
      step_handler; [|split; reflexivity].
    unfold Prisma.findByIdAndRefreshToken in Hf.
    apply find_some in Hf as [Hin Hu]. apply andb_true_iff in Hu as [Hid _].
    apply Nat.eqb_eq in Hid. rewrite (Hnames c eq_refl) in Hid.
    rewrite (Hoff u Hin Hid). step_handler. split; reflexivity.
  - intros Hmail. unfold login. step_handler.
    destruct (truthy (body_email req)); step_handler; [|split; reflexivity].
    destruct (truthy (body_password req)); step_handler; [|split; reflexivity].
    destruct (Prisma.findByEmail db (body_email req)) as [[u|]|] eqn:Hf;
      step_handler; try (split; reflexivity).
    destruct (findByEmail_in _ _ _ Hf) as [Hin _].
    rewrite (Hoff u Hin (Hmail u eq_refl)). step_handler. split; reflexivity.
Qed.

(** X17. Password change round trip through the route: with an access token
    of a stored, active user, the right current password and a new password
    of at least 6 characters, the change is answered 200; afterwards a login
    with the user's email is accepted exactly when the password matches the
    new hash. *)
Theorem change_password_then_login w req db u t a w' req' :
  configured env ->
  Prisma.findById db (User.id u) = Some u ->
  Prisma.findByEmail db (Text (User.email u)) = Returns (Some u) ->
  User.isActive u = true ->
  generateAccessToken env (User.id u) t = Returns a ->
  accessTokenOf req = Some a ->
  (Jwt.seconds (now w) < Jwt.seconds t + accessExpiresIn env)%Z ->
  truthy (body_currentPassword req) = true ->
  comparePassword (body_currentPassword req) (User.password u)
    = Returns true ->
  validatePassword (body_newPassword req) = true ->
  body_email req' = Text (User.email u) ->
  truthy (body_email req') = true ->
  truthy (body_password req') = true ->
  let changed := serve env validateEmail PatchMyPassword w req db in
  exists newHash,
    hashPassword w (body_newPassword req) = Returns newHash /\
    status (sent (snd changed)) = 200%Z /\
    holdsRefreshToken (fst changed) (User.id u) None /\
    status (sent (snd (login env w' req' (fst changed)))) =
      match comparePassword (body_password req') newHash with
      | Returns true => 200%Z
      | Returns false => 401%Z
      | Throws => 500%Z
      end.
Proof.
  intros Hcfg Hpk Hmail Ha Hgen Htok Hlive Hcur Hcmp Hnew Hreq' He' Hp' changed.
  set (newHash := Bcrypt.digestOf (salt w) (str (body_newPassword req))).
  exists newHash. split; [exact (hashPassword_valid w _ Hnew)|].
  pose proof (validatePassword_truthy _ Hnew) as Hnt.
  pose proof Hpk as Hin. unfold Prisma.findById in Hin.
  apply find_some in Hin as [Hin _].
  apply sign_returns in Hgen as [Hs Hgen]. rewrite Hgen in Htok.
  set (p := {| Prisma.set_password := Some newHash;
               Prisma.set_resetToken := None;
               Prisma.set_resetTokenExpiry := None;
               Prisma.set_refreshToken := Some None |}).
  assert (Hchanged :
            changed =
              (patched (now w) (User.id u) p db,
               {| sent := {| status := 200; success := true;
                             message :=
                               "Password changed successfully. Please login again.";
                             data := VNull |};
                  cookies := [ ClearCookie "accessToken";
                               ClearCookie "refreshToken" ] |})).
  { subst changed. cbn [serve].
    rewrite (access_token_authenticates w req db u t Hs Hpk Ha Htok Hlive).
    unfold changeMyPassword. step_handler.
    cbn [attach body_currentPassword body_newPassword user identify ident_id].
    rewrite Hcur, Hnt, Hnew. step_handler. rewrite Hpk. step_handler.
    rewrite Hcmp. step_handler.
    rewrite (hashPassword_valid w _ Hnew). step_handler.
    rewrite (update_found _ _ _ _ u Hin eq_refl). reflexivity. }
  rewrite Hchanged. cbn [fst snd sent status].
  split; [reflexivity|]. split; [apply patched_clears; reflexivity|].
  assert (Hfind : Prisma.findByEmail (patched (now w) (User.id u) p db)
                    (body_email req')
                  = Returns (Some (Prisma.apply_patch (now w) p u))).
  { rewrite Hreq'. rewrite findByEmail_patched, Hmail.
    cbn [option_map]. rewrite Nat.eqb_refl. reflexivity. }
  exact (login_status w' req' _ _ Hcfg He' Hp' Hfind Ha).
Qed.

(** X18. The user-name check of the registration skips the empty string: a
    taken, non-empty user name is refused with 400 [Username already
    taken], but an empty user name that another row already holds passes
    the check, makes the insert fail and is answered 500 [Registration
    failed]; either way nothing is written. *)
Theorem register_taken_username w req db s v :
  truthy (body_email req) = true ->
  validateEmail (body_email req) = true ->
  validatePassword (body_password req) = true ->
  Prisma.findByEmail db (body_email req) = Returns None ->
  body_username req = Text s ->
  Prisma.findByUsername db (Text s) = Returns (Some v) ->
  register env validateEmail w req db =
    (db, {| sent := if s =? ""
                    then errorResponse "Registration failed" 500
                    else errorResponse "Username already taken" 400;
            cookies := [] |}).
Proof.
  intros He Hv Hp Hfresh Hs Htaken.
  pose proof (validatePassword_truthy _ Hp) as Hpt.
  unfold register. step_handler. rewrite He, Hpt, Hv, Hp. step_handler.
  rewrite Hfresh. step_handler. rewrite Hs. cbn [truthy].
  destruct (s =? ""); cbn [negb]; step_handler.
  - rewrite (hashPassword_valid w _ Hp). step_handler.
    assert (Hcreate : forall pw,
               Prisma.create db (now w) (body_email req) pw (body_name req)
                 (Text s) = Throws).
    { intros pw. unfold Prisma.create.
      apply findByEmail_returns in Hfresh as [Htext [Hnul Hnone]].
      rewrite Htext. cbn [Prisma.stringArg]. rewrite Hnul.
      destruct (Prisma.nullable (body_name req)); [|reflexivity].
      unfold Prisma.findByUsername, Prisma.stringArg in Htaken.
      cbn [Prisma.nullable].
      destruct (Prisma.nul_free s); [|reflexivity].
      injection Htaken as Htaken. rewrite <- Hnone, Htaken. reflexivity. }
    rewrite Hcreate. reflexivity.
  - rewrite Htaken. reflexivity.
Qed.

(** *** User management *)

Lemma profileObject_plain u :
  forallb (fun kv => plain (snd kv)) (profileObject u) = true.
Proof.
  cbn. rewrite !plain_vopt by reflexivity. destruct (User.role u); reflexivity.
Qed.

Lemma to_json_user obj :
  to_json (VObj [ ("user", VObj obj) ]) = VObj [ ("user", to_json (VObj obj)) ].
Proof. reflexivity. Qed.

Lemma profileObject_noSecret u : carriesNoSecret (profileObject u) = true.
Proof.
  unfold carriesNoSecret, profileObject. cbn.
  destruct (User.username u), (User.name u), (User.avatar u), (User.role u);
    reflexivity.
Qed.

(** X19. Reading a profile by id: the store is never written; the answer is
    200 only for an admin or for the user reading the own profile, and then
    carries the nine profile columns of the stored row and no password
    hash, refresh token or reset token. Anybody else gets 403. *)
Theorem getUserById_access req db :
  fst (getUserById req db) = db /\
  (forall who, user (base req) = Some who ->
               isAdmin who = false -> ident_id who <> params_id req ->
               sent (snd (getUserById req db)) = errorResponse "Access denied" 403) /\
  (status (sent (snd (getUserById req db))) = 200%Z ->
   exists who u,
     user (base req) = Some who /\
     (isAdmin who = true \/ ident_id who = params_id req) /\
     Prisma.findById db (params_id req) = Some u /\
     data (sent (snd (getUserById req db))) =
       VObj [ ("user", VObj (profileObject u)) ] /\
     carriesNoSecret (profileObject u) = true).
Proof.
  unfold getUserById, answer. split; [|split].
  - destruct (user (base req)) as [who|]; [|reflexivity].
    destruct (negb (isAdmin who) && negb (ident_id who =? params_id req)%nat);
      [reflexivity|].
    destruct (Prisma.findById db (params_id req)); reflexivity.
  - intros who -> Hadmin Hother. rewrite Hadmin.
    apply Nat.eqb_neq in Hother. rewrite Hother. reflexivity.
  - destruct (user (base req)) as [who|]; [|discriminate].
    destruct (isAdmin who) eqn:Hadmin; cbn [negb andb].
    + destruct (Prisma.findById db (params_id req)) as [u|] eqn:Hf;
        [|discriminate].
      intros _. exists who, u. split; [reflexivity|].
      split; [left; exact Hadmin|].
      split; [first [exact Hf | reflexivity]|]. split; [|apply profileObject_noSecret].
      cbn [snd sent data successResponse].
      change (select profileKeys (row_object u)) with (profileObject u).
      rewrite to_json_user, (to_json_plain _ (profileObject_plain u)).
      reflexivity.
    + destruct (ident_id who =? params_id req)%nat eqn:Hself; cbn [negb];
        [|discriminate].
      destruct (Prisma.findById db (params_id req)) as [u|] eqn:Hf;
        [|discriminate].
      intros _. exists who, u. split; [reflexivity|].
      split; [right; apply Nat.eqb_eq; exact Hself|].
      split; [first [exact Hf | reflexivity]|]. split; [|apply profileObject_noSecret].
      cbn [snd sent data successResponse].
      change (select profileKeys (row_object u)) with (profileObject u).
      rewrite to_json_user, (to_json_plain _ (profileObject_plain u)).
      reflexivity.
Qed.


Lemma profile_update_inv db t i d db' u :
  Profile.update db t i d = Profile.Updated db' u ->
  db' = map (fun r => if (User.id r =? i)%nat then Profile.apply t d r else r) db.
Proof.
  unfold Profile.update. destruct (Prisma.findById db i); [|discriminate].
  destruct (Profile.clashes db i d); [discriminate|].
  intros H. injection H as <- _. reflexivity.
Qed.

(** The table an update of a profile leaves, whatever it answers. *)
Lemma updateUser_store w req db :
  fst (updateUser validateEmail w req db) = db \/
  exists who d,
    user (base req) = Some who /\
    (isAdmin who = true \/ ident_id who = params_id req) /\
    (isAdmin who = false ->
     Profile.role d = None /\ Profile.isActive d = None) /\
    Profile.avatar d = None /\
    (truthy (put_email req) && validateEmail (put_email req) = false ->
     Profile.email d = None) /\
    fst (updateUser validateEmail w req db) =
      map (fun r => if (User.id r =? params_id req)%nat
                    then Profile.apply (now w) d r else r) db.
Proof.
  unfold updateUser, answer.
  destruct (user (base req)) as [who|] eqn:Hwho; [|left; reflexivity].
  cbv zeta.
  destruct (isAdmin who) eqn:Hadmin;
    destruct (ident_id who =? params_id req)%nat eqn:Hself;
    cbn [negb andb]; try (left; reflexivity).
  all: crack; cbn [fst]; try (left; reflexivity).
  all: right;
    match goal with
    | H : Profile.update _ _ _ ?d = Profile.Updated _ _ |- _ =>
        exists who, d; apply profile_update_inv in H; rewrite H
    end.
  all: split; [reflexivity|].
  all: split;
    [first [left; assumption | right; apply Nat.eqb_eq; assumption]|].
  all: split;
    [first [intros _; split; reflexivity | intros Hno; congruence]|].
  all: split; [reflexivity|].
  all: split; [|reflexivity].
  all: cbn [Profile.email]; intros Hbad;
    first [reflexivity | discriminate Hbad | congruence].
Qed.

Lemma apply_credentialColumns t d r :
  credentialColumns (Profile.apply t d r) = credentialColumns r.
Proof. unfold Profile.apply. destruct (Profile.empty d); reflexivity. Qed.

(** X20. Updating a profile or an avatar never touches credentials: id,
    password hash, refresh token, reset token and its expiry of every row
    are the same afterwards, and no row is added or removed, so no session
    ends and no password changes through these routes. *)
Theorem profile_updates_keep_credentials w req db :
  map credentialColumns (fst (updateUser validateEmail w req db)) =
    map credentialColumns db /\
  map credentialColumns (fst (updateMyAvatar w req db)) =
    map credentialColumns db.
Proof.
  assert (Hkeep : forall t i d,
             map credentialColumns
               (map (fun r => if (User.id r =? i)%nat
                              then Profile.apply t d r else r) db)
             = map credentialColumns db).
  { intros t i d. rewrite map_map. apply map_ext. intros r.
    destruct (User.id r =? i)%nat;
      [apply apply_credentialColumns | reflexivity]. }
  split.
  - destruct (updateUser_store w req db) as [-> | [who [d [_ [_ [_ [_ [_ ->]]]]]]]];
      [reflexivity | apply Hkeep].
  - unfold updateMyAvatar, answer.
    destruct (file_filename req) as [fn|]; [|reflexivity].
    destruct (user (base req)) as [who|]; [|reflexivity].
    match goal with
    | |- context [Profile.update db ?t ?i ?d] =>
        destruct (Profile.update db t i d) as [db' u| |] eqn:Hupd;
          [|reflexivity..]
    end.
    cbn [fst]. rewrite (profile_update_inv _ _ _ _ _ _ Hupd). apply Hkeep.
Qed.

(** X21. No privilege escalation through the profile update: a caller who
    is not an admin changes nobody's role or active flag, whatever the body
    says, and changes no row but the caller's own. *)
Theorem updateUser_no_privilege_escalation w req db who :
  user (base req) = Some who ->
  isAdmin who = false ->
  Forall2 (fun r r' =>
             User.role r' = User.role r /\
             User.isActive r' = User.isActive r /\
             (User.id r <> ident_id who -> r' = r))
          db (fst (updateUser validateEmail w req db)).
Proof.
  intros Hwho Hadmin.
  assert (Hrefl : forall l : DB,
             Forall2 (fun r r' =>
                        User.role r' = User.role r /\
                        User.isActive r' = User.isActive r /\
                        (User.id r <> ident_id who -> r' = r)) l l).
  { induction l; constructor; [repeat split|assumption]. }
  destruct (updateUser_store w req db)
    as [-> | [who' [d [Hwho' [Hmay [Hlow [_ [_ ->]]]]]]]]; [apply Hrefl|].
  rewrite Hwho in Hwho'. injection Hwho' as <-.
  destruct (Hlow Hadmin) as [Hrole Hactive].
  destruct Hmay as [Hadm | Hself]; [rewrite Hadmin in Hadm; discriminate|].
  induction db as [|r l IH]; cbn [map]; constructor; [|exact IH].
  destruct (User.id r =? params_id req)%nat eqn:E.
  - unfold Profile.apply. destruct (Profile.empty d); [repeat split|].
    cbn. rewrite Hrole, Hactive. split; [reflexivity|]. split; [reflexivity|].
    apply Nat.eqb_eq in E. intros Hne. exfalso. apply Hne. congruence.
  - repeat split.
Qed.

(** Whatever the store happens to return first, it is one of the rows
    that match. *)
Lemma nth_error_mod {A} (l : list A) (n : nat) :
  l <> [] -> exists x, nth_error l (n mod length l) = Some x /\ In x l.
Proof.
  intros Hl.
  assert (Hlt : n mod length l < length l).
  { apply Nat.mod_upper_bound. destruct l; [contradiction | discriminate]. }
  destruct (nth_error l (n mod length l)) as [x|] eqn:E.
  - exists x. split; [reflexivity|]. exact (nth_error_In _ _ E).
  - apply nth_error_None in E. lia.
Qed.

(** X22. A malformed email in a profile update is never written: when the
    email of the body is empty or fails the format check, no stored email
    changes, whatever else the update writes and whatever it answers. It
    is looked up all the same: when it is a non-empty string that the row
    of another user holds, and no user name is sent, the update is refused
    with 400 [Email already taken]. *)
Theorem updateUser_ignores_malformed_email w req db :
  truthy (put_email req) && validateEmail (put_email req) = false ->
  map User.email (fst (updateUser validateEmail w req db)) = map User.email db /\
  (forall who e other,
      user (base req) = Some who ->
      isAdmin who = true \/ ident_id who = params_id req ->
      put_email req = Text e ->
      e <> "" ->
      Prisma.nul_free e = true ->
      truthy (put_username req) = false ->
      In other db ->
      User.id other <> params_id req ->
      User.email other = e ->
      updateUser validateEmail w req db =
        (db, {| sent := errorResponse "Email already taken" 400;
                cookies := [] |})).
Proof.
  intros Hbad. split.
  - destruct (updateUser_store w req db)
      as [-> | [who [d [_ [_ [_ [_ [Hmail ->]]]]]]]]; [reflexivity|].
    rewrite map_map. apply map_ext. intros r.
    destruct (User.id r =? params_id req)%nat; [|reflexivity].
    unfold Profile.apply. destruct (Profile.empty d); [reflexivity|].
    cbn. rewrite (Hmail Hbad). reflexivity.
  - intros who e other Hwho Hmay He Hne Hnul Hname Hin Hother Hheld.
    assert (Hholds : holders db (params_id req) (put_email req)
                       (put_username req) <> []).
    { intros Hnil.
      assert (Hin' : In other (holders db (params_id req) (put_email req)
                                 (put_username req))).
      { unfold holders. apply filter_In. split; [exact Hin|].
        apply Nat.eqb_neq in Hother. rewrite Hother, He. cbn [negb truthy str].
        destruct (String.eqb_spec e ""); [contradiction|].
        rewrite Hheld, String.eqb_refl. reflexivity. }
      rewrite Hnil in Hin'. destruct Hin'. }
    destruct (nth_error_mod _ (choice w) Hholds) as [x [Hx Hxin]].
    unfold holders in Hxin. apply filter_In in Hxin as [_ Hxc].
    rewrite Hname in Hxc. cbn [andb orb] in Hxc. rewrite orb_false_r in Hxc.
    apply andb_true_iff in Hxc as [_ Hxc].
    apply andb_true_iff in Hxc as [_ Hxe]. rewrite He in Hxe. cbn [str] in Hxe.
    unfold updateUser, answer. rewrite Hwho. cbv zeta.
    assert (Hperm : negb (isAdmin who)
                    && negb (ident_id who =? params_id req)%nat = false).
    { destruct Hmay as [-> | ->]; [reflexivity|].
      rewrite Nat.eqb_refl. apply andb_false_r. }
    rewrite Hperm. unfold takenBy. rewrite Hx, Hname, He.
    cbn [truthy negb orb andb isString Prisma.stringArg].
    destruct (String.eqb_spec e ""); [contradiction|].
    unfold isString, Prisma.stringArg. rewrite Hnul. cbn [negb orb andb].
    rewrite Hxe. reflexivity.
Qed.

Lemma deleteUser_store refused req db :
  (fst (deleteUser refused req db) = db /\
   status (sent (snd (deleteUser refused req db))) <> 200%Z) \/
  fst (deleteUser refused req db) =
    filter (fun r => negb (User.id r =? params_id req)%nat) db.
Proof.
  unfold deleteUser, answer.
  destruct (user (base req)) as [who|]; [|left; split; [reflexivity|discriminate]].
  destruct (isAdmin who); cbn [negb]; [|left; split; [reflexivity|discriminate]].
  destruct (ident_id who =? params_id req)%nat;
    [left; split; [reflexivity|discriminate]|].
  destruct (Prisma.findById db (params_id req));
    [|left; split; [reflexivity|discriminate]].
  destruct refused; [left; split; [reflexivity|discriminate] | right; reflexivity].
Qed.

(** What a delete answers and leaves, case by case. *)
Lemma deleteUser_admin_only_not_self_aux refused req db :
  (status (sent (snd (deleteUser refused req db))) = 200%Z ->
   exists who u,
     user (base req) = Some who /\ isAdmin who = true /\
     ident_id who <> params_id req /\
     Prisma.findById db (params_id req) = Some u /\
     fst (deleteUser refused req db) =
       filter (fun r => negb (User.id r =? params_id req)%nat) db) /\
  (status (sent (snd (deleteUser refused req db))) <> 200%Z ->
   fst (deleteUser refused req db) = db).
Proof.
  unfold deleteUser, answer.
  destruct (user (base req)) as [who|];
    [|split; [discriminate | reflexivity]].
  destruct (isAdmin who) eqn:Hadmin; cbn [negb];
    [|split; [discriminate | reflexivity]].
  destruct (ident_id who =? params_id req)%nat eqn:Hself;
    [split; [discriminate | reflexivity]|].
  destruct (Prisma.findById db (params_id req)) as [u|] eqn:Hf;
    [|split; [discriminate | reflexivity]].
  destruct refused; [split; [discriminate | reflexivity]|].
  split.
  - intros _. exists who, u. split; [reflexivity|]. split; [exact Hadmin|].
    split; [apply Nat.eqb_neq; exact Hself|]. split; [first [exact Hf | reflexivity] | reflexivity].
  - intros Hne. destruct (Hne eq_refl).
Qed.

(** X23. Deleting a user: the answer is 200 only when the caller is an
    admin, the target is another user and the target exists; then exactly
    the rows of the target are gone and every other row is untouched. Any
    other answer leaves the table as it was. *)
Theorem deleteUser_admin_only_not_self refused req db :
  (status (sent (snd (deleteUser refused req db))) = 200%Z ->
   exists who u,
     user (base req) = Some who /\ isAdmin who = true /\
     ident_id who <> params_id req /\
     Prisma.findById db (params_id req) = Some u /\
     fst (deleteUser refused req db) =
       filter (fun r => negb (User.id r =? params_id req)%nat) db) /\
  (status (sent (snd (deleteUser refused req db))) <> 200%Z ->
   fst (deleteUser refused req db) = db).
Proof. exact (deleteUser_admin_only_not_self_aux refused req db). Qed.

(** X24. The tokens of a deleted user are dead: once a delete was answered
    200, an access token naming the target does not get through
    [authenticate] and a refresh token naming it is refused with 401, how
    ever long they would still be valid. *)
Theorem deleted_user_tokens_are_dead refused req db w' req' :
  status (sent (snd (deleteUser refused req db))) = 200%Z ->
  let db1 := fst (deleteUser refused req db) in
  ((forall c, verifyToken (the_token (accessTokenOf req')) (JWT_SECRET env)
                (now w') = inr c -> Jwt.userId c = params_id req) ->
   exists r, authenticate env w' req' db1 = inl r /\ status r = 401%Z) /\
  ((forall c, verifyToken (presentedRefreshToken req') (JWT_REFRESH_SECRET env)
                (now w') = inr c -> Jwt.userId c = params_id req) ->
   fst (refreshToken env w' req' db1) = db1 /\
   status (sent (snd (refreshToken env w' req' db1))) = 401%Z).
Proof.
  intros Hok db1.
  destruct (deleteUser_store refused req db) as [[_ Hnot] | Hgone];
    [destruct (Hnot Hok)|].
  assert (Hnone : forall u, In u db1 -> User.id u <> params_id req).
  { subst db1. rewrite Hgone. intros u Hu. apply filter_In in Hu as [_ Hu].
    apply negb_true_iff in Hu. apply Nat.eqb_neq. exact Hu. }
  split.
  - intros Hnames. unfold authenticate.
    destruct (Jwt.present (accessTokenOf req')); cbn [negb];
      [|eexists; split; reflexivity].
    destruct (verifyToken (the_token (accessTokenOf req')) (JWT_SECRET env)
                (now w')) as [[]|c] eqn:Hv;
      try (eexists; split; reflexivity).
    destruct (Prisma.findById db1 (Jwt.userId c)) as [u|] eqn:Hf;
      [exfalso|eexists; split; reflexivity].
    unfold Prisma.findById in Hf. apply find_some in Hf as [Hin Hid].
    apply Nat.eqb_eq in Hid. rewrite (Hnames c eq_refl) in Hid.
    exact (Hnone u Hin Hid).
  - intros Hnames.
    destruct (refresh_refused db1 (params_id req) w' req') as [H1 [H2 _]];
      [|split; assumption].
    intros c Hv. split; [exact (Hnames c Hv)|].
    intros u Hin Hid _. exact (Hnone u Hin Hid).
Qed.

(** What a request that got through [authenticate] has shown. *)
Lemma authenticate_passed w req db req' :
  authenticate env w req db = inr req' ->
  exists c u,
    verifyToken (the_token (accessTokenOf req)) (JWT_SECRET env) (now w) = inr c /\
    Prisma.findById db (Jwt.userId c) = Some u /\
    User.id u = Jwt.userId c /\
    User.isActive u = true /\
    req' = attach req (identify u).
Proof.
  unfold authenticate.
  destruct (Jwt.present (accessTokenOf req)); cbn [negb]; [|discriminate].
  destruct (verifyToken (the_token (accessTokenOf req)) (JWT_SECRET env) (now w))
    as [[]|c] eqn:Hv; try discriminate.
  destruct (Prisma.findById db (Jwt.userId c)) as [u|] eqn:Hf; [|discriminate].
  destruct (User.isActive u) eqn:Ha; [|discriminate].
  intros H. injection H as <-. exists c, u.
  split; [reflexivity|]. split; [exact Hf|]. split; [|split; [exact Ha | reflexivity]].
  unfold Prisma.findById in Hf. apply find_some in Hf as [_ Hid].
  apply Nat.eqb_eq. exact Hid.
Qed.

(** X25. The delete route end to end: a user is deleted only on a request
    whose access token verifies and names a stored, active user with the
    ADMIN role who is not the target; without that the table is left as it
    was. *)
Theorem delete_route_needs_active_admin refused w req db :
  let served := serveUser env validateEmail DeleteUserById refused w req db in
  (status (sent (snd served)) = 200%Z ->
   exists c u,
     verifyToken (the_token (accessTokenOf (base req))) (JWT_SECRET env) (now w)
       = inr c /\
     Prisma.findById db (Jwt.userId c) = Some u /\
     User.isActive u = true /\
     User.role u = ADMIN /\
     User.id u <> params_id req /\
     fst served = filter (fun r => negb (User.id r =? params_id req)%nat) db) /\
  (status (sent (snd served)) <> 200%Z -> fst served = db).
Proof.
  cbv zeta. unfold serveUser.
  destruct (authenticate env w (base req) db) as [reply|b] eqn:Hauth.
  - split; [|reflexivity]. intros Hok. exfalso. revert Hok Hauth.
    unfold authenticate, answer.
    destruct (Jwt.present (accessTokenOf (base req))); cbn [negb];
      [|intros Hok H; injection H as <-; discriminate Hok].
    destruct (verifyToken (the_token (accessTokenOf (base req)))
                (JWT_SECRET env) (now w)) as [[]|c];
      try (intros Hok H; injection H as <-; discriminate Hok).
    destruct (Prisma.findById db (Jwt.userId c)) as [u|];
      [|intros Hok H; injection H as <-; discriminate Hok].
    destruct (User.isActive u);
      [discriminate | intros Hok H; injection H as <-; discriminate Hok].
  - destruct (authenticate_passed w (base req) db b Hauth)
      as [c [u [Hv [Hf [Hid [Ha ->]]]]]].
    unfold authorize. cbn [user attach identify ident_role].
    destruct (User.role u) eqn:Hrole.
    + split; [discriminate | reflexivity].
    + cbn [roleName length Nat.eqb negb existsb].
      rewrite String.eqb_refl. cbn [orb negb andb].
      destruct (deleteUser_admin_only_not_self_aux refused
                  (with_base req (attach (base req) (identify u))) db)
        as [Hyes Hno].
      split; [|exact Hno].
      intros Hok. destruct (Hyes Hok) as [who [v [Hwho [_ [Hother [_ Hstore]]]]]].
      cbn [with_base base user attach] in Hwho. injection Hwho as <-.
      exists c, u. split; [exact Hv|]. split; [exact Hf|]. split; [exact Ha|].
      split; [exact Hrole|]. split; [exact Hother | exact Hstore].
Qed.


End Properties.

(** ** Concrete runs *)

Lemma sampleEnv_configured : configured sampleEnv.
Proof. split; discriminate. Qed.

(** C1 at a concrete input: the refresh token of the registration is
    presented 400 ms after it was issued, and once more 500 seconds
    later. *)
Lemma refresh_replay_in_issuing_second_witness :
  generateRefreshToken sampleEnv 1 1000000 = Returns firstRefreshToken /\
  Jwt.seconds 1000400 = Jwt.seconds 1000000 /\
  status (sent (snd (refreshToken sampleEnv (at_ms 1000400)
                       (presenting firstRefreshToken) registeredDb)))
  = 200%Z /\
  property "refreshToken"
    (data (sent (snd (refreshToken sampleEnv (at_ms 1000400)
                        (presenting firstRefreshToken) registeredDb))))
  = Some (VToken firstRefreshToken) /\
  status (sent (snd (refreshToken sampleEnv (at_ms 1500000)
                       (presenting firstRefreshToken)
                       (fst (refreshToken sampleEnv (at_ms 1000400)
                               (presenting firstRefreshToken) registeredDb)))))
  = 200%Z.
Proof.
  assert (Hsec : Jwt.seconds (now (at_ms 1000400)) = Jwt.seconds 1000000)
    by reflexivity.
  assert (Hspan : (Jwt.seconds 1000000
                   < Jwt.seconds 1000000 + refreshExpiresIn sampleEnv)%Z)
    by reflexivity.
  assert (Hlive : (Jwt.seconds (now (at_ms 1500000))
                   < Jwt.seconds 1000000 + refreshExpiresIn sampleEnv)%Z)
    by reflexivity.
  pose proof (refresh_replay_in_issuing_second sampleEnv (at_ms 1000400)
                (presenting firstRefreshToken) registeredDb registeredRow
                1000000%Z firstRefreshToken (at_ms 1500000)
                (presenting firstRefreshToken)
                sampleEnv_configured eq_refl eq_refl eq_refl eq_refl eq_refl
                eq_refl Hsec Hspan Hlive) as [H1 [H2 [_ H4]]].
  split; [reflexivity|]. split; [exact Hsec|].
  split; [exact H1|]. split; [exact H2 | exact H4].
Defined.

(** X1 at a concrete input: register, refresh one second later, log in
    again, then present the first token once more. *)
Lemma refresh_rotates_out_previous_token_witness :
  status (sent (snd (refreshToken sampleEnv (at_ms 1001000)
                       (presenting firstRefreshToken) registeredDb))) = 200%Z /\
  verifyToken (presentedRefreshToken (presenting firstRefreshToken))
    (JWT_REFRESH_SECRET sampleEnv) (now (at_ms 1001000)) = inr firstClaims /\
  (Jwt.iat firstClaims < Jwt.seconds (now (at_ms 1001000)))%Z /\
  sent (snd (refreshToken sampleEnv (at_ms 1003000)
               (presenting firstRefreshToken)
               (run sampleEnv contains_at
                  [ (PostLogin, at_ms 1002000, credentials "a@b.com" "secret1") ]
                  (fst (refreshToken sampleEnv (at_ms 1001000)
                          (presenting firstRefreshToken) registeredDb)))))
    = errorResponse "Invalid refresh token" 401.
Proof.
  assert (H1 : status (sent (snd (refreshToken sampleEnv (at_ms 1001000)
                 (presenting firstRefreshToken) registeredDb))) = 200%Z)
    by reflexivity.
  assert (H2 : verifyToken (presentedRefreshToken (presenting firstRefreshToken))
                 (JWT_REFRESH_SECRET sampleEnv) (now (at_ms 1001000))
               = inr firstClaims) by reflexivity.
  assert (H3 : (Jwt.iat firstClaims < Jwt.seconds (now (at_ms 1001000)))%Z)
    by reflexivity.
  assert (H4 : Forall (fun call => (now (at_ms 1001000) <= call_time call)%Z)
                 [ (PostLogin, at_ms 1002000, credentials "a@b.com" "secret1") ]).
  { repeat constructor. vm_compute. discriminate. }
  split; [exact H1|]. split; [exact H2|]. split; [exact H3|].
  exact (proj2 (proj2 (proj2 (proj2 (proj2
    (refresh_rotates_out_previous_token sampleEnv contains_at
       (at_ms 1001000) (presenting firstRefreshToken) registeredDb firstClaims
       [ (PostLogin, at_ms 1002000, credentials "a@b.com" "secret1") ]
       (at_ms 1003000) (presenting firstRefreshToken)
       H1 H2 H3 H4 eq_refl)))))).
Defined.

(** C2, counterexample to separation of all three purposes: a reset token
    verifies under the access purpose, and the middleware takes it for an
    access token. *)
Lemma reset_token_passes_as_access_token :
  Reset <> Access /\
  issue sampleEnv Reset 1 2000000 = Returns sampleResetToken /\
  verifyAs sampleEnv Access sampleResetToken 2000000 = inr resetClaims /\
  exists req', authenticate sampleEnv (at_ms 2000000)
                 (carrying (Some sampleResetToken) None) registeredDb
               = inr req'.
Proof.
  split; [discriminate|]. split; [reflexivity|]. split; [reflexivity|].
  eexists. reflexivity.
Qed.

(** C2 at a concrete input: a refresh token as access token, a reset token
    as refresh token. *)
Lemma purpose_separation_witness :
  JWT_SECRET sampleEnv <> JWT_REFRESH_SECRET sampleEnv /\
  issue sampleEnv Refresh 1 1000000 = Returns firstRefreshToken /\
  issue sampleEnv Reset 1 2000000 = Returns sampleResetToken /\
  verifyAs sampleEnv Access firstRefreshToken 1000000
    = inl Jwt.JsonWebTokenError /\
  verifyAs sampleEnv Refresh sampleResetToken 2000000
    = inl Jwt.JsonWebTokenError.
Proof.
  assert (H : JWT_SECRET sampleEnv <> JWT_REFRESH_SECRET sampleEnv)
    by discriminate.
  split; [exact H|]. split; [reflexivity|]. split; [reflexivity|]. split.
  - exact (proj1 (proj2 (purpose_separation sampleEnv Refresh Access 1
                           1000000 1000000 firstRefreshToken H eq_refl))
             eq_refl).
  - exact (proj1 (proj2 (purpose_separation sampleEnv Reset Refresh 1
                           2000000 2000000 sampleResetToken H eq_refl))
             eq_refl).
Defined.

(** C3 at a concrete input, in production mode: the same store, a
    registered and an unregistered email. *)
Lemma forgotPassword_data_tells_registered_witness :
  data (sent (snd (forgotPassword sampleEnv contains_at (at_ms 2000000)
                     (credentials "a@b.com" "") registeredDb))) = VObj [] /\
  data (sent (snd (forgotPassword sampleEnv contains_at (at_ms 2000000)
                     (credentials "x@y.com" "") registeredDb))) = VNull /\
  sent (snd (forgotPassword sampleEnv contains_at (at_ms 2000000)
               (credentials "a@b.com" "") registeredDb)) <>
  sent (snd (forgotPassword sampleEnv contains_at (at_ms 2000000)
               (credentials "x@y.com" "") registeredDb)).
Proof.
  split; [reflexivity|]. split; [reflexivity|].
  exact (proj2 (proj2
    (forgotPassword_data_tells_registered sampleEnv contains_at
       (at_ms 2000000) (credentials "a@b.com" "") registeredDb
       (at_ms 2000000) (credentials "x@y.com" "") registeredDb
       registeredRow
       eq_refl eq_refl eq_refl eq_refl eq_refl eq_refl))).
Defined.

(** C4 at concrete inputs: the registered user logs out, changes the
    password, or resets it with the pending token. *)
Lemma credential_events_clear_refreshToken_witness :
  User.refreshToken registeredRow = Some firstRefreshToken /\
  holdsRefreshToken
    (fst (logout (at_ms 3000000) loggingOut registeredDb)) 1 None /\
  holdsRefreshToken
    (fst (changeMyPassword (at_ms 3000000)
            (changingPassword "secret1" "secret2") registeredDb)) 1 None /\
  holdsRefreshToken
    (fst (resetPassword sampleEnv (at_ms 3000000)
            (resetting (Some sampleResetToken) "secret3") pendingResetDb))
    1 None.
Proof.
  split; [reflexivity|]. split; [|split].
  - apply (credential_events_clear_refreshToken sampleEnv (at_ms 3000000)
             registeredDb 1).
    apply (LoggedOut sampleEnv (at_ms 3000000) registeredDb 1 loggingOut
             sampleIdentity registeredRow); try reflexivity.
    left; reflexivity.
  - apply (credential_events_clear_refreshToken sampleEnv (at_ms 3000000)
             registeredDb 1).
    apply (PasswordChanged sampleEnv (at_ms 3000000) registeredDb 1
             (changingPassword "secret1" "secret2") sampleIdentity
             registeredRow); reflexivity.
  - apply (credential_events_clear_refreshToken sampleEnv (at_ms 3000000)
             pendingResetDb 1).
    apply (PasswordReset sampleEnv (at_ms 3000000) pendingResetDb 1
             (resetting (Some sampleResetToken) "secret3") sampleResetToken
             resetClaims pendingRow); reflexivity.
Defined.

(** C5 at a concrete input: the pending token, a thousand seconds after it
    was requested. *)
Lemma resetPassword_postcondition_witness :
  In pendingRow pendingResetDb /\
  verifyToken sampleResetToken (JWT_SECRET sampleEnv) 3000000 = inr resetClaims /\
  User.resetToken pendingRow = Some sampleResetToken /\
  User.resetTokenExpiry pendingRow = Some 5600000%Z /\
  hashPassword (at_ms 3000000) (Text "secret3")
    = Returns (Bcrypt.digestOf "salt" "secret3") /\
  fst (resetPassword sampleEnv (at_ms 3000000)
         (resetting (Some sampleResetToken) "secret3") pendingResetDb)
  = [ afterReset 3000000 (Bcrypt.digestOf "salt" "secret3") pendingRow ] /\
  sent (snd (resetPassword sampleEnv (at_ms 3000000)
               (resetting (Some sampleResetToken) "secret3") pendingResetDb))
  = {| status := 200; success := true;
       message := "Password reset successful"; data := VNull |}.
Proof.
  assert (Hin : In pendingRow pendingResetDb) by (left; reflexivity).
  assert (Hlt : (now (at_ms 3000000) < 5600000)%Z) by reflexivity.
  destruct (resetPassword_postcondition sampleEnv (at_ms 3000000)
              (resetting (Some sampleResetToken) "secret3") pendingResetDb
              sampleResetToken resetClaims pendingRow 5600000%Z
              eq_refl eq_refl eq_refl Hin eq_refl eq_refl eq_refl Hlt)
    as [h [Hh H]].
  assert (Hhash : h = Bcrypt.digestOf "salt" "secret3").
  { cbv in Hh. inversion Hh. reflexivity. }
  subst h.
  split; [exact Hin|]. split; [reflexivity|]. split; [reflexivity|].
  split; [reflexivity|]. split; [exact Hh|]. split.
  - exact (f_equal fst H).
  - exact (f_equal (fun r => sent (snd r)) H).
Defined.

(** C6, counterexample to the merged error for a missing token: with a
    valid new password, an absent token and an empty one are answered with
    the message of the input guard. *)
Lemma resetPassword_without_token :
  validatePassword (Text "secret3") = true /\
  sent (snd (resetPassword sampleEnv (at_ms 3000000)
               (resetting None "secret3") pendingResetDb))
  = errorResponse "Token and new password are required" 400 /\
  sent (snd (resetPassword sampleEnv (at_ms 3000000)
               (resetting (Some (Jwt.Malformed "")) "secret3") pendingResetDb))
  = errorResponse "Token and new password are required" 400 /\
  errorResponse "Token and new password are required" 400
  <> errorResponse "Invalid or expired reset token" 400.
Proof.
  split; [reflexivity|]. split; [reflexivity|]. split; [reflexivity|].
  discriminate.
Qed.

(** C6 at concrete inputs: an absent token; then a consumed token, a token
    signed under another key, and an expired token, each with a valid new
    password. *)
Lemma resetPassword_merged_error_witness :
  let consumed :=
    fst (resetPassword sampleEnv (at_ms 3000000)
           (resetting (Some sampleResetToken) "secret3") pendingResetDb) in
  resetPassword sampleEnv (at_ms 3000000)
    (resetting None "secret3") pendingResetDb
  = (pendingResetDb,
     {| sent := errorResponse "Token and new password are required" 400;
        cookies := [] |}) /\
  sent (snd (resetPassword sampleEnv (at_ms 3100000)
               (resetting (Some sampleResetToken) "secret4") consumed))
  = errorResponse "Invalid or expired reset token" 400 /\
  sent (snd (resetPassword sampleEnv (at_ms 3000000)
               (resetting (Some firstRefreshToken) "secret3") pendingResetDb))
  = errorResponse "Invalid or expired reset token" 400 /\
  sent (snd (resetPassword sampleEnv (at_ms 5600000)
               (resetting (Some sampleResetToken) "secret3") pendingResetDb))
  = errorResponse "Invalid or expired reset token" 400.
Proof.
  cbv zeta. split; [|split; [|split]].
  - exact (proj1 (resetPassword_merged_error sampleEnv (at_ms 3000000)
                    (resetting None "secret3") pendingResetDb) eq_refl).
  - refine (f_equal (fun r => sent (snd r))
              (proj2 (resetPassword_merged_error sampleEnv (at_ms 3100000)
                        (resetting (Some sampleResetToken) "secret4") _)
                 eq_refl eq_refl _)).
    intros c Hv. injection Hv as <-.
    exact (reset_consumes_token sampleEnv (at_ms 3000000)
             (resetting (Some sampleResetToken) "secret3") pendingResetDb
             sampleResetToken resetClaims pendingRow 3100000%Z
             eq_refl eq_refl eq_refl eq_refl).
  - refine (f_equal (fun r => sent (snd r))
              (proj2 (resetPassword_merged_error sampleEnv (at_ms 3000000)
                        (resetting (Some firstRefreshToken) "secret3")
                        pendingResetDb)
                 eq_refl eq_refl _)).
    intros c Hv. discriminate Hv.
  - refine (f_equal (fun r => sent (snd r))
              (proj2 (resetPassword_merged_error sampleEnv (at_ms 5600000)
                        (resetting (Some sampleResetToken) "secret3")
                        pendingResetDb)
                 eq_refl eq_refl _)).
    intros c Hv. discriminate Hv.
Defined.

(** C7, counterexample to indistinguishability for every existing account:
    with a wrong password, a deactivated account answers [Account is
    deactivated] where an unregistered email answers [Invalid email or
    password], so the two are told apart. *)
Lemma login_deactivated_account_revealed :
  comparePassword (Text "wrong-password") (User.password (sampleUser false))
  = Returns false /\
  sent (snd (login sampleEnv (at_ms 3000000)
               (credentials "a@b.com" "wrong-password") [ sampleUser false ]))
  = errorResponse "Account is deactivated" 401 /\
  sent (snd (login sampleEnv (at_ms 3000000)
               (credentials "a@b.com" "wrong-password") []))
  = errorResponse "Invalid email or password" 401 /\
  snd (login sampleEnv (at_ms 3000000)
         (credentials "a@b.com" "wrong-password") [ sampleUser false ])
  <> snd (login sampleEnv (at_ms 3000000)
            (credentials "a@b.com" "wrong-password") []).
Proof.
  split; [reflexivity|]. split; [reflexivity|]. split; [reflexivity|].
  discriminate.
Qed.

(** C7 at a concrete input: an unregistered email, the registered email
    with a wrong password, and the email of a deactivated account. *)
Lemma login_failure_indistinguishable_witness :
  comparePassword (Text "wrong-password") (User.password registeredRow)
  = Returns false /\
  login sampleEnv (at_ms 3000000) (credentials "x@y.com" "secret1") registeredDb
  = (registeredDb, {| sent := errorResponse "Invalid email or password" 401;
                      cookies := [] |}) /\
  login sampleEnv (at_ms 3100000)
        (credentials "a@b.com" "wrong-password") registeredDb
  = (registeredDb, {| sent := errorResponse "Invalid email or password" 401;
                      cookies := [] |}) /\
  login sampleEnv (at_ms 3100000)
        (credentials "a@b.com" "secret1") [ sampleUser false ]
  = ([ sampleUser false ],
     {| sent := errorResponse "Account is deactivated" 401; cookies := [] |}).
Proof.
  pose proof (login_failure_indistinguishable sampleEnv
                (at_ms 3000000) (credentials "x@y.com" "secret1") registeredDb
                (at_ms 3100000) (credentials "a@b.com" "wrong-password")
                registeredDb registeredRow
                eq_refl eq_refl) as [H1 [H2 _]].
  pose proof (login_failure_indistinguishable sampleEnv
                (at_ms 3000000) (credentials "x@y.com" "secret1") registeredDb
                (at_ms 3100000) (credentials "a@b.com" "secret1")
                [ sampleUser false ] (sampleUser false)
                eq_refl eq_refl) as [_ [_ [_ H4]]].
  split; [reflexivity|]. split; [|split].
  - exact (H1 eq_refl eq_refl).
  - exact (H2 eq_refl eq_refl eq_refl eq_refl).
  - exact (H4 eq_refl eq_refl eq_refl).
Defined.

(** C8 at the scenario of the design document: register [a@b.com] with
    [secret1], then log in with the same credentials half a second
    later. *)
Lemma register_then_login_witness :
  configured sampleEnv /\
  validRegistration contains_at [] (credentials "a@b.com" "secret1") /\
  status (sent (snd (register sampleEnv contains_at (at_ms 1000000)
                       (credentials "a@b.com" "secret1") []))) = 201%Z /\
  property "refreshToken"
    (data (sent (snd (register sampleEnv contains_at (at_ms 1000000)
                        (credentials "a@b.com" "secret1") []))))
  = Some (VToken firstRefreshToken) /\
  status (sent (snd (login sampleEnv (at_ms 1500000)
                       (credentials "a@b.com" "secret1") registeredDb))) = 200%Z /\
  property "accessToken"
    (data (sent (snd (login sampleEnv (at_ms 1500000)
                        (credentials "a@b.com" "secret1") registeredDb))))
  = Some (VToken (tokenFor sampleEnv Access 1 1500000)).
Proof.
  assert (Hvalid : validRegistration contains_at []
                     (credentials "a@b.com" "secret1")).
  { unfold validRegistration. split; [reflexivity|]. split; [reflexivity|].
    split; [reflexivity|]. split; [reflexivity|]. split.
    - exists None. reflexivity.
    - exists None. split; [reflexivity|]. intros s Hs; discriminate Hs. }
  destruct (register_then_login sampleEnv contains_at
              (at_ms 1000000) (at_ms 1500000)
              (credentials "a@b.com" "secret1") (credentials "a@b.com" "secret1")
              [] sampleEnv_configured Hvalid eq_refl eq_refl)
    as [ru [lu [Hr [Hl _]]]].
  split; [exact sampleEnv_configured|]. split; [exact Hvalid|].
  split; [|split; [|split]].
  - rewrite Hr. reflexivity.
  - rewrite Hr. reflexivity.
  - unfold registeredDb. rewrite Hl. reflexivity.
  - unfold registeredDb. rewrite Hl. reflexivity.
Defined.

(** C9 at a concrete input: a login while a reset token is pending. *)
Lemma login_returns_row_without_two_fields_witness :
  Prisma.findByEmail pendingResetDb (Text "a@b.com")
  = Returns (Some pendingRow) /\
  exists obj,
    property "user"
      (data (sent (snd (login sampleEnv (at_ms 2500000)
                          (credentials "a@b.com" "secret1") pendingResetDb))))
    = Some (VObj obj) /\
    field "resetToken" obj = Some (VToken sampleResetToken) /\
    field "resetTokenExpiry" obj = Some (VDate 5600000) /\
    field "password" obj = None /\
    field "refreshToken" obj = None.
Proof.
  split; [reflexivity|].
  destruct (login_returns_row_without_two_fields sampleEnv (at_ms 2500000)
              (credentials "a@b.com" "secret1") pendingResetDb pendingRow
              sampleEnv_configured eq_refl eq_refl eq_refl eq_refl eq_refl)
    as [obj [Huser [_ [_ [Hpw [Hrt [Htok Hexp]]]]]]].
  exists obj. split; [exact Huser|]. split; [exact Htok|].
  split; [exact Hexp|]. split; [exact Hpw | exact Hrt].
Defined.

(** ** Concrete runs of the further properties *)

(** X4 at a concrete input: a junk header token next to the good cookie of
    the registered user, one hundred seconds after it was issued. *)
Lemma bearer_header_overrides_cookie_witness :
  Jwt.present (Some (Jwt.Malformed "junk")) = true /\
  authenticate sampleEnv (at_ms 1100000)
    (carrying None (Some firstAccessToken)) registeredDb
  = inr (attach (carrying None (Some firstAccessToken))
                (identify registeredRow)) /\
  match authenticate sampleEnv (at_ms 1100000)
          (carrying (Some (Jwt.Malformed "junk")) (Some firstAccessToken))
          registeredDb,
        authenticate sampleEnv (at_ms 1100000)
          (carrying (Some (Jwt.Malformed "junk")) None) registeredDb
  with
  | inl r1, inl r2 => r1 = r2
  | inr a, inr b => user a = user b
  | _, _ => False
  end.
Proof.
  split; [reflexivity|]. split; [reflexivity|].
  exact (bearer_header_overrides_cookie sampleEnv (at_ms 1100000)
           (carrying (Some (Jwt.Malformed "junk")) (Some firstAccessToken))
           (carrying (Some (Jwt.Malformed "junk")) None) registeredDb
           eq_refl eq_refl).
Defined.

(** X5 at concrete inputs: a login with a wrong password leaves the store
    as it was; a valid registration on a server without [JWT_SECRET] is
    answered 500 and leaves its row. *)
Lemma refused_request_leaves_store_witness :
  success (sent (snd (serve sampleEnv contains_at PostLogin (at_ms 3000000)
                        (credentials "a@b.com" "wrong-password") registeredDb)))
  = false /\
  fst (serve sampleEnv contains_at PostLogin (at_ms 3000000)
         (credentials "a@b.com" "wrong-password") registeredDb) = registeredDb /\
  cookies (snd (serve sampleEnv contains_at PostLogin (at_ms 3000000)
                  (credentials "a@b.com" "wrong-password") registeredDb)) = [] /\
  success (sent (snd (serve unsetEnv contains_at PostRegister (at_ms 1000000)
                        (credentials "a@b.com" "secret1") [])))
  = false /\
  serve unsetEnv contains_at PostRegister (at_ms 1000000)
    (credentials "a@b.com" "secret1") []
  = ([ newRow (at_ms 1000000) (credentials "a@b.com" "secret1") [] ],
     {| sent := errorResponse "Registration failed" 500; cookies := [] |}).
Proof.
  destruct (refused_request_leaves_store sampleEnv contains_at PostLogin
              (at_ms 3000000) (credentials "a@b.com" "wrong-password")
              registeredDb eq_refl) as [Hc [Hs | [Hr _]]];
    [| discriminate Hr].
  destruct (refused_request_leaves_store unsetEnv contains_at PostRegister
              (at_ms 1000000) (credentials "a@b.com" "secret1") [] eq_refl)
    as [_ [Hs' | [_ [_ [_ Hrow]]]]]; [discriminate Hs' |].
  split; [reflexivity|]. split; [exact Hs|]. split; [exact Hc|].
  split; [reflexivity | exact Hrow].
Defined.

(** X7 at a concrete input: an accepted login. *)
Lemma only_reset_and_change_write_passwords_witness :
  writesPassword PostLogin = false /\
  firstn (length registeredDb)
         (map User.password
              (fst (serve sampleEnv contains_at PostLogin (at_ms 3000000)
                      (credentials "a@b.com" "secret1") registeredDb)))
  = map User.password registeredDb.
Proof.
  split; [reflexivity|].
  exact (only_reset_and_change_write_passwords sampleEnv contains_at PostLogin
           (at_ms 3000000) (credentials "a@b.com" "secret1") registeredDb
           eq_refl).
Defined.

(** X8 at a concrete input: log in, then send the access token in the
    header one hundred seconds later. *)
Lemma login_then_authenticate_witness :
  Prisma.findByEmail registeredDb (Text "a@b.com")
  = Returns (Some registeredRow) /\
  Prisma.findById registeredDb 1 = Some registeredRow /\
  generateAccessToken sampleEnv 1 1500000
  = Returns (tokenFor sampleEnv Access 1 1500000) /\
  (Jwt.seconds 1600000 < Jwt.seconds 1500000 + accessExpiresIn sampleEnv)%Z /\
  authenticate sampleEnv (at_ms 1600000)
    (carrying (Some (tokenFor sampleEnv Access 1 1500000)) None)
    (fst (login sampleEnv (at_ms 1500000) (credentials "a@b.com" "secret1")
            registeredDb))
  = inr (attach (carrying (Some (tokenFor sampleEnv Access 1 1500000)) None)
                (identify registeredRow)).
Proof.
  assert (Hlive : (Jwt.seconds (now (at_ms 1600000))
                   < Jwt.seconds (now (at_ms 1500000))
                     + accessExpiresIn sampleEnv)%Z) by reflexivity.
  split; [reflexivity|]. split; [reflexivity|]. split; [reflexivity|].
  split; [exact Hlive|].
  exact (proj2 (login_then_authenticate sampleEnv (at_ms 1500000)
                  (credentials "a@b.com" "secret1") registeredDb registeredRow
                  (tokenFor sampleEnv Access 1 1500000)
                  (at_ms 1600000)
                  (carrying (Some (tokenFor sampleEnv Access 1 1500000)) None)
                  sampleEnv_configured
                  eq_refl eq_refl eq_refl eq_refl eq_refl eq_refl eq_refl
                  eq_refl Hlive)).
Defined.

(** X9 at a concrete input: log in, then refresh with the token of that
    login one hundred seconds later. *)
Lemma login_then_refresh_witness :
  generateRefreshToken sampleEnv 1 1500000
  = Returns (tokenFor sampleEnv Refresh 1 1500000) /\
  (Jwt.seconds 1600000 < Jwt.seconds 1500000 + refreshExpiresIn sampleEnv)%Z /\
  status (sent (snd (refreshToken sampleEnv (at_ms 1600000)
                       (presenting (tokenFor sampleEnv Refresh 1 1500000))
                       (fst (login sampleEnv (at_ms 1500000)
                               (credentials "a@b.com" "secret1")
                               registeredDb))))) = 200%Z.
Proof.
  assert (Hlive : (Jwt.seconds (now (at_ms 1600000))
                   < Jwt.seconds (now (at_ms 1500000))
                     + refreshExpiresIn sampleEnv)%Z) by reflexivity.
  destruct (login_then_refresh sampleEnv (at_ms 1500000)
              (credentials "a@b.com" "secret1") registeredDb registeredRow
              (tokenFor sampleEnv Refresh 1 1500000)
              (at_ms 1600000)
              (presenting (tokenFor sampleEnv Refresh 1 1500000))
              sampleEnv_configured
              eq_refl eq_refl eq_refl eq_refl eq_refl eq_refl eq_refl
              eq_refl Hlive) as [r' [_ [Hok _]]].
  split; [reflexivity|]. split; [exact Hlive | exact Hok].
Defined.

(** X10 at a concrete input: a user without a stored refresh token, and the
    valid token of an earlier session. *)
Lemma no_stored_token_no_refresh_witness :
  holdsRefreshToken [ sampleUser true ] 1 None /\
  verifyToken firstRefreshToken (JWT_REFRESH_SECRET sampleEnv) 1500000
    = inr firstClaims /\
  status (sent (snd (refreshToken sampleEnv (at_ms 1500000)
                       (presenting firstRefreshToken) [ sampleUser true ])))
  = 401%Z.
Proof.
  assert (Hnone : holdsRefreshToken [ sampleUser true ] 1 None).
  { intros u [<-|[]] _. reflexivity. }
  assert (Hnames : forall c,
             verifyToken (presentedRefreshToken (presenting firstRefreshToken))
               (JWT_REFRESH_SECRET sampleEnv) (now (at_ms 1500000)) = inr c ->
             Jwt.userId c = 1%nat).
  { intros c Hc. vm_compute in Hc. injection Hc as <-. reflexivity. }
  split; [exact Hnone|]. split; [reflexivity|].
  exact (proj1 (proj2 (no_stored_token_no_refresh sampleEnv [ sampleUser true ] 1
                         (at_ms 1500000) (presenting firstRefreshToken)
                         Hnone Hnames))).
Defined.

(** X11 at a concrete input: log out with the access token of the
    registration, then present its refresh token. *)
Lemma logout_then_refresh_refused_witness :
  user (optionalAuth sampleEnv (at_ms 1100000)
          (carrying (Some firstAccessToken) None) registeredDb)
  = Some (identify registeredRow) /\
  status (sent (snd (refreshToken sampleEnv (at_ms 1200000)
                       (presenting firstRefreshToken)
                       (fst (serve sampleEnv contains_at PostLogout
                               (at_ms 1100000)
                               (carrying (Some firstAccessToken) None)
                               registeredDb))))) = 401%Z.
Proof.
  assert (Hnames : forall c,
             verifyToken (presentedRefreshToken (presenting firstRefreshToken))
               (JWT_REFRESH_SECRET sampleEnv) (now (at_ms 1200000)) = inr c ->
             Jwt.userId c = ident_id (identify registeredRow)).
  { intros c Hc. vm_compute in Hc. injection Hc as <-. reflexivity. }
  split; [reflexivity|].
  exact (proj2 (logout_then_refresh_refused sampleEnv contains_at
                  (at_ms 1100000) (carrying (Some firstAccessToken) None)
                  registeredDb (identify registeredRow)
                  (at_ms 1200000) (presenting firstRefreshToken)
                  eq_refl Hnames)).
Defined.

(** X12 at a concrete input: ask for a link, reset the password a thousand
    seconds later, then log in with the new password. *)
Lemma reset_round_trip_witness :
  Prisma.findByEmail registeredDb (Text "a@b.com")
  = Returns (Some registeredRow) /\
  generateResetToken sampleEnv 1 2000000 = Returns sampleResetToken /\
  (Jwt.seconds 3000000 < Jwt.seconds 2000000 + 60 * 60)%Z /\
  status (sent (snd (resetPassword sampleEnv (at_ms 3000000)
                       (resetting (Some sampleResetToken) "secret3")
                       pendingResetDb))) = 200%Z /\
  status (sent (snd (login sampleEnv (at_ms 3100000)
                       (credentials "a@b.com" "secret3")
                       (fst (resetPassword sampleEnv (at_ms 3000000)
                               (resetting (Some sampleResetToken) "secret3")
                               pendingResetDb))))) = 200%Z.
Proof.
  assert (Hlive : (Jwt.seconds (now (at_ms 3000000))
                   < Jwt.seconds (now (at_ms 2000000)) + 60 * 60)%Z)
    by reflexivity.
  destruct (reset_round_trip sampleEnv contains_at (at_ms 2000000)
              (credentials "a@b.com" "") registeredDb registeredRow
              sampleResetToken
              (at_ms 3000000) (resetting (Some sampleResetToken) "secret3")
              (at_ms 3100000) (credentials "a@b.com" "secret3")
              sampleEnv_configured
              eq_refl eq_refl eq_refl eq_refl eq_refl eq_refl eq_refl Hlive
              eq_refl eq_refl) as [newHash [Hh [Hreset [_ Hlogin]]]].
  assert (Hhash : newHash = Bcrypt.digestOf "salt" "secret3").
  { cbv in Hh. inversion Hh. reflexivity. }
  subst newHash.
  split; [reflexivity|]. split; [reflexivity|]. split; [exact Hlive|].
  split; [exact Hreset | exact Hlogin].
Defined.

(** X13 at a concrete input: the reset token of the pending request is
    used twice. *)
Lemma reset_token_single_use_witness :
  verifyToken sampleResetToken (JWT_SECRET sampleEnv) 3000000 = inr resetClaims /\
  Prisma.findByIdAndLiveResetToken pendingResetDb 1 sampleResetToken 3000000
    = Some pendingRow /\
  status (sent (snd (resetPassword sampleEnv (at_ms 3100000)
                       (resetting (Some sampleResetToken) "secret3")
                       (fst (resetPassword sampleEnv (at_ms 3000000)
                               (resetting (Some sampleResetToken) "secret3")
                               pendingResetDb))))) = 400%Z.
Proof.
  assert (Hnames : forall c',
             verifyToken
               (the_token (body_token
                             (resetting (Some sampleResetToken) "secret3")))
               (JWT_SECRET sampleEnv) (now (at_ms 3100000)) = inr c' ->
             Jwt.userId c' = Jwt.userId resetClaims).
  { intros c' Hc. vm_compute in Hc. injection Hc as <-. reflexivity. }
  split; [reflexivity|]. split; [reflexivity|].
  exact (proj2 (proj2 (reset_token_single_use sampleEnv (at_ms 3000000)
                         (resetting (Some sampleResetToken) "secret3")
                         pendingResetDb sampleResetToken resetClaims pendingRow
                         (at_ms 3100000)
                         (resetting (Some sampleResetToken) "secret3")
                         eq_refl eq_refl eq_refl eq_refl Hnames))).
Defined.

(** X14 at a concrete input: a second link is requested five hundred
    seconds after the first, and the first token is presented. *)
Lemma newer_reset_request_supersedes_witness :
  (Jwt.seconds 2000000 < Jwt.seconds 2500000)%Z /\
  generateResetToken sampleEnv 1 2000000 = Returns sampleResetToken /\
  status (sent (snd (resetPassword sampleEnv (at_ms 3000000)
                       (resetting (Some sampleResetToken) "secret3")
                       (fst (forgotPassword sampleEnv contains_at
                               (at_ms 2500000) (credentials "a@b.com" "")
                               pendingResetDb))))) = 400%Z.
Proof.
  assert (Hlater : (Jwt.seconds (now (at_ms 2000000))
                    < Jwt.seconds (now (at_ms 2500000)))%Z) by reflexivity.
  destruct (newer_reset_request_supersedes sampleEnv contains_at
              (at_ms 2000000) (at_ms 2500000)
              (credentials "a@b.com" "") registeredDb registeredRow
              sampleResetToken
              (at_ms 3000000)
              (resetting (Some sampleResetToken) "secret3")
              eq_refl eq_refl eq_refl Hlater eq_refl eq_refl)
    as [tok2 [_ [_ [_ Hrefused]]]].
  split; [exact Hlater|]. split; [reflexivity | exact Hrefused].
Defined.

(** X15 at a concrete input: a logout with an access token that expired a
    hundred seconds before; the stored refresh token stays. *)
Lemma logout_without_identity_is_noop_witness :
  user (optionalAuth sampleEnv (at_ms 2000000)
          (carrying (Some firstAccessToken) None) registeredDb) = None /\
  fst (serve sampleEnv contains_at PostLogout (at_ms 2000000)
         (carrying (Some firstAccessToken) None) registeredDb) = registeredDb /\
  map User.refreshToken registeredDb = [ Some firstRefreshToken ].
Proof.
  split; [reflexivity|].
  split; [| reflexivity].
  exact (f_equal fst
           (logout_without_identity_is_noop sampleEnv contains_at
              (at_ms 2000000) (carrying (Some firstAccessToken) None)
              registeredDb eq_refl)).
Defined.

(** X16 at a concrete input: a deactivated user sends the right password
    and tokens that verify. *)
Lemma deactivated_account_locked_out_witness :
  deactivated [ sampleUser false ] 1 /\
  (exists r,
      authenticate sampleEnv (at_ms 1100000)
        (fullRequest "a@b.com" "secret1" (Some firstAccessToken)
           (Some firstRefreshToken)) [ sampleUser false ] = inl r /\
      status r = 401%Z) /\
  status (sent (snd (refreshToken sampleEnv (at_ms 1100000)
                       (fullRequest "a@b.com" "secret1" (Some firstAccessToken)
                          (Some firstRefreshToken)) [ sampleUser false ])))
  = 401%Z /\
  success (sent (snd (login sampleEnv (at_ms 1100000)
                        (fullRequest "a@b.com" "secret1" (Some firstAccessToken)
                           (Some firstRefreshToken)) [ sampleUser false ])))
  = false.
Proof.
  assert (Hoff : deactivated [ sampleUser false ] 1).
  { intros u [<-|[]] _. reflexivity. }
  pose proof (deactivated_account_locked_out sampleEnv [ sampleUser false ] 1
                (at_ms 1100000)
                (fullRequest "a@b.com" "secret1" (Some firstAccessToken)
                   (Some firstRefreshToken)) Hoff) as [Ha [Hr Hl]].
  split; [exact Hoff|].
  split.
  { apply Ha. intros c Hc. vm_compute in Hc. injection Hc as <-. reflexivity. }
  split.
  { apply Hr. intros c Hc. vm_compute in Hc. injection Hc as <-. reflexivity. }
  apply Hl. intros u Hu. vm_compute in Hu. inversion Hu. reflexivity.
Defined.

(** X17 at a concrete input: the registered user changes the password with
    a live access token, then logs in with the new password. *)
Lemma change_password_then_login_witness :
  generateAccessToken sampleEnv (User.id registeredRow) 1000000
  = Returns firstAccessToken /\
  (Jwt.seconds 1100000 < Jwt.seconds 1000000 + accessExpiresIn sampleEnv)%Z /\
  status (sent (snd (serve sampleEnv contains_at PatchMyPassword (at_ms 1100000)
                       (changingWithToken (Some firstAccessToken)
                          "secret1" "secret2") registeredDb))) = 200%Z /\
  status (sent (snd (login sampleEnv (at_ms 1200000)
                       (credentials "a@b.com" "secret2")
                       (fst (serve sampleEnv contains_at PatchMyPassword
                               (at_ms 1100000)
                               (changingWithToken (Some firstAccessToken)
                                  "secret1" "secret2") registeredDb)))))
  = 200%Z.
Proof.
  assert (Hlive : (Jwt.seconds (now (at_ms 1100000))
                   < Jwt.seconds 1000000 + accessExpiresIn sampleEnv)%Z)
    by reflexivity.
  destruct (change_password_then_login sampleEnv contains_at (at_ms 1100000)
              (changingWithToken (Some firstAccessToken) "secret1" "secret2")
              registeredDb registeredRow 1000000%Z firstAccessToken
              (at_ms 1200000) (credentials "a@b.com" "secret2")
              sampleEnv_configured
              eq_refl eq_refl eq_refl eq_refl eq_refl Hlive eq_refl eq_refl
              eq_refl eq_refl eq_refl eq_refl)
    as [newHash [Hh [Hchanged [_ Hlogin]]]].
  assert (Hhash : newHash = Bcrypt.digestOf "salt" "secret2").
  { cbv in Hh. inversion Hh. reflexivity. }
  subst newHash.
  split; [reflexivity|]. split; [exact Hlive|].
  split; [exact Hchanged | exact Hlogin].
Defined.

(** X18 at a concrete input: a second registration with the empty user
    name, after one that stored it. *)
Lemma register_taken_username_witness :
  Prisma.findByEmail blankNameDb (Text "c@d.com") = Returns None /\
  (exists v, Prisma.findByUsername blankNameDb (Text "") = Returns (Some v)) /\
  register sampleEnv contains_at (at_ms 1500000)
    (registering "c@d.com" "secret1" (Text "")) blankNameDb
  = (blankNameDb,
     {| sent := errorResponse "Registration failed" 500; cookies := [] |}).
Proof.
  destruct (Prisma.findByUsername blankNameDb (Text "")) as [[v|]|] eqn:Hv;
    [| discriminate Hv | discriminate Hv].
  split; [reflexivity|].
  split; [exists v; reflexivity|].
  exact (register_taken_username sampleEnv contains_at (at_ms 1500000)
           (registering "c@d.com" "secret1" (Text "")) blankNameDb "" v
           eq_refl eq_refl eq_refl eq_refl eq_refl Hv).
Defined.

(** X21 at a concrete input: the registered user asks for the admin role
    and deactivation on the own row; the update is accepted and neither
    column moves. *)
Lemma updateUser_no_privilege_escalation_witness :
  isAdmin sampleIdentity = false /\
  status (sent (snd (updateUser contains_at (at_ms 1100000)
                       (selfPromotion Absent) registeredDb))) = 200%Z /\
  Forall2 (fun r r' =>
             User.role r' = User.role r /\
             User.isActive r' = User.isActive r /\
             (User.id r <> ident_id sampleIdentity -> r' = r))
          registeredDb
          (fst (updateUser contains_at (at_ms 1100000)
                  (selfPromotion Absent) registeredDb)).
Proof.
  split; [reflexivity|]. split; [reflexivity|].
  exact (updateUser_no_privilege_escalation contains_at (at_ms 1100000)
           (selfPromotion Absent) registeredDb sampleIdentity
           eq_refl eq_refl).
Defined.

(** X22 at concrete inputs: the update carries an email without an at
    sign; it is accepted and the stored email stays, and it is refused when
    another row holds that very email. *)
Lemma updateUser_ignores_malformed_email_witness :
  truthy (Text "not-an-email") && contains_at (Text "not-an-email") = false /\
  status (sent (snd (updateUser contains_at (at_ms 1100000)
                       (selfPromotion (Text "not-an-email")) registeredDb)))
  = 200%Z /\
  map User.email (fst (updateUser contains_at (at_ms 1100000)
                         (selfPromotion (Text "not-an-email")) registeredDb))
  = map User.email registeredDb /\
  updateUser contains_at (at_ms 1100000)
    (selfPromotion (Text "not-an-email")) strayDb
  = (strayDb,
     {| sent := errorResponse "Email already taken" 400; cookies := [] |}).
Proof.
  assert (Hin : In strayRow strayDb) by (right; left; reflexivity).
  assert (Hne : "not-an-email" <> "") by discriminate.
  assert (Hid : User.id strayRow <> params_id (selfPromotion (Text "not-an-email")))
    by discriminate.
  split; [reflexivity|]. split; [reflexivity|]. split.
  - exact (proj1 (updateUser_ignores_malformed_email contains_at
                    (at_ms 1100000) (selfPromotion (Text "not-an-email"))
                    registeredDb eq_refl)).
  - exact (proj2 (updateUser_ignores_malformed_email contains_at
                    (at_ms 1100000) (selfPromotion (Text "not-an-email"))
                    strayDb eq_refl)
             sampleIdentity "not-an-email" strayRow
             eq_refl (or_intror eq_refl) eq_refl Hne eq_refl eq_refl
             Hin Hid eq_refl).
Defined.

(** X24 at a concrete input: the admin deletes the registered user, whose
    access and refresh tokens are then presented. *)
Lemma deleted_user_tokens_are_dead_witness :
  status (sent (snd (deleteUser false (managing (Some adminIdentity) 1)
                       officeDb))) = 200%Z /\
  (exists r,
      authenticate sampleEnv (at_ms 1100000)
        (fullRequest "a@b.com" "secret1" (Some firstAccessToken)
           (Some firstRefreshToken))
        (fst (deleteUser false (managing (Some adminIdentity) 1) officeDb))
      = inl r /\ status r = 401%Z) /\
  status (sent (snd (refreshToken sampleEnv (at_ms 1100000)
                       (fullRequest "a@b.com" "secret1" (Some firstAccessToken)
                          (Some firstRefreshToken))
                       (fst (deleteUser false (managing (Some adminIdentity) 1)
                               officeDb))))) = 401%Z.
Proof.
  assert (Hok : status (sent (snd (deleteUser false
                                     (managing (Some adminIdentity) 1)
                                     officeDb))) = 200%Z) by reflexivity.
  pose proof (deleted_user_tokens_are_dead sampleEnv false
                (managing (Some adminIdentity) 1) officeDb (at_ms 1100000)
                (fullRequest "a@b.com" "secret1" (Some firstAccessToken)
                   (Some firstRefreshToken)) Hok) as [Ha Hr].
  split; [exact Hok|].
  split.
  { apply Ha. intros c Hc. vm_compute in Hc. injection Hc as <-. reflexivity. }
  apply Hr. intros c Hc. vm_compute in Hc. injection Hc as <-. reflexivity.
Defined.

(** X26 at a concrete input: the number 123456 as password, for an email
    that is not registered and for the registered one. *)
Lemma login_non_string_password_tells_registered_witness :
  login sampleEnv (at_ms 3000000)
    (sending (Text "a@b.com") (Other "123456" true)) []
  = ([], {| sent := errorResponse "Invalid email or password" 401;
            cookies := [] |}) /\
  login sampleEnv (at_ms 3000000)
    (sending (Text "a@b.com") (Other "123456" true)) registeredDb
  = (registeredDb,
     {| sent := errorResponse "Login failed" 500; cookies := [] |}).
Proof.
  exact (login_non_string_password_tells_registered sampleEnv
           (at_ms 3000000) [] (at_ms 3000000) registeredDb
           (sending (Text "a@b.com") (Other "123456" true)) "123456"
           registeredRow eq_refl eq_refl eq_refl eq_refl eq_refl).
Defined.

